(** * Code-quality analyzer: the scorer and the metric extractor

    A shallow embedding of [src/src/analyzer.py] (class [CodeAnalyzer]):
    [_calculate_score], [_calculate_docstring_coverage],
    [_calculate_comment_density], [_create_error_metrics], [_run_pep8_check]
    and [analyze_file], followed by the properties of the scoring rubric and
    of the records that [analyze_file] builds.

    Conventions of the embedding.
    - Python numbers ([int] and [float]) are exact: an [int] is a [Z], a
      [float] is a rational [Q] (the rounding error of binary floating
      point is left out); a value that the code stores in a [float] slot
      but that may be an [int] at run time (the literal [0]) is its
      rational value.  Equality of such values is [Qeq] ([==]).
    - Python text ([str]) is a list of Unicode code points.
    - An exception is a value: functions that can raise return a [result],
      and [try]/[except] is a match on it.
    - What lives outside the repository (the file system, [ast.parse],
      [radon], the [flake8] subprocess, [inspect.cleandoc]) is a field of
      the environment record [Env]; so are the digits outside ASCII of
      [str.isdigit] and the builtin [int], which depend on the Unicode
      tables and the settings of the interpreter. *)

From Stdlib Require Import QArith Qround Qminmax Lqa ZArith Lia.
From stdpp Require Import gmap strings list fin_maps.
From Equations Require Import Equations.

Local Open Scope Q_scope.
Set Warnings "-register-all".

(** ** Python numbers *)

Module PyNum.

(** [a < b] on numbers, as a boolean. *)
Definition ltb (a b : Q) : bool := negb (Qle_bool b a).
Definition leb (a b : Q) : bool := Qle_bool a b.

(** Builtin [min(a, b)]: the first argument is kept unless a later one
    is strictly smaller. *)
Definition min (a b : Q) : Q := if ltb b a then b else a.

(** Builtin [max(a, b)]: the first argument is kept unless a later one
    is strictly larger. *)
Definition max (a b : Q) : Q := if ltb a b then b else a.

(** Rounding of a rational to the nearest integer, ties to the even
    neighbour: the rule of the builtin [round]. *)
Definition round_half_even (q : Q) : Z :=
  let f := Qfloor q in
  let r := q - inject_Z f in
  if ltb r (1 # 2) then f
  else if ltb (1 # 2) r then (f + 1)%Z
  else if Z.even f then f else (f + 1)%Z.

(** Builtin [round(x, 2)]. *)
Definition round2 (x : Q) : Q := inject_Z (round_half_even (x * 100)) / 100.

End PyNum.

(** ** Text *)

(** A [str] is a sequence of Unicode code points. *)
Definition str : Type := list N.

(** The text of an ASCII literal of the source. *)
Definition lit (s : string) : str :=
  List.map Ascii.N_of_ascii (String.list_ascii_of_string s).

Module PyStr.

(** [c.isspace()]: the code points that [str.strip()] removes. *)
Definition isspace (c : N) : bool :=
  ((9 <=? c) && (c <=? 13) || (28 <=? c) && (c <=? 32)
   || (c =? 133) || (c =? 160) || (c =? 5760)
   || (8192 <=? c) && (c <=? 8202)
   || (c =? 8232) || (c =? 8233) || (c =? 8239) || (c =? 8287)
   || (c =? 12288))%N.

Fixpoint lstrip (s : str) : str :=
  match s with
  | [] => []
  | c :: s' => if isspace c then lstrip s' else s
  end.

Definition rstrip (s : str) : str := rev (lstrip (rev s)).

(** [s.strip()] *)
Definition strip (s : str) : str := rstrip (lstrip s).

(** [s.startswith(c)] for a one-character prefix [c]. *)
Definition startswith (s : str) (c : N) : bool :=
  match s with
  | [] => false
  | c' :: _ => (c' =? c)%N
  end.

(** [s.split(sep)] for a one-character separator: the segments between
    the occurrences of [sep], empty ones included. *)
Fixpoint split (s : str) (sep : N) : list str :=
  match s with
  | [] => [[]]
  | c :: s' =>
      if (c =? sep)%N then [] :: split s' sep
      else match split s' sep with
           | [] => [[c]]
           | seg :: segs => (c :: seg) :: segs
           end
  end.

Definition is_ascii_digit (c : N) : bool := ((48 <=? c) && (c <=? 57))%N.

(** An ASCII numeral: not empty, and made of ASCII digits only. *)
Definition ascii_numeral (s : str) : bool :=
  match s with
  | [] => false
  | _ => forallb is_ascii_digit s
  end.

(** The value of a string of ASCII digits, most significant first. *)
Definition digits_value (s : str) : Z :=
  fold_left (fun acc c => (acc * 10 + Z.of_N (c - 48))%Z) s 0%Z.

End PyStr.

Definition NEWLINE : N := 10.
Definition HASH : N := 35.
Definition SLASH : N := 47.

(** [os.path.basename(p)] (POSIX): what follows the last slash. *)
Definition basename (p : str) : str := List.last (PyStr.split p SLASH) [].

(** ** Exceptions *)

(** The exception classes that the analyzer names or that its operations
    raise.  All of them derive from [Exception]. *)
Inductive exn_class : Type :=
  | Exception
  | ValueError
  | UnicodeDecodeError
  | SyntaxError
  | OSError
  | FileNotFoundError
  | KeyError
  | ZeroDivisionError
  | TypeError
  | RecursionError
  | MemoryError
  | TimeoutExpired.

#[global] Instance exn_class_eq_dec : EqDecision exn_class.
Proof. solve_decision. Defined.

(** The direct base class, intermediate classes the analyzer never names
    ([UnicodeError], [LookupError], [ArithmeticError], [RuntimeError],
    [SubprocessError]) being skipped. *)
Definition base_class (c : exn_class) : option exn_class :=
  match c with
  | Exception => None
  | UnicodeDecodeError => Some ValueError
  | FileNotFoundError => Some OSError
  | _ => Some Exception
  end.

(** A raised exception: its class and [str(e)]. *)
Record exn : Type := mkExn { exn_cls : exn_class; exn_str : str }.

(** [isinstance(e, cls)], the test of an [except cls] clause. *)
Definition isinstance (e : exn) (cls : exn_class) : bool :=
  bool_decide (exn_cls e = cls)
  || match base_class (exn_cls e) with
     | Some b =>
         bool_decide (b = cls)
         || match base_class b with
            | Some bb => bool_decide (bb = cls)
            | None => false
            end
     | None => false
     end.

Inductive result (A : Type) : Type :=
  | Ok (a : A)
  | Raise (e : exn).
Arguments Ok {A} a.
Arguments Raise {A} e.

#[global] Instance result_ret : MRet result := fun A a => Ok a.
#[global] Instance result_bind : MBind result := fun A B f m =>
  match m with
  | Ok a => f a
  | Raise e => Raise e
  end.

(** [try: body / except cls_1: h_1 / ... / except cls_n: h_n]: the first
    clause whose class the exception is an instance of handles it; an
    exception that no clause matches propagates. *)
Fixpoint handle {A} (clauses : list (exn_class * (exn -> result A)))
    (e : exn) : result A :=
  match clauses with
  | [] => Raise e
  | (cls, h) :: rest => if isinstance e cls then h e else handle rest e
  end.

Definition try_except {A} (body : result A)
    (clauses : list (exn_class * (exn -> result A))) : result A :=
  match body with
  | Ok a => Ok a
  | Raise e => handle clauses e
  end.

(** True division [a / b]. *)
Definition py_div (a b : Q) : result Q :=
  if Qeq_bool b 0 then Raise (mkExn ZeroDivisionError (lit "division by zero"))
  else Ok (a / b).

(** Subscription [d[k]] of a dict. *)
Definition getitem (d : gmap string Q) (k : string) : result Q :=
  match d !! k with
  | Some v => Ok v
  | None => Raise (mkExn KeyError (lit ("'" +:+ k +:+ "'")))
  end.

(** ** The scorer *)

(** [CodeAnalyzer._calculate_score].  The local [score] is rebound at every
    augmented assignment; every subscription of [metrics] is kept where the
    source has it. *)
Definition _calculate_score (metrics : gmap string Q) : result Q :=
  let score : Q := 100 in
  pep8_errors ← getitem metrics "pep8_errors";
  let score := score - PyNum.min (pep8_errors * 2) 30 in
  pep8_warnings ← getitem metrics "pep8_warnings";
  let score := score - PyNum.min (pep8_warnings * 0.5) 10 in
  max_complexity ← getitem metrics "max_complexity";
  score ←
    (if PyNum.ltb 10 max_complexity then
       max_complexity ← getitem metrics "max_complexity";
       mret (score - PyNum.min ((max_complexity - 10) * 2) 20)
     else mret score);
  avg_complexity ← getitem metrics "avg_complexity";
  score ←
    (if PyNum.ltb 5 avg_complexity then
       avg_complexity ← getitem metrics "avg_complexity";
       mret (score - PyNum.min ((avg_complexity - 5) * 1) 10)
     else mret score);
  maintainability ← getitem metrics "maintainability";
  score ←
    (if PyNum.ltb 80 maintainability then mret (score + 5)
     else
       maintainability ← getitem metrics "maintainability";
       if PyNum.ltb maintainability 40 then mret (score - 10)
       else mret score);
  docstring_coverage ← getitem metrics "docstring_coverage";
  let score := score + PyNum.min (docstring_coverage * 0.15) 15 in
  comment_density ← getitem metrics "comment_density";
  score ←
    (if PyNum.leb 5 comment_density && PyNum.leb comment_density 20
     then mret (score + 5)
     else
       comment_density ← getitem metrics "comment_density";
       if PyNum.ltb comment_density 2 then mret (score - 5)
       else mret score);
  mret (PyNum.max 0 (PyNum.min 100 score)).

(** The seven raw measurements that [analyze_file] hands to the scorer. *)
Record RawMetrics : Type := mkRaw {
  raw_pep8_errors : Q;
  raw_pep8_warnings : Q;
  raw_avg_complexity : Q;
  raw_max_complexity : Q;
  raw_maintainability : Q;
  raw_docstring_coverage : Q;
  raw_comment_density : Q
}.

(** The dict literal of [analyze_file] (source lines 107-115). *)
Definition metrics_dict (m : RawMetrics) : gmap string Q :=
  {[ "pep8_errors" := raw_pep8_errors m;
     "pep8_warnings" := raw_pep8_warnings m;
     "avg_complexity" := raw_avg_complexity m;
     "max_complexity" := raw_max_complexity m;
     "maintainability" := raw_maintainability m;
     "docstring_coverage" := raw_docstring_coverage m;
     "comment_density" := raw_comment_density m ]}.

(** The rubric as the specification words it (section 4.2, steps 1-8),
    over mathematical [Qmin] and [Qmax]; compared with [_calculate_score]
    below. *)
Module Rubric.

Definition style_errors (m : RawMetrics) : Q :=
  Qmin (raw_pep8_errors m * 2) 30.

Definition style_warnings (m : RawMetrics) : Q :=
  Qmin (raw_pep8_warnings m * 0.5) 10.

Definition complexity_max (m : RawMetrics) : Q :=
  if Qlt_le_dec 10 (raw_max_complexity m)
  then Qmin ((raw_max_complexity m - 10) * 2) 20 else 0.

Definition complexity_avg (m : RawMetrics) : Q :=
  if Qlt_le_dec 5 (raw_avg_complexity m)
  then Qmin ((raw_avg_complexity m - 5) * 1) 10 else 0.

Definition maintainability (m : RawMetrics) : Q :=
  if Qlt_le_dec 80 (raw_maintainability m) then 5
  else if Qlt_le_dec (raw_maintainability m) 40 then - (10) else 0.

Definition documentation (m : RawMetrics) : Q :=
  Qmin (raw_docstring_coverage m * 0.15) 15.

Definition in_band (lo x hi : Q) : bool :=
  match Qlt_le_dec x lo, Qlt_le_dec hi x with
  | right _, right _ => true
  | _, _ => false
  end.

Definition comments (m : RawMetrics) : Q :=
  if in_band 5 (raw_comment_density m) 20 then 5
  else if Qlt_le_dec (raw_comment_density m) 2 then - (5) else 0.

Definition clamp (x : Q) : Q := Qmax 0 (Qmin 100 x).

Definition score (m : RawMetrics) : Q :=
  clamp (100 - style_errors m - style_warnings m
         - complexity_max m - complexity_avg m
         + maintainability m + documentation m + comments m).

End Rubric.

(** ** Syntax trees *)

Inductive constant : Type :=
  | CStr (s : str)      (* a [str] value *)
  | CNonStr.            (* a number, [bytes], [None], ... *)

(** The node classes that the analyzer inspects, directly or through
    [ast.get_docstring]; every other class is [OtherNode].  A definition
    node carries the child nodes that precede its [body] (arguments, bases,
    keywords), the [body], and those that follow it (decorators, return
    annotation, type parameters). *)
Inductive ast : Type :=
  | Module (body : list ast)
  | FunctionDef (pre body post : list ast)
  | AsyncFunctionDef (pre body post : list ast)
  | ClassDef (pre body post : list ast)
  | Expr (value : ast)
  | Constant (value : constant)
  | OtherNode (children : list ast).

(** [ast.iter_child_nodes(node)] *)
Definition iter_child_nodes (node : ast) : list ast :=
  match node with
  | Module body => body
  | FunctionDef pre body post
  | AsyncFunctionDef pre body post
  | ClassDef pre body post => pre ++ body ++ post
  | Expr value => [value]
  | Constant _ => []
  | OtherNode children => children
  end.

Fixpoint node_count (node : ast) : nat :=
  let total := fun (l : list ast) => list_sum (List.map node_count l) in
  match node with
  | Module body => S (total body)
  | FunctionDef pre body post
  | AsyncFunctionDef pre body post
  | ClassDef pre body post => S (total pre + total body + total post)
  | Expr value => S (node_count value)
  | Constant _ => 1
  | OtherNode children => S (total children)
  end.

Definition queue_count (todo : list ast) : nat :=
  list_sum (List.map node_count todo).

Lemma queue_count_app (l1 l2 : list ast) :
  queue_count (l1 ++ l2) = (queue_count l1 + queue_count l2)%nat.
Proof. unfold queue_count. by rewrite map_app, list_sum_app. Qed.

Lemma node_count_children (node : ast) :
  node_count node = S (queue_count (iter_child_nodes node)).
Proof.
  destruct node; cbn [node_count iter_child_nodes];
    rewrite ?queue_count_app; unfold queue_count; simpl; lia.
Qed.

(** The loop of [ast.walk]: pop the first node of the queue, append its
    children at the end, yield it. *)
Equations? walk_queue (todo : list ast) : list ast
    by wf (queue_count todo) lt :=
  walk_queue [] := [];
  walk_queue (node :: todo) :=
    node :: walk_queue (todo ++ iter_child_nodes node).
Proof.
  rewrite queue_count_app.
  change (queue_count (node :: todo))
    with (node_count node + queue_count todo)%nat.
  rewrite (node_count_children node). lia.
Qed.

(** [ast.walk(tree)], as the list of the nodes it yields. *)
Definition walk (tree : ast) : list ast := walk_queue [tree].

Definition is_FunctionDef (node : ast) : bool :=
  match node with FunctionDef _ _ _ => true | _ => false end.

Definition is_ClassDef (node : ast) : bool :=
  match node with ClassDef _ _ _ => true | _ => false end.

(** ** The environment *)

Inductive encoding : Type := utf_8 | cp1251.

(** What the analyzer obtains from outside the repository. *)
Record Env : Type := mkEnv {
  (** [open(filepath, "r", encoding=enc)] followed by [f.read()] *)
  open_read : str -> encoding -> result str;
  (** [ast.parse(code)] *)
  ast_parse : str -> result ast;
  (** [radon.complexity.cc_visit(code)], as the [complexity] of each of the
      blocks it returns *)
  cc_visit : str -> result (list Z);
  (** [radon.metrics.mi_visit(code, multi=True)]: a number, or [None] for a
      value that is neither an [int] nor a [float] *)
  mi_visit : str -> result (option Q);
  (** [subprocess.run(argv, capture_output=True, text=True, timeout=30,
      check=False).stdout] *)
  subprocess_run : list str -> result str;
  (** [inspect.cleandoc(text)] *)
  cleandoc : str -> str;
  (** [c.isdigit()] for a character outside ASCII: the Unicode tables of
      the interpreter decide (the superscripts and the digits of other
      scripts are digits) *)
  unicode_isdigit : N -> bool;
  (** [int(s)], which raises [ValueError] on a text it does not read (a
      digit without a decimal value, more digits than the interpreter
      allows) *)
  int_str : str -> result Z
}.

(** [s.isdigit()]: the text is not empty and each of its characters is a
    digit; the digits of ASCII are [0] to [9]. *)
Definition isdigit (env : Env) (s : str) : bool :=
  match s with
  | [] => false
  | _ =>
      forallb
        (fun c => if (c <? 128)%N then PyStr.is_ascii_digit c
                  else unicode_isdigit env c)
        s
  end.

(** [ast.get_docstring(node)] (with its default [clean=True]). *)
Definition get_docstring (env : Env) (node : ast) : result (option str) :=
  match node with
  | Module body
  | FunctionDef _ body _
  | AsyncFunctionDef _ body _
  | ClassDef _ body _ =>
      match body with
      | Expr (Constant (CStr text)) :: _ => Ok (Some (cleandoc env text))
      | _ => Ok None
      end
  | _ => Raise (mkExn TypeError (lit "node can't have docstring"))
  end.

(** ** The record *)

(** The dataclass [CodeMetrics]. *)
Record CodeMetrics : Type := mkCodeMetrics {
  filename : str;
  lines_of_code : Z;
  num_functions : Z;
  num_classes : Z;
  avg_complexity : Q;
  max_complexity : Z;
  maintainability_index : Q;
  pep8_errors : Z;
  pep8_warnings : Z;
  docstring_coverage : Q;
  comment_density : Q;
  score : Q
}.

(** ** The extractor *)

(** [CodeAnalyzer._create_error_metrics].  [error_msg] only reaches the
    diagnostic that the method prints. *)
Definition _create_error_metrics (filename : str) (error_msg : str)
  : CodeMetrics :=
  {| filename := basename filename;
     lines_of_code := 0;
     num_functions := 0;
     num_classes := 0;
     avg_complexity := 0;
     max_complexity := 0;
     maintainability_index := 0;
     pep8_errors := 100;
     pep8_warnings := 0;
     docstring_coverage := 0;
     comment_density := 0;
     score := 0 |}.

(** One [subprocess.run] of [_run_pep8_check] and the update of its
    counter: [if stdout.strip().isdigit(): count = int(stdout.strip())]. *)
Definition flake8_count (env : Env) (select : str) (filepath : str)
    (count : Z) : result Z :=
  stdout ← subprocess_run env
    [lit "flake8"; select; lit "--count"; lit "--max-line-length=88";
     filepath];
  if isdigit env (PyStr.strip stdout)
  then int_str env (PyStr.strip stdout)
  else mret count.

(** [CodeAnalyzer._run_pep8_check] *)
Definition _run_pep8_check (env : Env) (filepath : str) : result (Z * Z) :=
  try_except
    (let errors := 0%Z in
     let warnings := 0%Z in
     errors ← flake8_count env (lit "--select=E,F") filepath errors;
     warnings ← flake8_count env (lit "--select=W") filepath warnings;
     mret (errors, warnings))
    [ (TimeoutExpired, fun _ => mret (0%Z, 0%Z));
      (FileNotFoundError, fun _ => mret (0%Z, 0%Z));
      (Exception, fun _ => mret (0%Z, 0%Z)) ].

(** The truth value of [docstring and len(docstring.strip()) > 0]. *)
Definition has_text (docstring : option str) : bool :=
  match docstring with
  | None => false
  | Some [] => false
  | Some d => (0 <? length (PyStr.strip d))%nat
  end.

(** The [for node in ast.walk(tree)] loop of
    [_calculate_docstring_coverage], threading [entities_with_doc]. *)
Fixpoint count_documented (env : Env) (nodes : list ast)
    (entities_with_doc : Z) : result Z :=
  match nodes with
  | [] => mret entities_with_doc
  | node :: nodes' =>
      if is_FunctionDef node || is_ClassDef node then
        docstring ← get_docstring env node;
        if has_text docstring
        then count_documented env nodes' (entities_with_doc + 1)%Z
        else count_documented env nodes' entities_with_doc
      else count_documented env nodes' entities_with_doc
  end.

(** [CodeAnalyzer._calculate_docstring_coverage] *)
Definition _calculate_docstring_coverage (env : Env) (tree : ast)
    (num_funcs num_classes : Z) : result Q :=
  let total_entities := (num_funcs + num_classes)%Z in
  if (total_entities =? 0)%Z then mret 100
  else
    entities_with_doc ← count_documented env (walk tree) 0%Z;
    ratio ← py_div (inject_Z entities_with_doc) (inject_Z total_entities);
    mret (ratio * 100).

Definition is_comment_line (line : str) : bool :=
  PyStr.startswith (PyStr.strip line) HASH.

(** The body of [_calculate_comment_density] once [lines] is bound
    (source lines 207-212). *)
Definition density_of_lines (lines : list str) : result Q :=
  let total_lines := Z.of_nat (length lines) in
  if (total_lines =? 0)%Z then mret 0
  else
    let comment_lines :=
      Z.of_nat (length (List.filter is_comment_line lines)) in
    ratio ← py_div (inject_Z comment_lines) (inject_Z total_lines);
    mret (ratio * 100).

(** [CodeAnalyzer._calculate_comment_density] *)
Definition _calculate_comment_density (code : str) : result Q :=
  let lines := PyStr.split code NEWLINE in
  density_of_lines lines.

(** [sum(complexities)] and [max(complexities)] *)
Definition py_sum (l : list Z) : Z := fold_left Z.add l 0%Z.

Definition py_max_list (l : list Z) : result Z :=
  match l with
  | [] => Raise (mkExn ValueError (lit "max() arg is an empty sequence"))
  | x :: l' => mret (fold_left (fun m y => if (m <? y)%Z then y else m) l' x)
  end.

(** The complexity block of [analyze_file] (source lines 73-82). *)
Definition complexity_stats (env : Env) (code : str) : result (Q * Z) :=
  try_except
    (complexities ← cc_visit env code;
     avg_complexity ←
       match complexities with
       | [] => mret 0
       | _ => py_div (inject_Z (py_sum complexities))
                     (inject_Z (Z.of_nat (length complexities)))
       end;
     max_complexity ←
       match complexities with
       | [] => mret 0%Z
       | _ => py_max_list complexities
       end;
     mret (avg_complexity, max_complexity))
    [ (Exception, fun _ => mret (0, 0%Z)) ].

(** The maintainability block of [analyze_file] (source lines 85-92). *)
Definition maintainability_stats (env : Env) (code : str) : result Q :=
  try_except
    (mi_score ← mi_visit env code;
     match mi_score with
     | Some x => mret x
     | None => mret 0
     end)
    [ (Exception, fun _ => mret 0) ].

(** The reading block of [analyze_file] (source lines 48-60): the text of
    the file, or the record that an [except] clause returns. *)
Definition read_code (env : Env) (filepath : str)
  : result (CodeMetrics + str) :=
  try_except
    (code ← open_read env filepath utf_8; mret (inr code))
    [ (UnicodeDecodeError, fun _ =>
         try_except
           (code ← open_read env filepath cp1251; mret (inr code))
           [ (Exception, fun e =>
                mret (inl (_create_error_metrics filepath
                             (lit "Encoding Error: " ++ exn_str e)))) ]);
      (FileNotFoundError, fun _ =>
         mret (inl (_create_error_metrics filepath (lit "File Not Found"))));
      (Exception, fun e =>
         mret (inl (_create_error_metrics filepath
                      (lit "Read Error: " ++ exn_str e)))) ].

(** The parsing block of [analyze_file] (source lines 62-65). *)
Definition parse_code (env : Env) (filepath code : str)
  : result (CodeMetrics + ast) :=
  try_except
    (tree ← ast_parse env code; mret (inr tree))
    [ (SyntaxError, fun e =>
         mret (inl (_create_error_metrics filepath
                      (lit "Syntax Error: " ++ exn_str e))));
      (ValueError, fun e =>
         mret (inl (_create_error_metrics filepath
                      (lit "Syntax Error: " ++ exn_str e)))) ].

(** The rest of [analyze_file] (source lines 67-131), for a file that was
    read and parsed. *)
Definition measure_code (env : Env) (filepath code : str) (tree : ast)
  : result CodeMetrics :=
  let loc := Z.of_nat (length (PyStr.split code NEWLINE)) in
  let num_funcs :=
    Z.of_nat (length (List.filter is_FunctionDef (walk tree))) in
  let num_classes :=
    Z.of_nat (length (List.filter is_ClassDef (walk tree))) in
  '(avg_complexity, max_complexity) ← complexity_stats env code;
  mi_score ← maintainability_stats env code;
  '(pep8_errors, pep8_warnings) ← _run_pep8_check env filepath;
  docstring_coverage ←
    _calculate_docstring_coverage env tree num_funcs num_classes;
  comment_density ← _calculate_comment_density code;
  score ← _calculate_score
    {[ "pep8_errors" := inject_Z pep8_errors;
       "pep8_warnings" := inject_Z pep8_warnings;
       "avg_complexity" := avg_complexity;
       "max_complexity" := inject_Z max_complexity;
       "maintainability" := mi_score;
       "docstring_coverage" := docstring_coverage;
       "comment_density" := comment_density ]};
  mret {| filename := basename filepath;
          lines_of_code := loc;
          num_functions := num_funcs;
          num_classes := num_classes;
          avg_complexity := PyNum.round2 avg_complexity;
          max_complexity := max_complexity;
          maintainability_index := PyNum.round2 mi_score;
          pep8_errors := pep8_errors;
          pep8_warnings := pep8_warnings;
          docstring_coverage := PyNum.round2 docstring_coverage;
          comment_density := PyNum.round2 comment_density;
          score := PyNum.round2 score |}.

(** [CodeAnalyzer.analyze_file] *)
Definition analyze_file (env : Env) (filepath : str) : result CodeMetrics :=
  read ← read_code env filepath;
  match read with
  | inl error_metrics => mret error_metrics
  | inr code =>
      parsed ← parse_code env filepath code;
      match parsed with
      | inl error_metrics => mret error_metrics
      | inr tree => measure_code env filepath code tree
      end
  end.

(** ** Notions used in the statements *)

(** The number of nodes of a tree, the root and every nested node, that
    satisfy [p]. *)
Fixpoint count_nodes (p : ast -> bool) (node : ast) : nat :=
  let here := if p node then 1%nat else 0%nat in
  let below := fun (l : list ast) => list_sum (List.map (count_nodes p) l) in
  match node with
  | Module body => (here + below body)%nat
  | FunctionDef pre body post
  | AsyncFunctionDef pre body post
  | ClassDef pre body post =>
      (here + (below pre + below body + below post))%nat
  | Expr value => (here + count_nodes p value)%nat
  | Constant _ => here
  | OtherNode children => (here + below children)%nat
  end.

(** [sep.join(segs)] for a one-character separator. *)
Fixpoint join (sep : N) (segs : list str) : str :=
  match segs with
  | [] => []
  | [seg] => seg
  | seg :: segs' => seg ++ sep :: join sep segs'
  end.


(** The scorer applied to the metric fields of a record. *)
Definition score_of_fields (r : CodeMetrics) : result Q :=
  _calculate_score
    (metrics_dict
       {| raw_pep8_errors := inject_Z (pep8_errors r);
          raw_pep8_warnings := inject_Z (pep8_warnings r);
          raw_avg_complexity := avg_complexity r;
          raw_max_complexity := inject_Z (max_complexity r);
          raw_maintainability := maintainability_index r;
          raw_docstring_coverage := docstring_coverage r;
          raw_comment_density := comment_density r |}).

(** Two records that differ at most in [score]. *)
Definition agree_except_score (r1 r2 : CodeMetrics) : Prop :=
  filename r1 = filename r2
  /\ lines_of_code r1 = lines_of_code r2
  /\ num_functions r1 = num_functions r2
  /\ num_classes r1 = num_classes r2
  /\ avg_complexity r1 == avg_complexity r2
  /\ max_complexity r1 = max_complexity r2
  /\ maintainability_index r1 == maintainability_index r2
  /\ pep8_errors r1 = pep8_errors r2
  /\ pep8_warnings r1 = pep8_warnings r2
  /\ docstring_coverage r1 == docstring_coverage r2
  /\ comment_density r1 == comment_density r2.

(** The stored metric fields of [r] are the raw measurements [raw], the
    real-valued ones rounded to two digits. *)
Definition stored_from (raw : RawMetrics) (r : CodeMetrics) : Prop :=
  raw_pep8_errors raw = inject_Z (pep8_errors r)
  /\ raw_pep8_warnings raw = inject_Z (pep8_warnings r)
  /\ raw_max_complexity raw = inject_Z (max_complexity r)
  /\ avg_complexity r = PyNum.round2 (raw_avg_complexity raw)
  /\ maintainability_index r = PyNum.round2 (raw_maintainability raw)
  /\ docstring_coverage r = PyNum.round2 (raw_docstring_coverage raw)
  /\ comment_density r = PyNum.round2 (raw_comment_density raw).

(** The seven measurements that [analyze_file] takes of a file that was
    read and parsed (source lines 67-104), before any rounding: what it
    hands to [_calculate_score]. *)
Definition measurements (env : Env) (filepath code : str) (tree : ast)
  : result RawMetrics :=
  '(avg_complexity, max_complexity) ← complexity_stats env code;
  mi_score ← maintainability_stats env code;
  '(pep8_errors, pep8_warnings) ← _run_pep8_check env filepath;
  docstring_coverage ←
    _calculate_docstring_coverage env tree
      (Z.of_nat (length (List.filter is_FunctionDef (walk tree))))
      (Z.of_nat (length (List.filter is_ClassDef (walk tree))));
  comment_density ← _calculate_comment_density code;
  mret {| raw_pep8_errors := inject_Z pep8_errors;
          raw_pep8_warnings := inject_Z pep8_warnings;
          raw_avg_complexity := avg_complexity;
          raw_max_complexity := inject_Z max_complexity;
          raw_maintainability := mi_score;
          raw_docstring_coverage := docstring_coverage;
          raw_comment_density := comment_density |}.

(** Rounding to two digits changes none of the real-valued measurements. *)
Definition two_digit (raw : RawMetrics) : Prop :=
  PyNum.round2 (raw_avg_complexity raw) == raw_avg_complexity raw
  /\ PyNum.round2 (raw_maintainability raw) == raw_maintainability raw
  /\ PyNum.round2 (raw_docstring_coverage raw) == raw_docstring_coverage raw
  /\ PyNum.round2 (raw_comment_density raw) == raw_comment_density raw.

(** The marker of a failed analysis (specification, section 6):
    [pep8_errors == 100] and every structural field zero. *)
Definition is_error_sentinel (r : CodeMetrics) : Prop :=
  pep8_errors r = 100%Z
  /\ lines_of_code r = 0%Z
  /\ num_functions r = 0%Z
  /\ num_classes r = 0%Z
  /\ avg_complexity r == 0
  /\ max_complexity r = 0%Z.

(** The file cannot be read: the UTF-8 read raises, and when it raises
    [UnicodeDecodeError] the CP1251 read raises too. *)
Definition unreadable (env : Env) (filepath : str) : Prop :=
  match open_read env filepath utf_8 with
  | Ok _ => False
  | Raise e =>
      if isinstance e UnicodeDecodeError then
        match open_read env filepath cp1251 with
        | Ok _ => False
        | Raise _ => True
        end
      else True
  end.

(** The text that [analyze_file] goes on with. *)
Definition readable (env : Env) (filepath code : str) : Prop :=
  read_code env filepath = Ok (inr code).

(** [ast.parse] rejects the text with one of the two exception classes of
    malformed source. *)
Definition unparsable (env : Env) (code : str) : Prop :=
  match ast_parse env code with
  | Ok _ => False
  | Raise e => isinstance e SyntaxError || isinstance e ValueError = true
  end.

(** Two raw inputs that differ at most in one field. *)
Definition agree_except_errors (m1 m2 : RawMetrics) : Prop :=
  raw_pep8_warnings m1 = raw_pep8_warnings m2
  /\ raw_avg_complexity m1 = raw_avg_complexity m2
  /\ raw_max_complexity m1 = raw_max_complexity m2
  /\ raw_maintainability m1 = raw_maintainability m2
  /\ raw_docstring_coverage m1 = raw_docstring_coverage m2
  /\ raw_comment_density m1 = raw_comment_density m2.

Definition agree_except_coverage (m1 m2 : RawMetrics) : Prop :=
  raw_pep8_errors m1 = raw_pep8_errors m2
  /\ raw_pep8_warnings m1 = raw_pep8_warnings m2
  /\ raw_avg_complexity m1 = raw_avg_complexity m2
  /\ raw_max_complexity m1 = raw_max_complexity m2
  /\ raw_maintainability m1 = raw_maintainability m2
  /\ raw_comment_density m1 = raw_comment_density m2.

(** The seven keys that [_calculate_score] subscripts. *)
Definition score_keys : list string :=
  [ "pep8_errors"; "pep8_warnings"; "avg_complexity"; "max_complexity";
    "maintainability"; "docstring_coverage"; "comment_density" ]%string.

(** A definition node: what [_calculate_docstring_coverage] inspects. *)
Definition is_def (node : ast) : bool :=
  is_FunctionDef node || is_ClassDef node.

(** [len([n for n in ast.walk(tree) if p(n)])] *)
Definition counted (p : ast -> bool) (tree : ast) : Z :=
  Z.of_nat (length (List.filter p (walk tree))).

(** Two raw inputs with the same numeric values. *)
Definition raw_equiv (m1 m2 : RawMetrics) : Prop :=
  raw_pep8_errors m1 == raw_pep8_errors m2
  /\ raw_pep8_warnings m1 == raw_pep8_warnings m2
  /\ raw_avg_complexity m1 == raw_avg_complexity m2
  /\ raw_max_complexity m1 == raw_max_complexity m2
  /\ raw_maintainability m1 == raw_maintainability m2
  /\ raw_docstring_coverage m1 == raw_docstring_coverage m2
  /\ raw_comment_density m1 == raw_comment_density m2.

(** The analysis of the file fails: it cannot be read, or what was read is
    malformed. *)
Definition analysis_fails (env : Env) (filepath : str) : Prop :=
  unreadable env filepath
  \/ exists code, readable env filepath code /\ unparsable env code.

(** ** A small world for the examples *)

Module Sample.

(** The dict with all seven entries zero. *)
Definition all_zero : gmap string Q := metrics_dict (mkRaw 0 0 0 0 0 0 0).

(** The scenario of the specification, section 8. *)
Definition best_case : RawMetrics := mkRaw 0 0 3 3 90 100 10.

Definition line (s : string) : str := lit s ++ [NEWLINE].

(** The file of [tests/test_analyzer.py]: a documented function, and a
    documented class with an undocumented method. *)
Definition test_code : str :=
  [NEWLINE] ++ line "def simple_function(x):"
  ++ line "    '''Simple function.'''"
  ++ line "    return x * 2"
  ++ [NEWLINE] ++ line "class TestClass:"
  ++ line "    '''Test class.'''"
  ++ line "    def method(self):"
  ++ line "        return 42".

Definition test_tree : ast :=
  Module
    [ FunctionDef [OtherNode [OtherNode []]]
        [ Expr (Constant (CStr (lit "Simple function.")));
          OtherNode [OtherNode [OtherNode []; OtherNode [];
                                Constant CNonStr]] ]
        [];
      ClassDef []
        [ Expr (Constant (CStr (lit "Test class.")));
          FunctionDef [OtherNode [OtherNode []]]
            [ OtherNode [Constant CNonStr] ] [] ]
        [] ].

(** Three lines, one of them a comment; no definition. *)
Definition plain_code : str :=
  line "x = 1" ++ line "  # note" ++ lit "y = 2".

Definition plain_tree : ast :=
  Module [ OtherNode [OtherNode []; Constant CNonStr];
           OtherNode [OtherNode []; Constant CNonStr] ].

(** The malformed file of [tests/test_analyzer.py]. *)
Definition error_code : str := lit "def invalid syntax".

(** 1001 lines, 50 of them comments. *)
Definition long_code : str :=
  concat (repeat [HASH; NEWLINE] 50) ++ repeat NEWLINE 950.

Definition first_code : str := lit "x = 1".
Definition second_code : str := lit "y = 2".

Definition files : list (str * str) :=
  [ (lit "pkg/test_code.py", test_code);
    (lit "pkg/plain.py", plain_code);
    (lit "pkg/error.py", error_code);
    (lit "pkg/empty.py", []);
    (lit "pkg/long.py", long_code);
    (lit "a/m.py", first_code);
    (lit "b/m.py", second_code) ].

Definition trees : list (str * ast) :=
  [ (test_code, test_tree);
    (plain_code, plain_tree);
    ([], Module []);
    (long_code, Module []);
    (first_code, Module [OtherNode [OtherNode []; Constant CNonStr]]);
    (second_code, Module [OtherNode [OtherNode []; Constant CNonStr]]) ].

Fixpoint assoc {A} (key : str) (table : list (str * A)) : option A :=
  match table with
  | [] => None
  | (k, v) :: table' => if decide (k = key) then Some v else assoc key table'
  end.

(** The interpreter of this world knows one digit outside ASCII, the
    superscript two, which [int] does not read. *)
Definition SUPERSCRIPT_TWO : N := 178.

(** [int], on the texts that [isdigit] accepts. *)
Definition int (s : str) : result Z :=
  if PyStr.ascii_numeral s then Ok (PyStr.digits_value s)
  else Raise (mkExn ValueError (lit "invalid literal for int() with base 10")).

Definition env : Env :=
  {| open_read := fun filepath _ =>
       match assoc filepath files with
       | Some code => Ok code
       | None => Raise (mkExn FileNotFoundError (lit "No such file"))
       end;
     ast_parse := fun code =>
       match assoc code trees with
       | Some tree => Ok tree
       | None => Raise (mkExn SyntaxError (lit "invalid syntax"))
       end;
     cc_visit := fun code =>
       if decide (code = test_code) then Ok [1; 2; 1]%Z else Ok [];
     mi_visit := fun code =>
       if decide (code = first_code) then Ok (Some 80.001)
       else if decide (code = second_code) then Ok (Some 80)
       else Ok (Some 50);
     subprocess_run := fun argv =>
       if decide (argv !! 1%nat = Some (lit "--select=E,F"))
       then Ok (line "10") else Ok [];
     cleandoc := PyStr.strip;
     unicode_isdigit := fun c => (c =? SUPERSCRIPT_TWO)%N;
     int_str := int |}.

End Sample.

(** ** More of the analyzer and its companions

    [analyze_directory] of [src/src/analyzer.py],
    [generate_recommendations] of [src/src/report_generator.py], and
    [calculate_duplication_rate], [calculate_import_complexity] and
    [calculate_function_stats] of [src/src/metrics_calculator.py]. *)

Definition SPACE : N := 32.

Module PyText.

(** [s.endswith(suffix)] *)
Definition endswith (s suffix : str) : bool :=
  (length suffix <=? length s)%nat
  && bool_decide (drop (length s - length suffix) s = suffix).

(** The scan of [s.split()]: [word] is the run of non-blank characters
    being read; a blank ends it, and empty runs are not kept. *)
Fixpoint words (word : str) (s : str) : list str :=
  match s with
  | [] => match word with [] => [] | _ => [word] end
  | c :: s' =>
      if PyStr.isspace c then
        match word with
        | [] => words [] s'
        | _ => word :: words [] s'
        end
      else words (word ++ [c]) s'
  end.

(** [s.split()], without a separator. *)
Definition split_whitespace (s : str) : list str := words [] s.

End PyText.

(** [os.path.join(a, b)] (POSIX) *)
Definition path_join (a b : str) : str :=
  if PyStr.startswith b SLASH then b
  else if bool_decide (a = []) || PyText.endswith a [SLASH] then a ++ b
  else a ++ SLASH :: b.

(** *** [CodeAnalyzer.analyze_directory] *)

(** [os.walk(directory)], as the list of the triples [(root, dirs, files)]
    it yields. *)
Record Fs : Type := mkFs {
  os_walk : str -> list (str * list str * list str)
}.

(** The inner loop of [analyze_directory], over the files of one
    directory.  [asdict(metrics)] lists the fields of the dataclass under
    their names; the record stands for it. *)
Fixpoint analyze_files (env : Env) (root : str) (files : list str)
    (results : list CodeMetrics) : result (list CodeMetrics) :=
  match files with
  | [] => mret results
  | file :: files' =>
      if PyText.endswith file (lit ".py") then
        let filepath := path_join root file in
        metrics ← analyze_file env filepath;
        analyze_files env root files' (results ++ [metrics])
      else analyze_files env root files' results
  end.

(** The outer loop of [analyze_directory]. *)
Fixpoint analyze_walk (env : Env) (walked : list (str * list str * list str))
    (results : list CodeMetrics) : result (list CodeMetrics) :=
  match walked with
  | [] => mret results
  | (root, _, files) :: walked' =>
      results ← analyze_files env root files results;
      analyze_walk env walked' results
  end.

(** [CodeAnalyzer.analyze_directory] *)
Definition analyze_directory (env : Env) (fs : Fs) (directory : str)
  : result (list CodeMetrics) :=
  let results := [] in
  analyze_walk env (os_walk fs directory) results.

(** *** [ReportGenerator.generate_recommendations] *)

(** The messages of [generate_recommendations], as code points. *)

(** The advice on style errors (source lines 94-95) *)
Definition ADVICE_PEP8 : str :=
  [ 9888; 65039; 32; 1052; 1085; 1086; 1075; 1086; 32; 1086; 1096; 1080;
    1073; 1086; 1082; 32; 80; 69; 80; 56; 46; 32; 1048; 1089; 1087; 1086;
    1083; 1100; 1079; 1091; 1081; 1090; 1077; 32; 96; 98; 108; 97; 99;
    107; 96; 32; 1076; 1083; 1103; 32; 1072; 1074; 1090; 1086; 1084; 1072;
    1090; 1080; 1095; 1077; 1089; 1082; 1086; 1075; 1086; 32; 1092; 1086;
    1088; 1084; 1072; 1090; 1080; 1088; 1086; 1074; 1072; 1085; 1080;
    1103; 58; 32; 96; 98; 108; 97; 99; 107; 32; 1074; 1072; 1096; 95;
    1092; 1072; 1081; 1083; 46; 112; 121; 96 ]%N.

(** The advice on complexity (source line 101) *)
Definition ADVICE_COMPLEXITY : str :=
  [ 128260; 32; 1042; 1099; 1089; 1086; 1082; 1072; 1103; 32; 1094; 1080;
    1082; 1083; 1086; 1084; 1072; 1090; 1080; 1095; 1077; 1089; 1082;
    1072; 1103; 32; 1089; 1083; 1086; 1078; 1085; 1086; 1089; 1090; 1100;
    46; 32; 1056; 1072; 1079; 1073; 1077; 1081; 1090; 1077; 32; 1089;
    1083; 1086; 1078; 1085; 1099; 1077; 32; 1092; 1091; 1085; 1082; 1094;
    1080; 1080; 32; 1085; 1072; 32; 1073; 1086; 1083; 1077; 1077; 32;
    1087; 1088; 1086; 1089; 1090; 1099; 1077; 46 ]%N.

(** The advice on docstrings (source line 107) *)
Definition ADVICE_DOCSTRINGS : str :=
  [ 128221; 32; 1044; 1086; 1073; 1072; 1074; 1100; 1090; 1077; 32; 100;
    111; 99; 115; 116; 114; 105; 110; 103; 32; 1082; 32; 1092; 1091; 1085;
    1082; 1094; 1080; 1103; 1084; 32; 1080; 32; 1082; 1083; 1072; 1089;
    1089; 1072; 1084; 32; 1076; 1083; 1103; 32; 1083; 1091; 1095; 1096;
    1077; 1081; 32; 1076; 1086; 1082; 1091; 1084; 1077; 1085; 1090; 1072;
    1094; 1080; 1080; 46 ]%N.

(** The advice to add comments (source line 113) *)
Definition ADVICE_ADD_COMMENTS : str :=
  [ 128173; 32; 1044; 1086; 1073; 1072; 1074; 1100; 1090; 1077; 32; 1082;
    1086; 1084; 1084; 1077; 1085; 1090; 1072; 1088; 1080; 1080; 32; 1082;
    32; 1089; 1083; 1086; 1078; 1085; 1099; 1084; 32; 1091; 1095; 1072;
    1089; 1090; 1082; 1072; 1084; 32; 1082; 1086; 1076; 1072; 46 ]%N.

(** The advice on too many comments (source line 116) *)
Definition ADVICE_FEWER_COMMENTS : str :=
  [ 128173; 32; 1057; 1083; 1080; 1096; 1082; 1086; 1084; 32; 1084; 1085;
    1086; 1075; 1086; 32; 1082; 1086; 1084; 1084; 1077; 1085; 1090; 1072;
    1088; 1080; 1077; 1074; 46; 32; 1053; 1077; 1082; 1086; 1090; 1086;
    1088; 1099; 1077; 32; 1080; 1079; 32; 1085; 1080; 1093; 32; 1084;
    1086; 1075; 1091; 1090; 32; 1073; 1099; 1090; 1100; 32; 1080; 1079;
    1073; 1099; 1090; 1086; 1095; 1085; 1099; 1084; 1080; 46 ]%N.

(** The verdict below 50 (source line 122) *)
Definition VERDICT_POOR : str :=
  [ 128680; 32; 1053; 1077; 1086; 1073; 1093; 1086; 1076; 1080; 1084;
    1086; 32; 1089; 1077; 1088; 1100; 1077; 1079; 1085; 1086; 1077; 32;
    1091; 1083; 1091; 1095; 1096; 1077; 1085; 1080; 1077; 32; 1082; 1086;
    1076; 1072; 33 ]%N.

(** The verdict below 70 (source line 125) *)
Definition VERDICT_FAIR : str :=
  [ 128200; 32; 1045; 1089; 1090; 1100; 32; 1082; 1091; 1076; 1072; 32;
    1091; 1083; 1091; 1095; 1096; 1072; 1090; 1100; 46; 32; 1054; 1073;
    1088; 1072; 1090; 1080; 1090; 1077; 32; 1074; 1085; 1080; 1084; 1072;
    1085; 1080; 1077; 32; 1085; 1072; 32; 1088; 1077; 1082; 1086; 1084;
    1077; 1085; 1076; 1072; 1094; 1080; 1080; 32; 1074; 1099; 1096; 1077;
    46 ]%N.

(** The verdict below 85 (source line 128) *)
Definition VERDICT_GOOD : str :=
  [ 9989; 32; 1061; 1086; 1088; 1086; 1096; 1080; 1081; 32; 1082; 1086;
    1076; 33; 32; 1053; 1077; 1073; 1086; 1083; 1100; 1096; 1080; 1077;
    32; 1091; 1083; 1091; 1095; 1096; 1077; 1085; 1080; 1103; 32; 1074;
    1086; 1079; 1084; 1086; 1078; 1085; 1099; 46 ]%N.

(** The verdict from 85 up (source line 130) *)
Definition VERDICT_EXCELLENT : str :=
  [ 127942; 32; 1054; 1090; 1083; 1080; 1095; 1085; 1099; 1081; 32; 1082;
    1086; 1076; 33; 32; 1055; 1088; 1086; 1076; 1086; 1083; 1078; 1072;
    1081; 1090; 1077; 32; 1074; 32; 1090; 1086; 1084; 32; 1078; 1077; 32;
    1076; 1091; 1093; 1077; 46 ]%N.

(** [d.get(k, default)] *)
Definition dict_get (d : gmap string Q) (k : string) (default : Q) : Q :=
  match d !! k with
  | Some v => v
  | None => default
  end.

(** [ReportGenerator.generate_recommendations], on a dict whose values are
    numbers.  [recommendations] is rebound at every [append]. *)
Definition generate_recommendations (metrics : gmap string Q) : list str :=
  let recommendations : list str := [] in
  let recommendations :=
    if PyNum.ltb 5 (dict_get metrics "pep8_errors" 0)
    then recommendations ++ [ADVICE_PEP8] else recommendations in
  let recommendations :=
    if PyNum.ltb 10 (dict_get metrics "max_complexity" 0)
    then recommendations ++ [ADVICE_COMPLEXITY] else recommendations in
  let recommendations :=
    if PyNum.ltb (dict_get metrics "docstring_coverage" 0) 50
    then recommendations ++ [ADVICE_DOCSTRINGS] else recommendations in
  let comment_density := dict_get metrics "comment_density" 0 in
  let recommendations :=
    if PyNum.ltb comment_density 5
    then recommendations ++ [ADVICE_ADD_COMMENTS]
    else if PyNum.ltb 30 comment_density
         then recommendations ++ [ADVICE_FEWER_COMMENTS]
         else recommendations in
  let score := dict_get metrics "score" 0 in
  let recommendations :=
    if PyNum.ltb score 50 then recommendations ++ [VERDICT_POOR]
    else if PyNum.ltb score 70 then recommendations ++ [VERDICT_FAIR]
    else if PyNum.ltb score 85 then recommendations ++ [VERDICT_GOOD]
    else recommendations ++ [VERDICT_EXCELLENT] in
  recommendations.

(** The numeric entries of [asdict(metrics)]: every entry but
    ["filename"]. *)
Definition asdict_numbers (r : CodeMetrics) : gmap string Q :=
  {[ "lines_of_code" := inject_Z (lines_of_code r);
     "num_functions" := inject_Z (num_functions r);
     "num_classes" := inject_Z (num_classes r);
     "avg_complexity" := avg_complexity r;
     "max_complexity" := inject_Z (max_complexity r);
     "maintainability_index" := maintainability_index r;
     "pep8_errors" := inject_Z (pep8_errors r);
     "pep8_warnings" := inject_Z (pep8_warnings r);
     "docstring_coverage" := docstring_coverage r;
     "comment_density" := comment_density r;
     "score" := score r ]}.

(** *** [MetricsCalculator.calculate_duplication_rate] *)

(** The body of the loop over [lines]: the line without its blanks at both
    ends and with every inner run of blanks turned into one space, or
    nothing for a blank line or a comment. *)
Definition clean_line (line : str) : option str :=
  let stripped := PyStr.strip line in
  match stripped with
  | [] => None
  | _ =>
      if negb (PyStr.startswith stripped HASH)
      then Some (join SPACE (PyText.split_whitespace stripped))
      else None
  end.

(** The loop [for line in lines], appending to [cleaned_lines]. *)
Fixpoint clean_lines (lines : list str) (cleaned_lines : list str)
  : list str :=
  match lines with
  | [] => cleaned_lines
  | line :: lines' =>
      match clean_line line with
      | Some cleaned => clean_lines lines' (cleaned_lines ++ [cleaned])
      | None => clean_lines lines' cleaned_lines
      end
  end.

(** One step of [Counter(iterable)]: [counter[elem] += 1], a new element
    going last. *)
Fixpoint counter_add (elem : str) (counter : list (str * Z))
  : list (str * Z) :=
  match counter with
  | [] => [(elem, 1%Z)]
  | (key, count) :: counter' =>
      if bool_decide (key = elem) then (key, (count + 1)%Z) :: counter'
      else (key, count) :: counter_add elem counter'
  end.

(** [Counter(iterable)], as its [items()]. *)
Definition Counter (iterable : list str) : list (str * Z) :=
  fold_left (fun counter elem => counter_add elem counter) iterable [].

(** [MetricsCalculator.calculate_duplication_rate] *)
Definition calculate_duplication_rate (code : str) : result Q :=
  let lines := PyStr.split (PyStr.strip code) NEWLINE in
  let cleaned_lines := clean_lines lines [] in
  if (Z.of_nat (length cleaned_lines) <? 2)%Z then mret 0
  else
    let line_counter := Counter cleaned_lines in
    let duplicate_lines :=
      py_sum (List.map snd
                (List.filter (fun item => (1 <? snd item)%Z) line_counter)) in
    ratio ← py_div (inject_Z duplicate_lines)
                    (inject_Z (Z.of_nat (length cleaned_lines)));
    mret (ratio * 100).

(** *** The syntax tree, as [MetricsCalculator] reads it *)

(** An [ast.alias]: [name] and [asname]. *)
Record alias : Type := mkAlias {
  alias_name : str;
  alias_asname : option str
}.

(** [node.args] of a function definition: the parameters [args], by name,
    and the [defaults], of which the code reads the number alone. *)
Record arguments : Type := mkArguments {
  args : list str;
  defaults : nat
}.

(** Where a node lies in the text: [lineno], [col_offset], [end_lineno]
    and [end_col_offset]. *)
Record position : Type := mkPosition {
  lineno : Z;
  col_offset : Z;
  end_lineno : Z;
  end_col_offset : Z
}.

(** The syntax tree as [MetricsCalculator] inspects it: the two import
    statements with their [names] (and [module], [None] for a relative
    [from . import]), the alias nodes below them, [def] statements with
    their name, arguments, position and child nodes, and every other node
    (an [async def] among them) with its children. *)
Inductive mnode : Type :=
  | Import (names : list alias)
  | ImportFrom (module : option str) (names : list alias)
  | AliasNode (a : alias)
  | FunctionDefNode (name : str) (node_args : arguments) (at_ : position)
      (children : list mnode)
  | MNode (children : list mnode).

(** [ast.iter_child_nodes(node)] *)
Definition mchildren (node : mnode) : list mnode :=
  match node with
  | Import names | ImportFrom _ names => List.map AliasNode names
  | AliasNode _ => []
  | FunctionDefNode _ _ _ children | MNode children => children
  end.

Fixpoint mnode_count (node : mnode) : nat :=
  match node with
  | Import names | ImportFrom _ names => S (length names)
  | AliasNode _ => 1
  | FunctionDefNode _ _ _ children | MNode children =>
      S (list_sum (List.map mnode_count children))
  end.

Definition mqueue_count (todo : list mnode) : nat :=
  list_sum (List.map mnode_count todo).

Lemma mqueue_count_app (l1 l2 : list mnode) :
  mqueue_count (l1 ++ l2) = (mqueue_count l1 + mqueue_count l2)%nat.
Proof. unfold mqueue_count. by rewrite map_app, list_sum_app. Qed.

Lemma mnode_count_children (node : mnode) :
  mnode_count node = S (mqueue_count (mchildren node)).
Proof.
  destruct node as [names | m names | a | name ar pos children | children];
    cbn [mnode_count mchildren]; try done; f_equal;
    unfold mqueue_count; induction names as [| a names IH]; simpl; lia.
Qed.

(** The loop of [ast.walk] on this view of the tree. *)
Equations? mwalk_queue (todo : list mnode) : list mnode
    by wf (mqueue_count todo) lt :=
  mwalk_queue [] := [];
  mwalk_queue (node :: todo) :=
    node :: mwalk_queue (todo ++ mchildren node).
Proof.
  rewrite mqueue_count_app.
  change (mqueue_count (node :: todo))
    with (mnode_count node + mqueue_count todo)%nat.
  rewrite (mnode_count_children node). lia.
Qed.

Definition mwalk (tree : mnode) : list mnode := mwalk_queue [tree].

(** What [MetricsCalculator] calls outside the repository. *)
Record MetricsEnv : Type := mkMetricsEnv {
  (** [ast.parse(code)] *)
  metrics_parse : str -> result mnode;
  (** [ast.get_source_segment(code, node)], which reads the position of
      the node: the text of the node, or [None] *)
  get_source_segment : str -> position -> result (option str)
}.

(** *** [MetricsCalculator.calculate_import_complexity] *)

Inductive import_type : Type := type_import | type_from_import.

(** An entry of [imports]: a dict with the keys ["module"], ["alias"] and
    ["type"], and ["name"] for a [from] import. *)
Record import_entry : Type := mkEntry {
  entry_module : str;
  entry_name : option str;
  entry_alias : option str;
  entry_type : import_type
}.

(** [node.module or ""] *)
Definition module_or_empty (module : option str) : str :=
  match module with
  | Some (c :: m) => c :: m
  | _ => []
  end.

(** What one node of the walk appends to [imports]. *)
Definition entries_of (node : mnode) : list import_entry :=
  match node with
  | Import names =>
      List.map
        (fun a => mkEntry (alias_name a) None (alias_asname a) type_import)
        names
  | ImportFrom module names =>
      List.map
        (fun a => mkEntry (module_or_empty module) (Some (alias_name a))
                    (alias_asname a) type_from_import)
        names
  | _ => []
  end.

(** The loop [for node in ast.walk(tree)], appending to [imports]. *)
Fixpoint collect_imports (nodes : list mnode) (imports : list import_entry)
  : list import_entry :=
  match nodes with
  | [] => imports
  | node :: nodes' => collect_imports nodes' (imports ++ entries_of node)
  end.

(** The loop [for imp in imports] that fills [modules]:
    [imp.get("module", ...)] is the ["module"] entry, which every [imp]
    has; an empty name is skipped; a new name enters with 0 and every
    name met gains 1. *)
Fixpoint group_modules (imports : list import_entry)
    (modules : list (str * Z)) : list (str * Z) :=
  match imports with
  | [] => modules
  | imp :: imports' =>
      let module := entry_module imp in
      match module with
      | [] => group_modules imports' modules
      | _ => group_modules imports' (counter_add module modules)
      end
  end.

(** [MetricsCalculator.calculate_import_complexity]; the bare [except]
    turns every exception into the empty dict. *)
Definition calculate_import_complexity (menv : MetricsEnv) (code : str)
  : gmap string Z :=
  match
    (tree ← metrics_parse menv code;
     let imports := collect_imports (mwalk tree) [] in
     let modules := group_modules imports [] in
     most_used ←
       match modules with
       | [] => mret 0%Z
       | _ => py_max_list (List.map snd modules)
       end;
     mret ({[ "total_imports" := Z.of_nat (length imports);
              "unique_modules" := Z.of_nat (length modules);
              "most_used_module" := most_used ]} : gmap string Z))
  with
  | Ok stats => stats
  | Raise _ => ∅
  end.

(** *** [MetricsCalculator.calculate_function_stats] *)

(** The body of a [try] whose handler is a bare [except:] runs in
    [option]: the handler never looks at the exception, so [None] stands
    for any of them (the [AttributeError] of [None.split] among them). *)
Definition caught {A} (r : result A) : option A :=
  match r with
  | Ok a => Some a
  | Raise _ => None
  end.

(** An entry of [functions]: a dict with the keys ["name"], ["lines"],
    ["params"] and ["defaults"]. *)
Record function_entry : Type := mkFunction {
  f_name : str;
  f_lines : Z;
  f_params : Z;
  f_defaults : Z
}.

(** [l.strip()] as a condition. *)
Definition nonblank (l : str) : bool :=
  match PyStr.strip l with
  | [] => false
  | _ => true
  end.

(** What the loop does for one [def] statement. *)
Definition measure_function (menv : MetricsEnv) (code : str) (name : str)
    (node_args : arguments) (at_ : position) : option function_entry :=
  segment ← caught (get_source_segment menv code at_);
  func_lines ←
    match segment with
    | Some text => Some (PyStr.split text NEWLINE)
    | None => None
    end;
  let body_lines := Z.of_nat (length (List.filter nonblank func_lines)) in
  let num_args := Z.of_nat (length (args node_args)) in
  let num_defaults := Z.of_nat (defaults node_args) in
  Some (mkFunction name body_lines num_args num_defaults).

(** The loop [for node in ast.walk(tree)], appending to [functions]. *)
Fixpoint collect_functions (menv : MetricsEnv) (code : str)
    (nodes : list mnode) (functions : list function_entry)
  : option (list function_entry) :=
  match nodes with
  | [] => Some functions
  | FunctionDefNode name node_args at_ _ :: nodes' =>
      entry ← measure_function menv code name node_args at_;
      collect_functions menv code nodes' (functions ++ [entry])
  | _ :: nodes' => collect_functions menv code nodes' functions
  end.

(** [max(f[key] for f in functions) if functions else 0] *)
Definition max_or_zero (values : list Z) : option Z :=
  match values with
  | [] => Some 0%Z
  | _ => caught (py_max_list values)
  end.

(** [MetricsCalculator.calculate_function_stats]; the values of the dict
    are numbers, [int] or [float]. *)
Definition calculate_function_stats (menv : MetricsEnv) (code : str)
  : gmap string Q :=
  let body :=
    tree ← caught (metrics_parse menv code);
    functions ← collect_functions menv code (mwalk tree) [];
    match functions with
    | [] => Some ∅
    | _ =>
        let total := inject_Z (Z.of_nat (length functions)) in
        avg_lines ←
          caught (py_div (inject_Z (py_sum (List.map f_lines functions)))
                         total);
        avg_params ←
          caught (py_div (inject_Z (py_sum (List.map f_params functions)))
                         total);
        longest ← max_or_zero (List.map f_lines functions);
        most ← max_or_zero (List.map f_params functions);
        Some ({[ "num_functions" := total;
                 "avg_function_length" := PyNum.round2 avg_lines;
                 "avg_function_params" := PyNum.round2 avg_params;
                 "longest_function" := inject_Z longest;
                 "max_params" := inject_Z most ]} : gmap string Q)
    end in
  match body with
  | Some stats => stats
  | None => ∅
  end.

(** ** Notions used in the further statements *)

(** The argument vector of a run of [flake8] by [_run_pep8_check]. *)
Definition argv (select filepath : str) : list str :=
  [lit "flake8"; select; lit "--count"; lit "--max-line-length=88"; filepath].



(** A definition node whose docstring holds text. *)
Definition documented (env : Env) (node : ast) : bool :=
  is_def node
  && match get_docstring env node with
     | Ok docstring => has_text docstring
     | Raise _ => false
     end.

(** The paths that [analyze_directory] analyzes, in its order: for every
    directory walked, its files whose name ends in [.py]. *)
Definition py_paths (walked : list (str * list str * list str))
  : list (str * str) :=
  flat_map
    (fun '(root, _, files) =>
       List.map (pair root)
         (List.filter (fun file => PyText.endswith file (lit ".py")) files))
    walked.

(** The paths of these files, as [os.path.join] builds them. *)
Definition joined (paths : list (str * str)) : list str :=
  List.map (fun '(root, file) => path_join root file) paths.

(** [analyze_file] on each path in turn, stopping at the first exception. *)
Fixpoint analyze_each (env : Env) (paths : list str)
  : result (list CodeMetrics) :=
  match paths with
  | [] => mret []
  | filepath :: paths' =>
      metrics ← analyze_file env filepath;
      rest ← analyze_each env paths';
      mret (metrics :: rest)
  end.

(** [ast.parse] raises nothing but [SyntaxError] and [ValueError]. *)
Definition parser_rejects_only (env : Env) : Prop :=
  forall code e,
    ast_parse env code = Raise e ->
    isinstance e SyntaxError || isinstance e ValueError = true.

(** The five keys that [generate_recommendations] reads. *)
Definition advice_keys : list string :=
  [ "pep8_errors"; "max_complexity"; "docstring_coverage";
    "comment_density"; "score" ]%string.

(** The messages of advice, and the verdicts. *)
Definition advice_messages : list str :=
  [ ADVICE_PEP8; ADVICE_COMPLEXITY; ADVICE_DOCSTRINGS; ADVICE_ADD_COMMENTS;
    ADVICE_FEWER_COMMENTS ].

Definition verdict_messages : list str :=
  [ VERDICT_POOR; VERDICT_FAIR; VERDICT_GOOD; VERDICT_EXCELLENT ].

(** The dict of the defaults of [generate_recommendations]. *)
Definition advice_defaults : gmap string Q :=
  {[ "pep8_errors" := 0; "max_complexity" := 0; "docstring_coverage" := 0;
     "comment_density" := 0; "score" := 0 ]}.

(** How many times [line] occurs in [lines]. *)
Definition occurrences (line : str) (lines : list str) : Z :=
  Z.of_nat (length (List.filter (fun x => bool_decide (x = line)) lines)).

(** The lines that occur more than once. *)
Definition repeated (lines : list str) : list str :=
  List.filter (fun x => (1 <? occurrences x lines)%Z) lines.

(** The lines that [calculate_duplication_rate] compares. *)
Definition code_lines (code : str) : list str :=
  clean_lines (PyStr.split (PyStr.strip code) NEWLINE) [].

(** The count that a counter holds for a key, 0 for an absent key. *)
Fixpoint held (counter : list (str * Z)) (key : str) : Z :=
  match counter with
  | [] => 0%Z
  | (k, n) :: counter' => if bool_decide (k = key) then n else held counter' key
  end.

(** A counter of the lines of [lines]: distinct keys, positive counts, and
    for every line the number of times it occurs. *)
Definition counts (counter : list (str * Z)) (lines : list str) : Prop :=
  NoDup (List.map fst counter)
  /\ Forall (fun item => (0 < snd item)%Z) counter
  /\ forall key, held counter key = occurrences key lines.

(** The import statements of a tree bring this many names. *)
Fixpoint imported_names (node : mnode) : nat :=
  match node with
  | Import names | ImportFrom _ names => length names
  | AliasNode _ => 0%nat
  | FunctionDefNode _ _ _ children | MNode children =>
      list_sum (List.map imported_names children)
  end.

(** The modules named by the import statements met on the walk of a tree,
    one per imported name; the relative imports, which name none, are left
    out. *)
Definition named_modules (tree : mnode) : list str :=
  List.filter (fun module => negb (bool_decide (module = [])))
    (List.map entry_module (flat_map entries_of (mwalk tree))).

(** The test [isinstance(node, ast.FunctionDef)]. *)
Definition is_function_node (node : mnode) : bool :=
  match node with
  | FunctionDefNode _ _ _ _ => true
  | _ => false
  end.

(** The [def] statements of a tree, in the order of the walk. *)
Definition function_nodes (tree : mnode) : list mnode :=
  List.filter is_function_node (mwalk tree).

(** The entry of a [def] statement, when the text of the statement is
    there. *)
Definition measured (menv : MetricsEnv) (code : str) (node : mnode)
  : option function_entry :=
  match node with
  | FunctionDefNode name node_args at_ _ =>
      measure_function menv code name node_args at_
  | _ => None
  end.

(** ** More of the small world *)

Module SampleMore.

(** The input on which every penalty is at its cap. *)
Definition worst_case : RawMetrics := mkRaw 15 20 15 20 0 0 0.

(** Ten lines, one of them a comment, no definition. *)
Definition tidy_code : str :=
  Sample.line "# totals" ++ concat (repeat (Sample.line "x = 1") 8)
  ++ lit "y = 2".

(** A world in which every path holds [tidy_code], [flake8] prints
    nothing and the maintainability index is 90. *)
Definition tidy_env : Env :=
  {| open_read := fun _ _ => Ok tidy_code;
     ast_parse := fun _ => Ok (Module [OtherNode []]);
     cc_visit := fun _ => Ok [];
     mi_visit := fun _ => Ok (Some 90);
     subprocess_run := fun _ => Ok [];
     cleandoc := PyStr.strip;
     unicode_isdigit := unicode_isdigit Sample.env;
     int_str := int_str Sample.env |}.



(** The world of [Sample.env], where the parser exhausts its stack on
    [Sample.plain_code]. *)
Definition crash_env : Env :=
  {| open_read := open_read Sample.env;
     ast_parse := fun code =>
       if decide (code = Sample.plain_code)
       then Raise (mkExn RecursionError (lit "maximum recursion depth"))
       else ast_parse Sample.env code;
     cc_visit := cc_visit Sample.env;
     mi_visit := mi_visit Sample.env;
     subprocess_run := subprocess_run Sample.env;
     cleandoc := cleandoc Sample.env;
     unicode_isdigit := unicode_isdigit Sample.env;
     int_str := int_str Sample.env |}.

(** A directory with five files, four of them Python sources. *)
Definition fs : Fs :=
  {| os_walk := fun directory =>
       if decide (directory = lit "pkg")
       then [ (lit "pkg", [],
               [ lit "test_code.py"; lit "notes.txt"; lit "plain.py";
                 lit "error.py"; lit "empty.py" ]) ]
       else [] |}.

(** The text of [test_duplication_rate] with the spacing of two lines
    changed and a comment added: seven lines of code, six of them with a
    twin. *)
Definition duplicated_code : str :=
  [NEWLINE] ++ Sample.line "x = 1" ++ Sample.line "y = 2"
  ++ Sample.line "z = x + y" ++ Sample.line "x  =  1"
  ++ Sample.line "    y = 2" ++ Sample.line "# again"
  ++ Sample.line "z = x + y" ++ Sample.line "print(z)".

(** The imports of [test_import_complexity], with a relative import
    added: nine names, six modules. *)
Definition import_tree : mnode :=
  MNode
    [ Import [mkAlias (lit "os") None];
      Import [mkAlias (lit "sys") None];
      Import [mkAlias (lit "json") None];
      ImportFrom (Some (lit "typing"))
        [mkAlias (lit "List") None; mkAlias (lit "Dict") None];
      ImportFrom (Some (lit "math"))
        [mkAlias (lit "sqrt") None; mkAlias (lit "pow") None];
      Import [mkAlias (lit "numpy") (Some (lit "np"))];
      MNode [ImportFrom None [mkAlias (lit "helpers") None]] ].

(** Two functions and a nested one. *)
Definition functions_code : str :=
  Sample.line "def add(a, b=0):" ++ Sample.line "    # sum"
  ++ Sample.line "" ++ Sample.line "    return a + b" ++ Sample.line ""
  ++ Sample.line "def main():" ++ Sample.line "    def show(x):"
  ++ Sample.line "        print(x)" ++ Sample.line "    show(add(1))".

Definition functions_tree : mnode :=
  MNode
    [ FunctionDefNode (lit "add") (mkArguments [lit "a"; lit "b"] 1)
        (mkPosition 1 0 4 16) [MNode [MNode []; MNode []]; MNode []];
      FunctionDefNode (lit "main") (mkArguments [] 0)
        (mkPosition 6 0 9 16)
        [ MNode [];
          FunctionDefNode (lit "show") (mkArguments [lit "x"] 0)
            (mkPosition 7 4 8 16) [MNode [MNode []]; MNode []];
          MNode [] ] ].

(** The text between two positions, for a text in ASCII with more than
    one line between them. *)
Definition text_between (code : str) (at_ : position) : option str :=
  let first := Z.to_nat (lineno at_ - 1) in
  let count := Z.to_nat (end_lineno at_ - lineno at_ + 1) in
  match take count (drop first (PyStr.split code NEWLINE)) with
  | head :: middle :: rest =>
      Some (join NEWLINE
              (drop (Z.to_nat (col_offset at_)) head
               :: removelast (middle :: rest)
               ++ [take (Z.to_nat (end_col_offset at_))
                     (List.last (middle :: rest) [])]))
  | _ => None
  end.

(** A parser that knows two texts. *)
Definition metrics_env : MetricsEnv :=
  {| metrics_parse := fun code =>
       if decide (code = lit "imports") then Ok import_tree
       else if decide (code = functions_code) then Ok functions_tree
       else Raise (mkExn SyntaxError (lit "invalid syntax"));
     get_source_segment := fun code at_ => Ok (text_between code at_) |}.

(** The same world, where no node has a position to read. *)
Definition unplaced_env : MetricsEnv :=
  {| metrics_parse := metrics_parse metrics_env;
     get_source_segment := fun _ _ => Ok None |}.

End SampleMore.

(** * Properties *)

(** ** Numbers *)

Module PyNumFacts.

Lemma ltb_lt a b : PyNum.ltb a b = true <-> a < b.
Proof.
  unfold PyNum.ltb.
  rewrite negb_true_iff, <- not_true_iff_false, Qle_bool_iff.
  split; [apply Qnot_le_lt | apply Qlt_not_le].
Qed.

Lemma ltb_ge a b : PyNum.ltb a b = false <-> b <= a.
Proof. unfold PyNum.ltb. rewrite negb_false_iff. apply Qle_bool_iff. Qed.

Lemma leb_le a b : PyNum.leb a b = true <-> a <= b.
Proof. apply Qle_bool_iff. Qed.

Lemma leb_gt a b : PyNum.leb a b = false <-> b < a.
Proof.
  unfold PyNum.leb. rewrite <- not_true_iff_false, Qle_bool_iff.
  split; [apply Qnot_le_lt | apply Qlt_not_le].
Qed.

Lemma min_Qmin a b : PyNum.min a b == Qmin a b.
Proof.
  unfold PyNum.min. destruct (PyNum.ltb b a) eqn:E.
  - apply ltb_lt in E. symmetry. apply Q.min_r. by apply Qlt_le_weak.
  - apply ltb_ge in E. symmetry. by apply Q.min_l.
Qed.

Lemma max_Qmax a b : PyNum.max a b == Qmax a b.
Proof.
  unfold PyNum.max. destruct (PyNum.ltb a b) eqn:E.
  - apply ltb_lt in E. symmetry. apply Q.max_r. by apply Qlt_le_weak.
  - apply ltb_ge in E. symmetry. by apply Q.max_l.
Qed.

#[global] Instance ltb_proper : Proper (Qeq ==> Qeq ==> eq) PyNum.ltb.
Proof. intros a a' Ha b b' Hb. unfold PyNum.ltb. by rewrite Ha, Hb. Qed.

Lemma Qmin_cases a b : (a <= b /\ Qmin a b == a) \/ (b <= a /\ Qmin a b == b).
Proof.
  destruct (Qlt_le_dec b a) as [H | H].
  - right. split; [by apply Qlt_le_weak |]. apply Q.min_r.
    by apply Qlt_le_weak.
  - left. split; [done |]. by apply Q.min_l.
Qed.

Lemma Qmax_cases a b : (a <= b /\ Qmax a b == b) \/ (b <= a /\ Qmax a b == a).
Proof.
  destruct (Qlt_le_dec b a) as [H | H].
  - right. split; [by apply Qlt_le_weak |]. apply Q.max_l.
    by apply Qlt_le_weak.
  - left. split; [done |]. by apply Q.max_r.
Qed.

End PyNumFacts.

(** ** The rubric *)

Module RubricFacts.
Import PyNumFacts.

Lemma clamp_range x : 0 <= Rubric.clamp x <= 100.
Proof.
  unfold Rubric.clamp.
  destruct (Qmin_cases 100 x) as [[? E1] | [? E1]];
    destruct (Qmax_cases 0 (Qmin 100 x)) as [[? E2] | [? E2]];
    rewrite E2 in *; rewrite ?E1 in *; lra.
Qed.

Lemma clamp_mono x y : x <= y -> Rubric.clamp x <= Rubric.clamp y.
Proof.
  intros H. unfold Rubric.clamp.
  apply Q.max_le_compat_l. by apply Q.min_le_compat_l.
Qed.

#[global] Instance clamp_proper : Proper (Qeq ==> Qeq) Rubric.clamp.
Proof. intros x y H. unfold Rubric.clamp. by rewrite H. Qed.

Lemma score_range m : 0 <= Rubric.score m <= 100.
Proof. apply clamp_range. Qed.

End RubricFacts.
Module ScorerFacts.
Import PyNumFacts RubricFacts.

Section Lookup.
Variable d : gmap string Q.
Variable m : RawMetrics.
Hypothesis He : d !! "pep8_errors" = Some (raw_pep8_errors m).
Hypothesis Hw : d !! "pep8_warnings" = Some (raw_pep8_warnings m).
Hypothesis Ha : d !! "avg_complexity" = Some (raw_avg_complexity m).
Hypothesis Hx : d !! "max_complexity" = Some (raw_max_complexity m).
Hypothesis Hm : d !! "maintainability" = Some (raw_maintainability m).
Hypothesis Hd : d !! "docstring_coverage" = Some (raw_docstring_coverage m).
Hypothesis Hc : d !! "comment_density" = Some (raw_comment_density m).

Lemma score_lookup :
  exists v, _calculate_score d = Ok v /\ v == Rubric.score m.
Proof.
  unfold _calculate_score, getitem.
  rewrite He, Hw, Ha, Hx, Hm, Hd, Hc.
  cbn [mbind mret result_bind result_ret].
  destruct (PyNum.ltb 10 (raw_max_complexity m)) eqn:E1;
    destruct (PyNum.ltb 5 (raw_avg_complexity m)) eqn:E2;
    destruct (PyNum.ltb 80 (raw_maintainability m)) eqn:E3;
    destruct (PyNum.ltb (raw_maintainability m) 40) eqn:E3';
    destruct (PyNum.leb 5 (raw_comment_density m)) eqn:E4;
    destruct (PyNum.leb (raw_comment_density m) 20) eqn:E5;
    destruct (PyNum.ltb (raw_comment_density m) 2) eqn:E6;
    cbn [andb mbind mret result_bind result_ret];
    (eexists; split; [reflexivity |]);
    rewrite ?ltb_lt, ?ltb_ge, ?leb_le, ?leb_gt in *;
    try (exfalso; lra);
    rewrite max_Qmax, (min_Qmin 100);
    unfold Rubric.score, Rubric.clamp;
    (apply Q.max_compat; [reflexivity |]);
    (apply Q.min_compat; [reflexivity |]);
    unfold Rubric.style_errors, Rubric.style_warnings,
      Rubric.complexity_max, Rubric.complexity_avg,
      Rubric.maintainability, Rubric.documentation, Rubric.comments,
      Rubric.in_band;
    repeat (destruct (Qlt_le_dec _ _); try (exfalso; lra));
    rewrite !min_Qmin; ring.
Qed.
End Lookup.

Lemma metrics_dict_lookup (m : RawMetrics) :
  metrics_dict m !! "pep8_errors" = Some (raw_pep8_errors m)
  /\ metrics_dict m !! "pep8_warnings" = Some (raw_pep8_warnings m)
  /\ metrics_dict m !! "avg_complexity" = Some (raw_avg_complexity m)
  /\ metrics_dict m !! "max_complexity" = Some (raw_max_complexity m)
  /\ metrics_dict m !! "maintainability" = Some (raw_maintainability m)
  /\ metrics_dict m !! "docstring_coverage"
     = Some (raw_docstring_coverage m)
  /\ metrics_dict m !! "comment_density" = Some (raw_comment_density m).
Proof. unfold metrics_dict. repeat split; by simplify_map_eq. Qed.

Lemma score_metrics_dict (m : RawMetrics) :
  exists v, _calculate_score (metrics_dict m) = Ok v /\ v == Rubric.score m.
Proof.
  destruct (metrics_dict_lookup m) as (? & ? & ? & ? & ? & ? & ?).
  by apply score_lookup.
Qed.

(** The rubric never rewards more style errors. *)
Lemma rubric_errors_mono (m1 m2 : RawMetrics) :
  agree_except_errors m1 m2 ->
  raw_pep8_errors m1 <= raw_pep8_errors m2 ->
  Rubric.score m2 <= Rubric.score m1.
Proof.
  destruct m1 as [e1 w1 a1 x1 i1 d1 c1], m2 as [e2 w2 a2 x2 i2 d2 c2].
  intros (Hw & Ha & Hx & Hi & Hd & Hc) He. simpl in *. subst.
  unfold Rubric.score. apply clamp_mono.
  unfold Rubric.style_errors, Rubric.style_warnings, Rubric.complexity_max,
    Rubric.complexity_avg, Rubric.maintainability, Rubric.documentation,
    Rubric.comments. simpl.
  assert (Qmin (e1 * 2) 30 <= Qmin (e2 * 2) 30) as Hmin
    by (apply Q.min_le_compat_r; lra).
  lra.
Qed.

(** The rubric never punishes more documentation. *)
Lemma rubric_coverage_mono (m1 m2 : RawMetrics) :
  agree_except_coverage m1 m2 ->
  raw_docstring_coverage m1 <= raw_docstring_coverage m2 ->
  Rubric.score m1 <= Rubric.score m2.
Proof.
  destruct m1 as [e1 w1 a1 x1 i1 d1 c1], m2 as [e2 w2 a2 x2 i2 d2 c2].
  intros (He & Hw & Ha & Hx & Hi & Hc) Hd. simpl in *. subst.
  unfold Rubric.score. apply clamp_mono.
  unfold Rubric.style_errors, Rubric.style_warnings, Rubric.complexity_max,
    Rubric.complexity_avg, Rubric.maintainability, Rubric.documentation,
    Rubric.comments. simpl.
  assert (Qmin (d1 * 0.15) 15 <= Qmin (d2 * 0.15) 15) as Hmin
    by (apply Q.min_le_compat_r; lra).
  lra.
Qed.

End ScorerFacts.

(** ** Text *)

Module PyStrFacts.

Lemma split_nonempty (s : str) (sep : N) : PyStr.split s sep <> [].
Proof.
  destruct s as [| c s]; simpl; [done |].
  destruct (c =? sep)%N; [done |]. by destruct (PyStr.split s sep).
Qed.

(** One segment more than there are separators. *)
Lemma split_length (s : str) (sep : N) :
  length (PyStr.split s sep) = S (count_occ N.eq_dec s sep).
Proof.
  induction s as [| c s IH]; simpl; [done |].
  destruct (N.eqb_spec c sep) as [-> | Hne].
  - simpl. rewrite IH. by destruct (N.eq_dec sep sep).
  - destruct (N.eq_dec c sep) as [? | _]; [done |].
    pose proof (split_nonempty s sep).
    destruct (PyStr.split s sep); [done |]. exact IH.
Qed.






Lemma filter_length_le {A} (p : A -> bool) (l : list A) :
  (length (List.filter p l) <= length l)%nat.
Proof.
  induction l as [| x l IH]; simpl; [done |].
  destruct (p x); simpl; lia.
Qed.

End PyStrFacts.

(** ** Syntax trees *)

Module AstFacts.

Lemma count_nodes_children (p : ast -> bool) (node : ast) :
  count_nodes p node
  = ((if p node then 1 else 0)
     + list_sum (List.map (count_nodes p) (iter_child_nodes node)))%nat.
Proof.
  destruct node; cbn [count_nodes iter_child_nodes];
    rewrite ?map_app, ?list_sum_app; simpl; lia.
Qed.

(** The walk meets every node of the queued trees exactly once. *)
Lemma walk_queue_count (p : ast -> bool) (todo : list ast) :
  length (List.filter p (walk_queue todo))
  = list_sum (List.map (count_nodes p) todo).
Proof.
  funelim (walk_queue todo); simp walk_queue; [done |].
  cbn [List.filter List.map list_sum].
  rewrite (count_nodes_children p node).
  match goal with
  | IH : forall p, length (List.filter p (walk_queue _)) = _ |- _ =>
      specialize (IH p); rewrite map_app, list_sum_app in IH
  end.
  destruct (p node); simpl; lia.
Qed.

Lemma walk_count (p : ast -> bool) (tree : ast) :
  length (List.filter p (walk tree)) = count_nodes p tree.
Proof. unfold walk. rewrite walk_queue_count. simpl. lia. Qed.

Lemma filter_or_length {A} (p q : A -> bool) (l : list A) :
  (forall x, p x = true -> q x = true -> False) ->
  length (List.filter (fun x => p x || q x) l)
  = (length (List.filter p l) + length (List.filter q l))%nat.
Proof.
  intros Hdisj. induction l as [| x l IH]; simpl; [done |].
  destruct (p x) eqn:Hp, (q x) eqn:Hq; simpl; try lia.
  destruct (Hdisj x Hp Hq).
Qed.

Lemma def_kinds_disjoint (node : ast) :
  is_FunctionDef node = true -> is_ClassDef node = true -> False.
Proof. by destruct node. Qed.

End AstFacts.

(** ** Rounding *)

Module RoundFacts.
Import PyNumFacts.

Lemma round_half_even_cases (q : Q) :
  PyNum.round_half_even q = Qfloor q
  \/ (PyNum.round_half_even q = (Qfloor q + 1)%Z
      /\ inject_Z (Qfloor q) + (1 # 2) <= q).
Proof.
  unfold PyNum.round_half_even.
  destruct (PyNum.ltb (q - inject_Z (Qfloor q)) (1 # 2)) eqn:E1; [by left |].
  apply ltb_ge in E1.
  destruct (PyNum.ltb (1 # 2) (q - inject_Z (Qfloor q))); [right; split; [done | lra] |].
  destruct (Z.even (Qfloor q)); [by left | right; split; [done | lra]].
Qed.

Lemma round_half_even_lower (a : Z) (q : Q) :
  inject_Z a <= q -> (a <= PyNum.round_half_even q)%Z.
Proof.
  intros H.
  assert (a <= Qfloor q)%Z as Hfl.
  { rewrite <- (Qfloor_Z a). by apply Qfloor_resp_le. }
  destruct (round_half_even_cases q) as [-> | [-> _]]; lia.
Qed.

Lemma round_half_even_upper (b : Z) (q : Q) :
  q <= inject_Z b -> (PyNum.round_half_even q <= b)%Z.
Proof.
  intros H. pose proof (Qfloor_le q) as Hfl.
  destruct (round_half_even_cases q) as [-> | [-> Hhalf]].
  - rewrite Zle_Qle. lra.
  - assert (inject_Z (Qfloor q) < inject_Z b) as Hlt by lra.
    rewrite <- Zlt_Qlt in Hlt. lia.
Qed.

(** A unique integer is nearest to an integer. *)
Lemma round_half_even_Z (n : Z) : PyNum.round_half_even (inject_Z n) = n.
Proof.
  apply Z.le_antisymm.
  - apply round_half_even_upper. lra.
  - apply round_half_even_lower. lra.
Qed.

#[global] Instance round_half_even_proper :
  Proper (Qeq ==> eq) PyNum.round_half_even.
Proof.
  intros x y H. unfold PyNum.round_half_even.
  rewrite (Qfloor_comp x y H).
  assert (x - inject_Z (Qfloor y) == y - inject_Z (Qfloor y)) as Hr
    by (by rewrite H).
  by rewrite (ltb_proper _ _ Hr _ _ (reflexivity _)),
    (ltb_proper _ _ (reflexivity (1 # 2)) _ _ Hr).
Qed.

#[global] Instance round2_proper : Proper (Qeq ==> eq) PyNum.round2.
Proof. intros x y H. unfold PyNum.round2. by rewrite H. Qed.

Lemma round2_range (lo hi : Z) (x : Q) :
  inject_Z lo <= x <= inject_Z hi ->
  inject_Z lo <= PyNum.round2 x <= inject_Z hi.
Proof.
  intros [Hlo Hhi]. unfold PyNum.round2.
  assert (lo * 100 <= PyNum.round_half_even (x * 100))%Z as H1.
  { apply round_half_even_lower. rewrite inject_Z_mult.
    change (inject_Z 100) with 100. lra. }
  assert (PyNum.round_half_even (x * 100) <= hi * 100)%Z as H2.
  { apply round_half_even_upper. rewrite inject_Z_mult.
    change (inject_Z 100) with 100. lra. }
  rewrite Zle_Qle, inject_Z_mult in H1, H2.
  change (inject_Z 100) with 100 in H1, H2.
  split.
  - apply Qle_shift_div_l; [lra |]. exact H1.
  - apply Qle_shift_div_r; [lra |]. exact H2.
Qed.

(** Values with two decimal digits are left alone. *)
Lemma round2_hundredths (n : Z) :
  PyNum.round2 (inject_Z n / 100) == inject_Z n / 100.
Proof.
  unfold PyNum.round2.
  assert (inject_Z n / 100 * 100 == inject_Z n) as -> by (field).
  by rewrite round_half_even_Z.
Qed.

Lemma round2_Z (n : Z) : PyNum.round2 (inject_Z n) == inject_Z n.
Proof.
  unfold PyNum.round2.
  assert (inject_Z n * 100 == inject_Z (n * 100)) as ->
    by (by rewrite inject_Z_mult).
  rewrite round_half_even_Z, inject_Z_mult.
  change (inject_Z 100) with 100. field.
Qed.

End RoundFacts.

(** ** The extractor *)

Module ExtractorFacts.
Import PyNumFacts RubricFacts ScorerFacts PyStrFacts AstFacts RoundFacts.

Lemma isinstance_Exception (e : exn) : isinstance e Exception = true.
Proof. by destruct e as [[] ?]. Qed.

Lemma py_div_ok (a b : Q) : ~ b == 0 -> py_div a b = Ok (a / b).
Proof.
  intros Hb. unfold py_div.
  destruct (Qeq_bool b 0) eqn:E; [| done].
  by apply Qeq_bool_eq in E.
Qed.

Lemma inject_Z_nonzero (z : Z) : z <> 0%Z -> ~ inject_Z z == 0.
Proof. intros Hz H. apply Hz. unfold Qeq in H. simpl in H. lia. Qed.

(** A part of a whole, as a percentage. *)
Lemma percentage_range (part whole : Z) :
  (0 <= part <= whole)%Z -> (0 < whole)%Z ->
  0 <= inject_Z part / inject_Z whole * 100 <= 100.
Proof.
  intros [H0 H1] Hpos.
  rewrite Zle_Qle in H0, H1. rewrite Zlt_Qlt in Hpos.
  assert (0 <= inject_Z part / inject_Z whole) as Hlo.
  { apply Qle_shift_div_l; [exact Hpos |]. change (inject_Z 0) with 0 in *. lra. }
  assert (inject_Z part / inject_Z whole <= 1) as Hhi.
  { apply Qle_shift_div_r; [exact Hpos |]. lra. }
  lra.
Qed.

Lemma get_docstring_def (env : Env) (node : ast) :
  is_def node = true -> exists d, get_docstring env node = Ok d.
Proof.
  destruct node as [| pre body post | | pre body post | | |]; try done;
    intros _; simpl;
    repeat match goal with
           | |- context [match ?x with _ => _ end] => destruct x
           end; eauto.
Qed.

(** The loop raises nothing and adds at most one per definition node. *)
Lemma count_documented_range (env : Env) (nodes : list ast) (acc : Z) :
  exists n, count_documented env nodes acc = Ok n
    /\ (acc <= n <= acc + Z.of_nat (length (List.filter is_def nodes)))%Z.
Proof.
  revert acc. induction nodes as [| node nodes IH]; intros acc.
  - exists acc. split; [done | simpl; lia].
  - cbn [count_documented List.filter]. fold (is_def node).
    destruct (is_def node) eqn:Hdef.
    + destruct (get_docstring_def env node Hdef) as [d ->].
      cbn [mbind result_bind].
      destruct (has_text d).
      * destruct (IH (acc + 1)%Z) as (n & -> & Hn).
        exists n. split; [done |]. cbn [length]. lia.
      * destruct (IH acc) as (n & -> & Hn).
        exists n. split; [done |]. cbn [length]. lia.
    + destruct (IH acc) as (n & -> & Hn). by exists n.
Qed.

Lemma docstring_coverage_total (env : Env) (tree : ast) (nf nc : Z) :
  exists v, _calculate_docstring_coverage env tree nf nc = Ok v.
Proof.
  unfold _calculate_docstring_coverage.
  destruct (Z.eqb_spec (nf + nc) 0) as [_ | Hne]; [by eexists |].
  destruct (count_documented_range env (walk tree) 0) as (n & -> & _).
  cbn [mbind result_bind]. rewrite py_div_ok; [by eexists |].
  by apply inject_Z_nonzero.
Qed.

Lemma docstring_coverage_guard (env : Env) (tree : ast) (nf nc : Z) :
  (nf + nc = 0)%Z -> _calculate_docstring_coverage env tree nf nc = Ok 100.
Proof. intros H. unfold _calculate_docstring_coverage. by rewrite H. Qed.

Lemma docstring_coverage_range (env : Env) (tree : ast) :
  exists v,
    _calculate_docstring_coverage env tree
      (counted is_FunctionDef tree) (counted is_ClassDef tree) = Ok v
    /\ 0 <= v <= 100.
Proof.
  unfold _calculate_docstring_coverage, counted.
  set (nf := length (List.filter is_FunctionDef (walk tree))).
  set (nc := length (List.filter is_ClassDef (walk tree))).
  destruct (Z.eqb_spec (Z.of_nat nf + Z.of_nat nc) 0) as [_ | Hne].
  - exists 100. split; [done | lra].
  - destruct (count_documented_range env (walk tree) 0) as (n & -> & Hn).
    unfold is_def in Hn.
    rewrite (filter_or_length _ _ _ def_kinds_disjoint) in Hn.
    fold nf nc in Hn.
    cbn [mbind result_bind]. rewrite py_div_ok.
    + eexists. split; [done |]. apply percentage_range; lia.
    + apply inject_Z_nonzero. lia.
Qed.

Lemma density_of_lines_range (lines : list str) :
  exists v, density_of_lines lines = Ok v /\ 0 <= v <= 100.
Proof.
  unfold density_of_lines.
  destruct (Z.eqb_spec (Z.of_nat (length lines)) 0) as [_ | Hne].
  - exists 0. split; [done | lra].
  - pose proof (filter_length_le is_comment_line lines) as Hle.
    rewrite py_div_ok.
    + eexists. split; [done |]. apply percentage_range; lia.
    + apply inject_Z_nonzero. lia.
Qed.

Lemma comment_density_range (code : str) :
  exists v, _calculate_comment_density code = Ok v /\ 0 <= v <= 100.
Proof. apply density_of_lines_range. Qed.

Lemma complexity_stats_ok (env : Env) (code : str) :
  exists avg mx, complexity_stats env code = Ok (avg, mx).
Proof.
  unfold complexity_stats, try_except.
  match goal with |- context [match ?b with Ok _ => _ | Raise _ => _ end] =>
    destruct b as [[avg mx] | e] end.
  - by exists avg, mx.
  - cbn [handle]. rewrite isinstance_Exception. by eexists _, _.
Qed.

Lemma maintainability_stats_ok (env : Env) (code : str) :
  exists mi, maintainability_stats env code = Ok mi.
Proof.
  unfold maintainability_stats, try_except.
  match goal with |- context [match ?b with Ok _ => _ | Raise _ => _ end] =>
    destruct b as [mi | e] end.
  - by exists mi.
  - cbn [handle]. rewrite isinstance_Exception. by eexists.
Qed.

Lemma run_pep8_check_ok (env : Env) (filepath : str) :
  exists errors warnings,
    _run_pep8_check env filepath = Ok (errors, warnings).
Proof.
  unfold _run_pep8_check, try_except.
  match goal with |- context [match ?b with Ok _ => _ | Raise _ => _ end] =>
    destruct b as [[errors warnings] | e] end.
  - by exists errors, warnings.
  - cbn [handle]. rewrite isinstance_Exception.
    destruct (isinstance e TimeoutExpired), (isinstance e FileNotFoundError);
      by eexists _, _.
Qed.

Lemma read_code_cases (env : Env) (filepath : str) :
  (unreadable env filepath
   /\ exists msg,
        read_code env filepath
        = Ok (inl (_create_error_metrics filepath msg)))
  \/ (exists code, readable env filepath code).
Proof.
  unfold unreadable, readable, read_code, try_except.
  destruct (open_read env filepath utf_8) as [code | e];
    cbn [mbind result_bind mret result_ret handle]; [by right; eexists |].
  destruct (isinstance e UnicodeDecodeError).
  - destruct (open_read env filepath cp1251) as [code | e'];
      cbn [mbind result_bind mret result_ret handle]; [by right; eexists |].
    rewrite isinstance_Exception. left. split; [done | by eexists].
  - destruct (isinstance e FileNotFoundError);
      [| rewrite isinstance_Exception]; left; (split; [done | by eexists]).
Qed.

(** In terms of the two reads: the UTF-8 read gives the text, or it raises
    [UnicodeDecodeError] and the CP1251 read gives it. *)
Lemma readable_iff (env : Env) (filepath code : str) :
  readable env filepath code
  <-> open_read env filepath utf_8 = Ok code
      \/ (exists e, open_read env filepath utf_8 = Raise e
                    /\ isinstance e UnicodeDecodeError = true
                    /\ open_read env filepath cp1251 = Ok code).
Proof.
  unfold readable, read_code, try_except.
  destruct (open_read env filepath utf_8) as [c | e];
    cbn [mbind result_bind mret result_ret handle].
  - split.
    + intros H. left. by inversion H.
    + intros [H | (e & H & _)]; [by inversion H | done].
  - destruct (isinstance e UnicodeDecodeError) eqn:Hcls.
    + destruct (open_read env filepath cp1251) as [c | e'];
        cbn [mbind result_bind mret result_ret handle].
      * split.
        -- intros H. right. exists e. by inversion H.
        -- intros [H | (e0 & _ & _ & H)]; [done | by inversion H].
      * rewrite isinstance_Exception. split; [done |].
        intros [H | (e0 & _ & _ & H)]; done.
    + split.
      * destruct (isinstance e FileNotFoundError);
          [| rewrite isinstance_Exception]; done.
      * intros [H | (e0 & H & Hc & _)]; [done |]. congruence.
Qed.

Lemma readable_not_unreadable (env : Env) (filepath code : str) :
  readable env filepath code -> ~ unreadable env filepath.
Proof.
  intros Hr Hu. destruct (read_code_cases env filepath) as [[_ [msg H]] | _].
  - unfold readable in Hr. congruence.
  - revert Hr Hu. unfold unreadable, readable, read_code, try_except.
    destruct (open_read env filepath utf_8) as [c | e];
      cbn [mbind result_bind mret result_ret handle]; [done |].
    destruct (isinstance e UnicodeDecodeError).
    + destruct (open_read env filepath cp1251);
        cbn [mbind result_bind mret result_ret handle]; [done |].
      by rewrite isinstance_Exception.
    + destruct (isinstance e FileNotFoundError);
        [| rewrite isinstance_Exception]; done.
Qed.

Lemma parse_code_unparsable (env : Env) (filepath code : str) :
  unparsable env code ->
  exists msg,
    parse_code env filepath code
    = Ok (inl (_create_error_metrics filepath msg)).
Proof.
  unfold unparsable, parse_code, try_except.
  destruct (ast_parse env code) as [tree | e]; [done |].
  cbn [handle mbind result_bind mret result_ret]. intros H.
  destruct (isinstance e SyntaxError); [by eexists |].
  simpl in H. rewrite H. by eexists.
Qed.

Lemma parse_code_ok (env : Env) (filepath code : str) (tree : ast) :
  ast_parse env code = Ok tree ->
  parse_code env filepath code = Ok (inr tree).
Proof. intros H. unfold parse_code, try_except. by rewrite H. Qed.

(** What [parse_code] returns tells what [ast.parse] did. *)
Lemma parse_code_inv (env : Env) (filepath code : str) :
  match parse_code env filepath code with
  | Ok (inr tree) => ast_parse env code = Ok tree
  | Ok (inl r) =>
      unparsable env code
      /\ exists msg, r = _create_error_metrics filepath msg
  | Raise e =>
      ast_parse env code = Raise e
      /\ isinstance e SyntaxError = false
      /\ isinstance e ValueError = false
  end.
Proof.
  unfold unparsable, parse_code, try_except.
  destruct (ast_parse env code) as [tree | e]; [done |].
  cbn [handle mbind result_bind].
  destruct (isinstance e SyntaxError) eqn:E1;
    [simpl; split; [done | by eexists] |].
  destruct (isinstance e ValueError) eqn:E2;
    [simpl; split; [done | by eexists] | done].
Qed.

(** The record of a file that was read and parsed. *)
Lemma measure_code_ok (env : Env) (filepath code : str) (tree : ast) :
  exists avg mx mi e w dc cd s,
    complexity_stats env code = Ok (avg, mx)
    /\ maintainability_stats env code = Ok mi
    /\ _run_pep8_check env filepath = Ok (e, w)
    /\ _calculate_docstring_coverage env tree
         (counted is_FunctionDef tree) (counted is_ClassDef tree) = Ok dc
    /\ 0 <= dc <= 100
    /\ _calculate_comment_density code = Ok cd
    /\ 0 <= cd <= 100
    /\ _calculate_score
         (metrics_dict (mkRaw (inject_Z e) (inject_Z w) avg (inject_Z mx)
                          mi dc cd)) = Ok s
    /\ s == Rubric.score (mkRaw (inject_Z e) (inject_Z w) avg (inject_Z mx)
                            mi dc cd)
    /\ measure_code env filepath code tree
       = Ok {| filename := basename filepath;
               lines_of_code :=
                 Z.of_nat (length (PyStr.split code NEWLINE));
               num_functions := counted is_FunctionDef tree;
               num_classes := counted is_ClassDef tree;
               avg_complexity := PyNum.round2 avg;
               max_complexity := mx;
               maintainability_index := PyNum.round2 mi;
               pep8_errors := e;
               pep8_warnings := w;
               docstring_coverage := PyNum.round2 dc;
               comment_density := PyNum.round2 cd;
               score := PyNum.round2 s |}.
Proof.
  destruct (complexity_stats_ok env code) as (avg & mx & Hcx).
  destruct (maintainability_stats_ok env code) as (mi & Hmi).
  destruct (run_pep8_check_ok env filepath) as (e & w & Hpep).
  destruct (docstring_coverage_range env tree) as (dc & Hdc & Hdcr).
  destruct (comment_density_range code) as (cd & Hcd & Hcdr).
  destruct (score_metrics_dict
              (mkRaw (inject_Z e) (inject_Z w) avg (inject_Z mx) mi dc cd))
    as (s & Hs & Hsr).
  exists avg, mx, mi, e, w, dc, cd, s.
  repeat (split; [done |]).
  unfold measure_code. fold (counted is_FunctionDef tree).
  fold (counted is_ClassDef tree).
  rewrite Hcx, Hmi, Hpep, Hdc, Hcd. cbn [mbind result_bind].
  unfold metrics_dict in Hs. cbn [raw_pep8_errors raw_pep8_warnings
    raw_avg_complexity raw_max_complexity raw_maintainability
    raw_docstring_coverage raw_comment_density] in Hs.
  by rewrite Hs.
Qed.

Lemma analyze_file_failed_read (env : Env) (filepath : str) :
  unreadable env filepath ->
  exists msg,
    analyze_file env filepath = Ok (_create_error_metrics filepath msg).
Proof.
  intros Hu. destruct (read_code_cases env filepath) as [[_ [msg H]] | [c H]].
  - exists msg. unfold analyze_file. by rewrite H.
  - by destruct (readable_not_unreadable _ _ _ H).
Qed.

Lemma analyze_file_failed_parse (env : Env) (filepath code : str) :
  readable env filepath code -> unparsable env code ->
  exists msg,
    analyze_file env filepath = Ok (_create_error_metrics filepath msg).
Proof.
  intros Hr Hp. destruct (parse_code_unparsable env filepath code Hp)
    as [msg H].
  exists msg. unfold analyze_file. unfold readable in Hr.
  rewrite Hr. cbn [mbind result_bind]. by rewrite H.
Qed.

Lemma analyze_file_measured (env : Env) (filepath code : str) (tree : ast) :
  readable env filepath code -> ast_parse env code = Ok tree ->
  analyze_file env filepath = measure_code env filepath code tree.
Proof.
  intros Hr Hp. unfold analyze_file. unfold readable in Hr.
  rewrite Hr. cbn [mbind result_bind].
  by rewrite (parse_code_ok env filepath code tree Hp).
Qed.

(** Every record comes from one of the two constructions. *)
Lemma analyze_file_inv (env : Env) (filepath : str) (r : CodeMetrics) :
  analyze_file env filepath = Ok r ->
  (analysis_fails env filepath
   /\ exists msg, r = _create_error_metrics filepath msg)
  \/ (exists code tree,
        readable env filepath code /\ ast_parse env code = Ok tree
        /\ measure_code env filepath code tree = Ok r).
Proof.
  intros H.
  destruct (read_code_cases env filepath) as [[Hu [msg Hr]] | [code Hr]].
  - left. split; [by left |]. exists msg.
    unfold analyze_file in H. rewrite Hr in H.
    cbn [mbind result_bind] in H. by inversion H.
  - pose proof (parse_code_inv env filepath code) as Hp.
    unfold analyze_file in H. pose proof Hr as Hr'. unfold readable in Hr'.
    rewrite Hr' in H. cbn [mbind result_bind] in H.
    destruct (parse_code env filepath code) as [[r' | tree] | e];
      cbn [mbind result_bind mret result_ret] in H.
    + destruct Hp as [Hp [msg ->]]. left.
      split; [right; by exists code |]. exists msg. by inversion H.
    + right. by exists code, tree.
    + done.
Qed.

Lemma measured_not_failed (env : Env) (filepath code : str) (tree : ast) :
  readable env filepath code -> ast_parse env code = Ok tree ->
  ~ analysis_fails env filepath.
Proof.
  intros Hr Hp [Hu | (code' & Hr' & Hp')].
  - by apply (readable_not_unreadable env filepath code).
  - unfold readable in Hr, Hr'. rewrite Hr in Hr'.
    injection Hr' as <-. unfold unparsable in Hp'. by rewrite Hp in Hp'.
Qed.

Lemma analyze_file_failed (env : Env) (filepath : str) :
  analysis_fails env filepath ->
  exists msg,
    analyze_file env filepath = Ok (_create_error_metrics filepath msg).
Proof.
  intros [Hu | (code & Hr & Hp)].
  - by apply analyze_file_failed_read.
  - by apply (analyze_file_failed_parse env filepath code).
Qed.

End ExtractorFacts.

(** ** The rubric on equal values *)

Module RubricEquiv.
Import PyNumFacts RubricFacts.

Ltac rubric_cases :=
  repeat match goal with
         | |- context [Qlt_le_dec ?a ?b] => destruct (Qlt_le_dec a b)
         end;
  try (exfalso; lra).

Section Equiv.
Variables m1 m2 : RawMetrics.
Hypothesis H : raw_equiv m1 m2.

Lemma style_errors_equiv :
  Rubric.style_errors m1 == Rubric.style_errors m2.
Proof.
  destruct H as (He & _). unfold Rubric.style_errors. by rewrite He.
Qed.

Lemma style_warnings_equiv :
  Rubric.style_warnings m1 == Rubric.style_warnings m2.
Proof.
  destruct H as (_ & Hw & _). unfold Rubric.style_warnings. by rewrite Hw.
Qed.

Lemma complexity_max_equiv :
  Rubric.complexity_max m1 == Rubric.complexity_max m2.
Proof.
  destruct H as (_ & _ & _ & Hx & _). unfold Rubric.complexity_max.
  rubric_cases; [by rewrite Hx | done].
Qed.

Lemma complexity_avg_equiv :
  Rubric.complexity_avg m1 == Rubric.complexity_avg m2.
Proof.
  destruct H as (_ & _ & Ha & _). unfold Rubric.complexity_avg.
  rubric_cases; [by rewrite Ha | done].
Qed.

Lemma maintainability_equiv :
  Rubric.maintainability m1 == Rubric.maintainability m2.
Proof.
  destruct H as (_ & _ & _ & _ & Hi & _). unfold Rubric.maintainability.
  rubric_cases; done.
Qed.

Lemma documentation_equiv :
  Rubric.documentation m1 == Rubric.documentation m2.
Proof.
  destruct H as (_ & _ & _ & _ & _ & Hd & _).
  unfold Rubric.documentation. by rewrite Hd.
Qed.

Lemma comments_equiv : Rubric.comments m1 == Rubric.comments m2.
Proof.
  destruct H as (_ & _ & _ & _ & _ & _ & Hc).
  unfold Rubric.comments, Rubric.in_band. rubric_cases; done.
Qed.

Lemma score_equiv : Rubric.score m1 == Rubric.score m2.
Proof.
  unfold Rubric.score.
  by rewrite style_errors_equiv, style_warnings_equiv,
    complexity_max_equiv, complexity_avg_equiv, maintainability_equiv,
    documentation_equiv, comments_equiv.
Qed.
End Equiv.

End RubricEquiv.

(** * The scorer *)

Module ScorerClaims.
Import PyNumFacts RubricFacts ScorerFacts.

(** C1.  The scorer is total and clamped: on every dict that holds the
    seven raw metrics, whatever their values (all zero included),
    [_calculate_score] raises nothing and returns a number between 0 and
    100. *)
Theorem score_total_and_clamped (metrics : gmap string Q) :
  (forall k, In k score_keys -> is_Some (metrics !! k)) ->
  exists v, _calculate_score metrics = Ok v /\ 0 <= v <= 100.
Proof.
  intros Hkeys.
  assert (forall k, In k score_keys -> exists x, metrics !! k = Some x)
    as Hget by (intros k Hk; exact (Hkeys k Hk)).
  unfold score_keys in Hget.
  destruct (Hget "pep8_errors"%string) as [e He]; [simpl; tauto |].
  destruct (Hget "pep8_warnings"%string) as [w Hw]; [simpl; tauto |].
  destruct (Hget "avg_complexity"%string) as [a Ha]; [simpl; tauto |].
  destruct (Hget "max_complexity"%string) as [x Hx]; [simpl; tauto |].
  destruct (Hget "maintainability"%string) as [i Hi]; [simpl; tauto |].
  destruct (Hget "docstring_coverage"%string) as [c Hc]; [simpl; tauto |].
  destruct (Hget "comment_density"%string) as [n Hn]; [simpl; tauto |].
  destruct (score_lookup metrics (mkRaw e w a x i c n)) as (v & Hv & Hr);
    try assumption.
  exists v. split; [exact Hv |].
  rewrite Hr. apply score_range.
Qed.

Lemma score_total_and_clamped_witness :
  (forall k, In k score_keys -> is_Some (Sample.all_zero !! k))
  /\ exists v, _calculate_score Sample.all_zero = Ok v /\ 0 <= v <= 100.
Proof.
  assert (forall k, In k score_keys -> is_Some (Sample.all_zero !! k)) as Hkeys.
  { intros k Hk. simpl in Hk.
    repeat (destruct Hk as [<- | Hk]; [by eexists |]). destruct Hk. }
  split; [exact Hkeys |].
  exact (score_total_and_clamped Sample.all_zero Hkeys).
Defined.

(** C2.  On every raw-metrics input [_calculate_score] returns the value
    of the eight-step rubric [Rubric.score]; the scenario input (errors
    0, warnings 0, average 3, maximum 3, maintainability 90, coverage
    100, density 10) adds up to 125 before the clamp and scores 100. *)
Theorem score_is_rubric :
  (forall m : RawMetrics,
      exists v, _calculate_score (metrics_dict m) = Ok v
                /\ v == Rubric.score m)
  /\ 100 - Rubric.style_errors Sample.best_case - Rubric.style_warnings Sample.best_case
     - Rubric.complexity_max Sample.best_case - Rubric.complexity_avg Sample.best_case
     + Rubric.maintainability Sample.best_case + Rubric.documentation Sample.best_case
     + Rubric.comments Sample.best_case == 125
  /\ _calculate_score (metrics_dict Sample.best_case) = Ok 100.
Proof.
  split; [exact score_metrics_dict |]. split; [| reflexivity].
  by vm_compute.
Qed.

(** C5.  Monotonicity: between two raw inputs that agree on every field
    but [pep8_errors], the one with more errors scores no higher; between
    two that agree on every field but [docstring_coverage], the one with
    more coverage scores no lower. *)
Theorem score_monotone (m1 m2 : RawMetrics) :
  (agree_except_errors m1 m2 ->
   raw_pep8_errors m1 <= raw_pep8_errors m2 ->
   exists s1 s2, _calculate_score (metrics_dict m1) = Ok s1
                 /\ _calculate_score (metrics_dict m2) = Ok s2
                 /\ s2 <= s1)
  /\ (agree_except_coverage m1 m2 ->
      raw_docstring_coverage m1 <= raw_docstring_coverage m2 ->
      exists s1 s2, _calculate_score (metrics_dict m1) = Ok s1
                    /\ _calculate_score (metrics_dict m2) = Ok s2
                    /\ s1 <= s2).
Proof.
  destruct (score_metrics_dict m1) as (s1 & H1 & E1).
  destruct (score_metrics_dict m2) as (s2 & H2 & E2).
  split; intros Hagree Hle; exists s1, s2;
    (split; [exact H1 |]); (split; [exact H2 |]); rewrite E1, E2.
  - by apply rubric_errors_mono.
  - by apply rubric_coverage_mono.
Qed.

Lemma score_monotone_witness :
  (exists s1 s2,
      _calculate_score (metrics_dict (mkRaw 3 4 6 12 50 40 1)) = Ok s1
      /\ _calculate_score (metrics_dict (mkRaw 9 4 6 12 50 40 1)) = Ok s2
      /\ s2 <= s1)
  /\ (exists s1 s2,
         _calculate_score (metrics_dict (mkRaw 3 4 6 12 50 40 1)) = Ok s1
         /\ _calculate_score (metrics_dict (mkRaw 3 4 6 12 50 90 1))
            = Ok s2
         /\ s1 <= s2).
Proof.
  split.
  - apply (score_monotone (mkRaw 3 4 6 12 50 40 1)
             (mkRaw 9 4 6 12 50 40 1)).
    + by repeat split.
    + by vm_compute.
  - apply (score_monotone (mkRaw 3 4 6 12 50 40 1)
             (mkRaw 3 4 6 12 50 90 1)).
    + by repeat split.
    + by vm_compute.
Defined.

End ScorerClaims.

(** * The extractor *)

Module ExtractorClaims.
Import PyNumFacts RubricFacts ScorerFacts PyStrFacts AstFacts RoundFacts
  ExtractorFacts RubricEquiv.

Lemma counted_count_nodes (p : ast -> bool) (tree : ast) :
  counted p tree = Z.of_nat (count_nodes p tree).
Proof. unfold counted. by rewrite walk_count. Qed.

(** C4, as amended.  When the file cannot be read, or [ast.parse]
    rejects the text read with a [SyntaxError] or a [ValueError] (the
    classes that the [except] clause of the parsing step names),
    [analyze_file] raises nothing and returns a record whose structural
    fields are all 0, whose [pep8_errors] is 100 and whose [score] is
    0. *)
Theorem failed_analysis_record (env : Env) (filepath : str) :
  analysis_fails env filepath ->
  exists r, analyze_file env filepath = Ok r
    /\ lines_of_code r = 0%Z /\ num_functions r = 0%Z
    /\ num_classes r = 0%Z /\ avg_complexity r = 0
    /\ max_complexity r = 0%Z /\ pep8_errors r = 100%Z /\ score r = 0.
Proof.
  intros Hf. destruct (analyze_file_failed env filepath Hf) as [msg H].
  exists (_create_error_metrics filepath msg). by repeat split.
Qed.

Lemma failed_analysis_record_witness :
  (exists r, analyze_file Sample.env (lit "pkg/error.py") = Ok r
     /\ lines_of_code r = 0%Z /\ num_functions r = 0%Z
     /\ num_classes r = 0%Z /\ avg_complexity r = 0
     /\ max_complexity r = 0%Z /\ pep8_errors r = 100%Z /\ score r = 0)
  /\ (exists r, analyze_file Sample.env (lit "pkg/missing.py") = Ok r
        /\ lines_of_code r = 0%Z /\ num_functions r = 0%Z
        /\ num_classes r = 0%Z /\ avg_complexity r = 0
        /\ max_complexity r = 0%Z /\ pep8_errors r = 100%Z /\ score r = 0).
Proof.
  split.
  - apply (failed_analysis_record Sample.env (lit "pkg/error.py")).
    right. exists Sample.error_code. split; by vm_compute.
  - apply (failed_analysis_record Sample.env (lit "pkg/missing.py")).
    left. by vm_compute.
Defined.

(** C4, as stated, fails: a text can fail to parse with an exception that
    the [except] clause does not name.  In the world where the parser
    exhausts its stack on the text of [pkg/plain.py], the file is read,
    [ast.parse] raises on its text, and [analyze_file] raises that
    [RecursionError] where the claim has it return a record. *)
Lemma parse_failure_escapes :
  readable SampleMore.crash_env (lit "pkg/plain.py") Sample.plain_code
  /\ ast_parse SampleMore.crash_env Sample.plain_code
     = Raise (mkExn RecursionError (lit "maximum recursion depth"))
  /\ analyze_file SampleMore.crash_env (lit "pkg/plain.py")
     = Raise (mkExn RecursionError (lit "maximum recursion depth"))
  /\ ~ (forall env filepath code e,
           readable env filepath code -> ast_parse env code = Raise e ->
           exists r, analyze_file env filepath = Ok r
             /\ lines_of_code r = 0%Z /\ num_functions r = 0%Z
             /\ num_classes r = 0%Z /\ avg_complexity r = 0
             /\ max_complexity r = 0%Z /\ pep8_errors r = 100%Z
             /\ score r = 0).
Proof.
  assert (readable SampleMore.crash_env (lit "pkg/plain.py")
            Sample.plain_code) as Hr by (by vm_compute).
  assert (ast_parse SampleMore.crash_env Sample.plain_code
          = Raise (mkExn RecursionError (lit "maximum recursion depth")))
    as Hp by (by vm_compute).
  assert (analyze_file SampleMore.crash_env (lit "pkg/plain.py")
          = Raise (mkExn RecursionError (lit "maximum recursion depth")))
    as Ha by (by vm_compute).
  split; [exact Hr |]. split; [exact Hp |]. split; [exact Ha |].
  intros H. destruct (H _ _ _ _ Hr Hp) as (r & Hok & _).
  rewrite Ha in Hok. discriminate.
Qed.

(** C6.  Vacuous documentation coverage: for a source that was read and
    parsed and whose tree holds no function definition and no class
    definition, [_calculate_docstring_coverage] returns the literal 100
    of its guard, and the record stores a coverage of 100. *)
Theorem vacuous_coverage (env : Env) (filepath code : str) (tree : ast) :
  readable env filepath code -> ast_parse env code = Ok tree ->
  count_nodes is_FunctionDef tree = 0%nat ->
  count_nodes is_ClassDef tree = 0%nat ->
  _calculate_docstring_coverage env tree
    (counted is_FunctionDef tree) (counted is_ClassDef tree) = Ok 100
  /\ exists r, analyze_file env filepath = Ok r
       /\ num_functions r = 0%Z /\ num_classes r = 0%Z
       /\ docstring_coverage r == 100.
Proof.
  intros Hr Hp Hnf Hnc.
  assert (_calculate_docstring_coverage env tree
            (counted is_FunctionDef tree) (counted is_ClassDef tree)
          = Ok 100) as Hguard.
  { apply docstring_coverage_guard.
    rewrite !counted_count_nodes, Hnf, Hnc. done. }
  split; [exact Hguard |].
  destruct (measure_code_ok env filepath code tree)
    as (avg & mx & mi & e & w & dc & cd & s & _ & _ & _ & Hdc & _ & _ & _
        & _ & _ & Hrec).
  rewrite Hguard in Hdc. injection Hdc as <-.
  eexists. split; [by rewrite (analyze_file_measured _ _ _ _ Hr Hp) |].
  cbn [num_functions num_classes docstring_coverage].
  rewrite !counted_count_nodes, Hnf, Hnc.
  split; [done |]. split; [done |]. exact (round2_Z 100).
Qed.

Lemma vacuous_coverage_witness :
  _calculate_docstring_coverage Sample.env Sample.plain_tree
    (counted is_FunctionDef Sample.plain_tree)
    (counted is_ClassDef Sample.plain_tree) = Ok 100
  /\ exists r, analyze_file Sample.env (lit "pkg/plain.py") = Ok r
       /\ num_functions r = 0%Z /\ num_classes r = 0%Z
       /\ docstring_coverage r == 100.
Proof.
  apply (vacuous_coverage Sample.env (lit "pkg/plain.py")
           Sample.plain_code Sample.plain_tree); by vm_compute.
Defined.

(** C7.  Neither percentage can fail on a zero divisor:
    [_calculate_comment_density] returns a value on every text, its body
    returns 0 on an empty list of lines, and
    [_calculate_docstring_coverage] returns a value on every tree and
    pair of counts.  On the empty text (which [ast.parse] turns into a
    module with an empty body) the density is 0 and the coverage is 100,
    as computed and as stored. *)
Theorem no_division_error :
  (forall code, exists v, _calculate_comment_density code = Ok v)
  /\ density_of_lines [] = Ok 0
  /\ (forall env tree nf nc,
         exists v, _calculate_docstring_coverage env tree nf nc = Ok v)
  /\ (exists v, _calculate_comment_density [] = Ok v /\ v == 0)
  /\ (forall env filepath,
         readable env filepath [] -> ast_parse env [] = Ok (Module []) ->
         _calculate_docstring_coverage env (Module [])
           (counted is_FunctionDef (Module []))
           (counted is_ClassDef (Module [])) = Ok 100
         /\ exists r, analyze_file env filepath = Ok r
              /\ comment_density r == 0 /\ docstring_coverage r == 100).
Proof.
  split.
  { intros code. destruct (comment_density_range code) as (v & Hv & _).
    by exists v. }
  split; [reflexivity |].
  split; [exact docstring_coverage_total |].
  split; [eexists; split; [reflexivity | by vm_compute] |].
  intros env filepath Hr Hp.
  destruct (vacuous_coverage env filepath [] (Module []) Hr Hp)
    as (Hguard & _); [done | done |].
  split; [exact Hguard |].
  destruct (measure_code_ok env filepath [] (Module []))
    as (avg & mx & mi & e & w & dc & cd & s & _ & _ & _ & Hdc & _ & Hcd
        & _ & _ & _ & Hrec).
  rewrite Hguard in Hdc. injection Hdc as <-.
  assert (cd = 0 / 1 * 100) as -> by (by vm_compute in Hcd; injection Hcd).
  eexists. split; [by rewrite (analyze_file_measured _ _ _ _ Hr Hp) |].
  cbn [comment_density docstring_coverage].
  split; [by vm_compute | exact (round2_Z 100)].
Qed.

Lemma no_division_error_witness :
  _calculate_docstring_coverage Sample.env (Module [])
    (counted is_FunctionDef (Module []))
    (counted is_ClassDef (Module [])) = Ok 100
  /\ exists r, analyze_file Sample.env (lit "pkg/empty.py") = Ok r
       /\ comment_density r == 0 /\ docstring_coverage r == 100.
Proof.
  destruct no_division_error as (_ & _ & _ & _ & H).
  apply (H Sample.env (lit "pkg/empty.py")); by vm_compute.
Defined.



(** The method nested in the class of the sample file is counted. *)
Example nested_definitions_counted :
  count_nodes is_FunctionDef Sample.test_tree = 2%nat
  /\ count_nodes is_ClassDef Sample.test_tree = 1%nat
  /\ S (count_occ N.eq_dec Sample.test_code NEWLINE) = 10%nat.
Proof. by vm_compute. Qed.

(** C9.  A record built from a file that was read and parsed has
    [lines_of_code >= 1]; the record of a failed analysis has
    [lines_of_code = 0]; so a record produced by [analyze_file] carries
    the error sentinel ([pep8_errors = 100], structural fields 0) exactly
    when the analysis of the file failed. *)
Theorem sentinel_iff_failed :
  (forall env filepath code tree,
      readable env filepath code -> ast_parse env code = Ok tree ->
      exists r, analyze_file env filepath = Ok r
        /\ (1 <= lines_of_code r)%Z /\ ~ is_error_sentinel r)
  /\ (forall filepath msg,
         lines_of_code (_create_error_metrics filepath msg) = 0%Z
         /\ is_error_sentinel (_create_error_metrics filepath msg))
  /\ (forall env filepath r,
         analyze_file env filepath = Ok r ->
         (is_error_sentinel r <-> analysis_fails env filepath)
         /\ (lines_of_code r = 0%Z <-> analysis_fails env filepath)).
Proof.
  assert (forall env filepath code tree r,
             measure_code env filepath code tree = Ok r ->
             (1 <= lines_of_code r)%Z) as Hloc.
  { intros env filepath code tree r H.
    destruct (measure_code_ok env filepath code tree)
      as (avg & mx & mi & e & w & dc & cd & s & _ & _ & _ & _ & _ & _ & _
          & _ & _ & Hrec).
    rewrite Hrec in H. injection H as <-. cbn [lines_of_code].
    rewrite split_length. lia. }
  assert (forall filepath msg,
             is_error_sentinel (_create_error_metrics filepath msg))
    as Hsent by (intros; by repeat split).
  split; [| split].
  - intros env filepath code tree Hr Hp.
    destruct (measure_code_ok env filepath code tree)
      as (avg & mx & mi & e & w & dc & cd & s & _ & _ & _ & _ & _ & _ & _
          & _ & _ & Hrec).
    eexists. split; [by rewrite (analyze_file_measured _ _ _ _ Hr Hp) |].
    pose proof (Hloc _ _ _ _ _ Hrec) as H1. split; [exact H1 |].
    intros (_ & H0 & _). lia.
  - intros filepath msg. split; [done | apply Hsent].
  - intros env filepath r H.
    destruct (analyze_file_inv env filepath r H)
      as [[Hf [msg ->]] | (code & tree & Hr & Hp & Hm)].
    + split; (split; [done |]); intros _; [apply Hsent | done].
    + pose proof (Hloc _ _ _ _ _ Hm) as H1.
      pose proof (measured_not_failed _ _ _ _ Hr Hp) as Hnf.
      split; (split; [| done]).
      * intros (_ & H0 & _). lia.
      * intros H0. lia.
Qed.

Lemma sentinel_iff_failed_witness :
  (exists r, analyze_file Sample.env (lit "pkg/empty.py") = Ok r
     /\ (1 <= lines_of_code r)%Z /\ ~ is_error_sentinel r)
  /\ (exists r, analyze_file Sample.env (lit "pkg/error.py") = Ok r
        /\ (is_error_sentinel r
            <-> analysis_fails Sample.env (lit "pkg/error.py"))
        /\ (lines_of_code r = 0%Z
            <-> analysis_fails Sample.env (lit "pkg/error.py"))).
Proof.
  destruct sentinel_iff_failed as (Hok & _ & Hiff).
  split.
  - apply (Hok Sample.env (lit "pkg/empty.py") [] (Module []));
      by vm_compute.
  - eexists. split; [by vm_compute |].
    apply (Hiff Sample.env (lit "pkg/error.py")). by vm_compute.
Defined.

(** C10.  Bounds on the percentages: on every text the comment density
    lies between 0 and 100, on every tree the documentation coverage
    computed from the counts of that tree lies between 0 and 100, and
    both stored fields of every record that [analyze_file] returns lie
    between 0 and 100. *)
Theorem percentages_bounded :
  (forall code,
      exists v, _calculate_comment_density code = Ok v /\ 0 <= v <= 100)
  /\ (forall env tree,
         exists v,
           _calculate_docstring_coverage env tree
             (counted is_FunctionDef tree) (counted is_ClassDef tree)
           = Ok v
           /\ 0 <= v <= 100)
  /\ (forall env filepath r,
         analyze_file env filepath = Ok r ->
         0 <= comment_density r <= 100
         /\ 0 <= docstring_coverage r <= 100).
Proof.
  split; [exact comment_density_range |].
  split; [exact docstring_coverage_range |].
  intros env filepath r H.
  destruct (analyze_file_inv env filepath r H)
    as [[_ [msg ->]] | (code & tree & _ & _ & Hm)].
  - cbn [comment_density docstring_coverage _create_error_metrics]. lra.
  - destruct (measure_code_ok env filepath code tree)
      as (avg & mx & mi & e & w & dc & cd & s & _ & _ & _ & _ & Hdc & _
          & Hcd & _ & _ & Hrec).
    rewrite Hrec in Hm. injection Hm as <-.
    cbn [comment_density docstring_coverage].
    split; by apply (round2_range 0 100).
Qed.

Lemma percentages_bounded_witness :
  exists r, analyze_file Sample.env (lit "pkg/test_code.py") = Ok r
    /\ 0 <= comment_density r <= 100
    /\ 0 <= docstring_coverage r <= 100.
Proof.
  destruct percentages_bounded as (_ & _ & H).
  eexists. split; [by vm_compute |].
  apply (H Sample.env (lit "pkg/test_code.py")). by vm_compute.
Defined.

Lemma score_of_error_fields (filepath msg : str) :
  exists s, score_of_fields (_create_error_metrics filepath msg) = Ok s
            /\ s == 55.
Proof. eexists. split; [reflexivity | by vm_compute]. Qed.

(** C3, as amended.  The score of a record that [analyze_file] returns is
    fixed by how the record was built: the record of a failed analysis
    stores the constant 0, not the scorer's value on its fields (which is
    55); the record of a file that was read and parsed stores the
    scorer's value on the measurements taken of the text and the tree of
    the file, before they are rounded into the fields of the record,
    rounded to two digits; and that is the rounded scorer's value on the
    stored fields whenever rounding changes none of the measurements. *)
Theorem score_from_measurements (env : Env) (filepath : str)
    (r : CodeMetrics) :
  analyze_file env filepath = Ok r ->
  (analysis_fails env filepath /\ score r = 0
   /\ exists s, score_of_fields r = Ok s /\ s == 55)
  \/ (~ analysis_fails env filepath
      /\ exists code tree raw s,
           readable env filepath code /\ ast_parse env code = Ok tree
           /\ measurements env filepath code tree = Ok raw
           /\ stored_from raw r
           /\ _calculate_score (metrics_dict raw) = Ok s
           /\ score r = PyNum.round2 s
           /\ 0 <= score r <= 100
           /\ (two_digit raw ->
               exists s', score_of_fields r = Ok s'
                          /\ score r = PyNum.round2 s')).
Proof.
  intros H.
  destruct (analyze_file_inv env filepath r H)
    as [[Hf [msg ->]] | (code & tree & Hr & Hp & Hm)].
  - left. split; [exact Hf |]. split; [done |].
    apply score_of_error_fields.
  - right. split; [exact (measured_not_failed _ _ _ _ Hr Hp) |].
    destruct (measure_code_ok env filepath code tree)
      as (avg & mx & mi & e & w & dc & cd & s & Mcx & Mmi & Mpep & Mdc & _
          & Mcd & _ & Hs & Hsr & Hrec).
    rewrite Hrec in Hm. injection Hm as <-.
    exists code, tree,
      (mkRaw (inject_Z e) (inject_Z w) avg (inject_Z mx) mi dc cd), s.
    split; [exact Hr |]. split; [exact Hp |].
    split.
    { unfold measurements. fold (counted is_FunctionDef tree).
      fold (counted is_ClassDef tree).
      by rewrite Mcx, Mmi, Mpep, Mdc, Mcd. }
    split; [by repeat split |]. split; [exact Hs |].
    split; [done |].
    split.
    { cbn [score]. apply (round2_range 0 100).
      rewrite Hsr. apply score_range. }
    intros (Havg & Hmi & Hdc & Hcd).
    cbn [raw_avg_complexity raw_maintainability raw_docstring_coverage
           raw_comment_density] in *.
    unfold score_of_fields.
    cbn [pep8_errors pep8_warnings avg_complexity max_complexity
           maintainability_index docstring_coverage comment_density score].
    destruct (score_metrics_dict
                (mkRaw (inject_Z e) (inject_Z w) (PyNum.round2 avg)
                   (inject_Z mx) (PyNum.round2 mi) (PyNum.round2 dc)
                   (PyNum.round2 cd))) as (s' & Hs' & Hsr').
    exists s'. split; [exact Hs' |].
    apply round2_proper. rewrite Hsr, Hsr'.
    apply score_equiv. by repeat split.
Qed.

Lemma score_from_measurements_witness :
  exists r, analyze_file Sample.env (lit "pkg/plain.py") = Ok r
    /\ ((analysis_fails Sample.env (lit "pkg/plain.py") /\ score r = 0
         /\ exists s, score_of_fields r = Ok s /\ s == 55)
        \/ (~ analysis_fails Sample.env (lit "pkg/plain.py")
            /\ exists code tree raw s,
                 readable Sample.env (lit "pkg/plain.py") code
                 /\ ast_parse Sample.env code = Ok tree
                 /\ measurements Sample.env (lit "pkg/plain.py") code tree
                    = Ok raw
                 /\ stored_from raw r
                 /\ _calculate_score (metrics_dict raw) = Ok s
                 /\ score r = PyNum.round2 s
                 /\ 0 <= score r <= 100
                 /\ (two_digit raw ->
                     exists s', score_of_fields r = Ok s'
                                /\ score r = PyNum.round2 s'))).
Proof.
  eexists. split; [by vm_compute |].
  apply (score_from_measurements Sample.env (lit "pkg/plain.py")).
  by vm_compute.
Defined.

(** C3, as stated, fails three times over.  The record of the malformed
    file stores 0 where the scorer gives 55 on its fields.  The record of
    the 1001-line file with 50 comment lines stores 95 where the scorer
    gives 100 on its fields: its density 4.995... is stored as 5.0.  The
    records of [a/m.py] and [b/m.py], whose maintainability indices 80.001
    and 80 are both stored as 80.0, agree on every field but [score], 95
    against 90. *)
Lemma score_not_function_of_fields :
  (exists r s, analyze_file Sample.env (lit "pkg/error.py") = Ok r
     /\ score_of_fields r = Ok s
     /\ score r == 0 /\ s == 55
     /\ ~ score r == s /\ ~ score r == PyNum.round2 s)
  /\ (exists r s, analyze_file Sample.env (lit "pkg/long.py") = Ok r
        /\ score_of_fields r = Ok s
        /\ score r == 95 /\ s == 100
        /\ ~ score r == s /\ ~ score r == PyNum.round2 s)
  /\ (exists r1 r2,
         analyze_file Sample.env (lit "a/m.py") = Ok r1
         /\ analyze_file Sample.env (lit "b/m.py") = Ok r2
         /\ agree_except_score r1 r2
         /\ score r1 == 95 /\ score r2 == 90
         /\ ~ score r1 == score r2).
Proof.
  split; [| split].
  - eexists _, _. split; [by vm_compute |]. split; [by vm_compute |].
    by vm_compute.
  - eexists _, _. split; [by vm_compute |]. split; [by vm_compute |].
    by vm_compute.
  - eexists _, _. split; [by vm_compute |]. split; [by vm_compute |].
    by vm_compute.
Qed.

End ExtractorClaims.

(** * Worked examples *)

Module Examples.

(** [str.split] keeps the empty segment after a trailing newline. *)
Example split_trailing :
  PyStr.split (lit "a" ++ [NEWLINE] ++ lit "b" ++ [NEWLINE]) NEWLINE
  = [lit "a"; lit "b"; []].
Proof. reflexivity. Qed.

Example split_empty : PyStr.split [] NEWLINE = [[]].
Proof. reflexivity. Qed.

Example comment_line_indented : is_comment_line (lit "   # note ") = true.
Proof. reflexivity. Qed.

Example code_line_with_comment : is_comment_line (lit "x = 1  # note") = false.
Proof. reflexivity. Qed.

Example basename_nested : basename (lit "a/b/c.py") = lit "c.py".
Proof. reflexivity. Qed.

Example round2_down : PyNum.round2 80.001 == 80.
Proof. by vm_compute. Qed.

Example round2_tie_even : PyNum.round2 0.125 == 0.12.
Proof. by vm_compute. Qed.

Example round2_tie_odd : PyNum.round2 0.135 == 0.14.
Proof. by vm_compute. Qed.

(** The walk is breadth first. *)
Example walk_order :
  walk (Module [Expr (Constant CNonStr); OtherNode []])
  = [ Module [Expr (Constant CNonStr); OtherNode []];
      Expr (Constant CNonStr); OtherNode []; Constant CNonStr ].
Proof. reflexivity. Qed.

(** An [async def] is an [AsyncFunctionDef], which neither count sees. *)
Example async_not_counted :
  counted is_FunctionDef (Module [AsyncFunctionDef [] [OtherNode []] []]) = 0%Z
  /\ counted is_ClassDef (Module [AsyncFunctionDef [] [OtherNode []] []])
     = 0%Z.
Proof. by vm_compute. Qed.

(** The sample file of the tests: ten lines, two functions, one class, two
    of the three definitions documented. *)
Example analyze_test_code :
  exists r, analyze_file Sample.env (lit "pkg/test_code.py") = Ok r
    /\ filename r = lit "test_code.py"
    /\ lines_of_code r = 10%Z /\ num_functions r = 2%Z
    /\ num_classes r = 1%Z /\ pep8_errors r = 10%Z /\ pep8_warnings r = 0%Z
    /\ docstring_coverage r == 66.67 /\ score r == 85.
Proof. eexists. split; [by vm_compute |]. by vm_compute. Qed.

(** [flake8] missing: both counts default to 0. *)
Example pep8_tool_missing :
  _run_pep8_check
    {| open_read := open_read Sample.env;
       ast_parse := ast_parse Sample.env;
       cc_visit := cc_visit Sample.env;
       mi_visit := mi_visit Sample.env;
       subprocess_run := fun _ =>
         Raise (mkExn FileNotFoundError (lit "flake8"));
       cleandoc := cleandoc Sample.env;
       unicode_isdigit := unicode_isdigit Sample.env;
       int_str := int_str Sample.env |}
    (lit "pkg/plain.py")
  = Ok (0%Z, 0%Z).
Proof. reflexivity. Qed.

(** An exception of [ast.parse] that is neither a [SyntaxError] nor a
    [ValueError] is not handled by [analyze_file]. *)
Example parser_exhausted :
  analyze_file
    {| open_read := open_read Sample.env;
       ast_parse := fun _ => Raise (mkExn RecursionError []);
       cc_visit := cc_visit Sample.env;
       mi_visit := mi_visit Sample.env;
       subprocess_run := subprocess_run Sample.env;
       cleandoc := cleandoc Sample.env;
       unicode_isdigit := unicode_isdigit Sample.env;
       int_str := int_str Sample.env |}
    (lit "pkg/plain.py")
  = Raise (mkExn RecursionError []).
Proof. reflexivity. Qed.

End Examples.

(** * Further properties *)

(** ** The scorer *)

Module ScorerExtras.
Import PyNumFacts RubricFacts ScorerFacts.

Lemma clamp_fixed (x : Q) : 0 <= x <= 100 -> Rubric.clamp x == x.
Proof.
  intros [H0 H1]. unfold Rubric.clamp.
  rewrite (Q.min_r 100 x H1). by apply Q.max_r.
Qed.

Lemma Qmin_le_r (a b : Q) : Qmin a b <= b.
Proof. apply Q.le_min_r. Qed.

Lemma Qmin_glb (a b c : Q) : c <= a -> c <= b -> c <= Qmin a b.
Proof. intros. by apply Q.min_glb. Qed.

(** What each step of the rubric can take or give. *)
Lemma rubric_step_bounds (m : RawMetrics) :
  Rubric.style_errors m <= 30
  /\ Rubric.style_warnings m <= 10
  /\ Rubric.complexity_max m <= 20
  /\ Rubric.complexity_avg m <= 10
  /\ - (10) <= Rubric.maintainability m <= 5
  /\ Rubric.documentation m <= 15
  /\ - (5) <= Rubric.comments m <= 5.
Proof.
  unfold Rubric.style_errors, Rubric.style_warnings, Rubric.complexity_max,
    Rubric.complexity_avg, Rubric.maintainability, Rubric.documentation,
    Rubric.comments, Rubric.in_band.
  repeat split; try apply Qmin_le_r;
    repeat match goal with
           | |- context [Qlt_le_dec ?a ?b] => destruct (Qlt_le_dec a b)
           end; try apply Qmin_le_r; lra.
Qed.

Lemma rubric_floor (m : RawMetrics) :
  0 <= raw_docstring_coverage m -> 15 <= Rubric.score m.
Proof.
  intros Hd.
  destruct (rubric_step_bounds m) as (He & Hw & Hx & Ha & [Hi _] & _ & [Hc _]).
  assert (0 <= Rubric.documentation m) as Hdoc.
  { unfold Rubric.documentation. apply Qmin_glb; lra. }
  unfold Rubric.score.
  rewrite <- (clamp_fixed 15) by lra. apply clamp_mono. lra.
Qed.

(** The scorer never goes below 15 on a non-negative docstring coverage:
    the caps of the penalties add up to 85.  The bound is reached. *)
Theorem score_floor (m : RawMetrics) :
  0 <= raw_docstring_coverage m ->
  (exists v, _calculate_score (metrics_dict m) = Ok v /\ 15 <= v <= 100)
  /\ exists v, _calculate_score (metrics_dict SampleMore.worst_case) = Ok v /\ v == 15.
Proof.
  intros Hd. split.
  - destruct (score_metrics_dict m) as (v & Hv & Hr).
    exists v. split; [exact Hv |]. rewrite Hr.
    split; [by apply rubric_floor | apply score_range].
  - eexists. split; [reflexivity | by vm_compute].
Qed.

Lemma score_floor_witness :
  (exists v, _calculate_score (metrics_dict (mkRaw 40 40 12 30 10 5 0))
             = Ok v /\ 15 <= v <= 100)
  /\ exists v, _calculate_score (metrics_dict SampleMore.worst_case) = Ok v /\ v == 15.
Proof.
  apply (score_floor (mkRaw 40 40 12 30 10 5 0)). by vm_compute.
Defined.

Ltac key_missing k :=
  right; unfold _calculate_score, getitem;
  repeat match goal with
         | H : ?m !! ?key = _ |- context [?m !! ?key] => rewrite H
         end;
  cbn [mbind result_bind mret result_ret];
  repeat match goal with
         | |- context [if ?b then _ else _] => destruct b
         end;
  cbn [mbind result_bind mret result_ret];
  (eexists; split; [reflexivity |]; split; [done |];
   exists k; split; [simpl; tauto | done]).

(** A missing entry makes the scorer raise [KeyError], and nothing else
    does: it returns a score exactly on the dicts that hold all seven
    keys. *)
Theorem score_key_error (metrics : gmap string Q) :
  ((exists k, In k score_keys /\ metrics !! k = None) ->
   exists e, _calculate_score metrics = Raise e /\ exn_cls e = KeyError)
  /\ ((exists v, _calculate_score metrics = Ok v)
      <-> forall k, In k score_keys -> is_Some (metrics !! k)).
Proof.
  assert (((forall k, In k score_keys -> is_Some (metrics !! k))
           /\ exists v, _calculate_score metrics = Ok v)
          \/ (exists e, _calculate_score metrics = Raise e
                        /\ exn_cls e = KeyError
                        /\ exists k, In k score_keys /\ metrics !! k = None))
    as Hcases.
  { destruct (metrics !! "pep8_errors") as [e |] eqn:He;
      [| key_missing "pep8_errors"%string].
    destruct (metrics !! "pep8_warnings") as [w |] eqn:Hw;
      [| key_missing "pep8_warnings"%string].
    destruct (metrics !! "max_complexity") as [x |] eqn:Hx;
      [| key_missing "max_complexity"%string].
    destruct (metrics !! "avg_complexity") as [a |] eqn:Ha;
      [| key_missing "avg_complexity"%string].
    destruct (metrics !! "maintainability") as [i |] eqn:Hi;
      [| key_missing "maintainability"%string].
    destruct (metrics !! "docstring_coverage") as [d |] eqn:Hd;
      [| key_missing "docstring_coverage"%string].
    destruct (metrics !! "comment_density") as [c |] eqn:Hc;
      [| key_missing "comment_density"%string].
    left. split.
    - intros k Hk. simpl in Hk.
      repeat (destruct Hk as [<- | Hk]; [by eexists |]). destruct Hk.
    - destruct (score_lookup metrics (mkRaw e w a x i d c))
        as (v & Hv & _); try assumption. by exists v. }
  split.
  - intros (k & Hk & Hnone).
    destruct Hcases as [[Hall _] | (e & He & Hcls & _)]; [| by exists e].
    destruct (Hall k Hk) as [v Hv]. congruence.
  - split.
    + intros [v Hv]. destruct Hcases as [[Hall _] | (e & He & _)]; [done |].
      congruence.
    + intros Hall.
      destruct Hcases as [[_ Hv] | (e & _ & _ & k & Hk & Hnone)]; [done |].
      destruct (Hall k Hk) as [v Hv]. congruence.
Qed.

Lemma score_key_error_witness :
  exists e, _calculate_score {[ "pep8_errors" := 3; "score" := 20 ]} = Raise e
            /\ exn_cls e = KeyError.
Proof.
  apply (score_key_error {[ "pep8_errors" := 3; "score" := 20 ]}).
  exists "pep8_warnings"%string. split; [simpl; tauto | done].
Defined.

Lemma complexity_max_mono (m1 m2 : RawMetrics) :
  raw_max_complexity m1 <= raw_max_complexity m2 ->
  0 <= Rubric.complexity_max m1 <= Rubric.complexity_max m2.
Proof.
  intros H. unfold Rubric.complexity_max.
  repeat match goal with
         | |- context [Qlt_le_dec ?a ?b] => destruct (Qlt_le_dec a b)
         end;
    repeat match goal with
           | |- context [Qmin ?a ?b] =>
               let E := fresh "E" in
               destruct (Qmin_cases a b) as [[? E] | [? E]]; rewrite E
           end; lra.
Qed.

Lemma complexity_avg_mono (m1 m2 : RawMetrics) :
  raw_avg_complexity m1 <= raw_avg_complexity m2 ->
  0 <= Rubric.complexity_avg m1 <= Rubric.complexity_avg m2.
Proof.
  intros H. unfold Rubric.complexity_avg.
  repeat match goal with
         | |- context [Qlt_le_dec ?a ?b] => destruct (Qlt_le_dec a b)
         end;
    repeat match goal with
           | |- context [Qmin ?a ?b] =>
               let E := fresh "E" in
               destruct (Qmin_cases a b) as [[? E] | [? E]]; rewrite E
           end; lra.
Qed.

Lemma maintainability_mono (m1 m2 : RawMetrics) :
  raw_maintainability m1 <= raw_maintainability m2 ->
  Rubric.maintainability m1 <= Rubric.maintainability m2.
Proof.
  intros H. unfold Rubric.maintainability.
  repeat match goal with
         | |- context [Qlt_le_dec ?a ?b] => destruct (Qlt_le_dec a b)
         end; lra.
Qed.

Lemma style_warnings_mono (m1 m2 : RawMetrics) :
  raw_pep8_warnings m1 <= raw_pep8_warnings m2 ->
  Rubric.style_warnings m1 <= Rubric.style_warnings m2.
Proof.
  intros H. unfold Rubric.style_warnings. apply Q.min_le_compat_r. lra.
Qed.

(** Monotonicity in the other fields: with everything else fixed, more
    style warnings, a larger maximum complexity or a larger average
    complexity never raise the score, and a larger maintainability index
    never lowers it. *)
Theorem score_monotone_others (e w a x i d c : Q) (w' a' x' i' : Q) :
  w <= w' -> a <= a' -> x <= x' -> i <= i' ->
  exists s sw sa sx si,
    _calculate_score (metrics_dict (mkRaw e w a x i d c)) = Ok s
    /\ _calculate_score (metrics_dict (mkRaw e w' a x i d c)) = Ok sw
    /\ _calculate_score (metrics_dict (mkRaw e w a' x i d c)) = Ok sa
    /\ _calculate_score (metrics_dict (mkRaw e w a x' i d c)) = Ok sx
    /\ _calculate_score (metrics_dict (mkRaw e w a x i' d c)) = Ok si
    /\ sw <= s /\ sa <= s /\ sx <= s /\ s <= si.
Proof.
  intros Hw Ha Hx Hi.
  destruct (score_metrics_dict (mkRaw e w a x i d c)) as (s & Hs & Es).
  destruct (score_metrics_dict (mkRaw e w' a x i d c)) as (sw & Hsw & Esw).
  destruct (score_metrics_dict (mkRaw e w a' x i d c)) as (sa & Hsa & Esa).
  destruct (score_metrics_dict (mkRaw e w a x' i d c)) as (sx & Hsx & Esx).
  destruct (score_metrics_dict (mkRaw e w a x i' d c)) as (si & Hsi & Esi).
  exists s, sw, sa, sx, si. repeat (split; [assumption |]).
  rewrite Es, Esw, Esa, Esx, Esi. unfold Rubric.score.
  pose proof (style_warnings_mono (mkRaw e w a x i d c)
                (mkRaw e w' a x i d c) Hw) as Mw.
  pose proof (complexity_avg_mono (mkRaw e w a x i d c)
                (mkRaw e w a' x i d c) Ha) as [_ Ma].
  pose proof (complexity_max_mono (mkRaw e w a x i d c)
                (mkRaw e w a x' i d c) Hx) as [_ Mx].
  pose proof (maintainability_mono (mkRaw e w a x i d c)
                (mkRaw e w a x i' d c) Hi) as Mi.
  repeat split; apply clamp_mono;
    unfold Rubric.style_errors, Rubric.documentation, Rubric.comments in *;
    cbn [raw_pep8_errors raw_docstring_coverage raw_comment_density] in *;
    unfold Rubric.style_warnings, Rubric.complexity_max,
      Rubric.complexity_avg, Rubric.maintainability in *;
    cbn [raw_pep8_warnings raw_max_complexity raw_avg_complexity
           raw_maintainability] in *; lra.
Qed.

Lemma score_monotone_others_witness :
  exists s sw sa sx si,
    _calculate_score (metrics_dict (mkRaw 2 4 6 12 50 40 10)) = Ok s
    /\ _calculate_score (metrics_dict (mkRaw 2 9 6 12 50 40 10)) = Ok sw
    /\ _calculate_score (metrics_dict (mkRaw 2 4 8 12 50 40 10)) = Ok sa
    /\ _calculate_score (metrics_dict (mkRaw 2 4 6 15 50 40 10)) = Ok sx
    /\ _calculate_score (metrics_dict (mkRaw 2 4 6 12 90 40 10)) = Ok si
    /\ sw <= s /\ sa <= s /\ sx <= s /\ s <= si.
Proof.
  apply (score_monotone_others 2 4 6 12 50 40 10 9 8 15 90); by vm_compute.
Defined.

End ScorerExtras.

(** ** The style check *)

Module Pep8Extras.
Import ExtractorFacts.







End Pep8Extras.

(** ** Invariants of the records *)

Module RecordExtras.
Import PyNumFacts RubricFacts ScorerFacts PyStrFacts AstFacts RoundFacts
  ExtractorFacts ScorerExtras.

Lemma round2_upper (hi : Z) (x : Q) :
  x <= inject_Z hi -> PyNum.round2 x <= inject_Z hi.
Proof.
  intros Hhi. unfold PyNum.round2.
  assert (PyNum.round_half_even (x * 100) <= hi * 100)%Z as H.
  { apply round_half_even_upper. rewrite inject_Z_mult.
    change (inject_Z 100) with 100. lra. }
  rewrite Zle_Qle, inject_Z_mult in H.
  change (inject_Z 100) with 100 in H.
  apply Qle_shift_div_r; [lra | exact H].
Qed.

Lemma fold_max_bounds (l : list Z) (a : Z) :
  let m := fold_left (fun m y => if (m <? y)%Z then y else m) l a in
  (a <= m)%Z /\ Forall (fun y => (y <= m)%Z) l.
Proof.
  revert a. induction l as [| y l IH]; intros a; simpl; [by split |].
  destruct (IH (if (a <? y)%Z then y else a)) as [H1 H2].
  destruct (Z.ltb_spec a y); (split; [lia | constructor; [lia | exact H2]]).
Qed.

Lemma py_sum_from (l : list Z) (a : Z) :
  fold_left Z.add l a = (a + py_sum l)%Z.
Proof.
  unfold py_sum. revert a.
  induction l as [| y l IH]; intros a; cbn [fold_left]; [lia |].
  rewrite (IH (a + y)%Z), (IH (0 + y)%Z). lia.
Qed.

Lemma py_sum_le (l : list Z) (m : Z) :
  Forall (fun y => (y <= m)%Z) l ->
  (py_sum l <= Z.of_nat (length l) * m)%Z.
Proof.
  induction 1 as [| y l Hy _ IH]; [done |].
  unfold py_sum. cbn [fold_left length]. rewrite py_sum_from.
  rewrite Nat2Z.inj_succ, Z.mul_succ_l. lia.
Qed.

(** The mean of the complexities is at most their maximum. *)
Lemma complexity_stats_ordered (env : Env) (code : str) :
  exists avg mx, complexity_stats env code = Ok (avg, mx)
                 /\ avg <= inject_Z mx.
Proof.
  unfold complexity_stats, try_except.
  destruct (cc_visit env code) as [[| x l] | e];
    cbn [mbind result_bind mret result_ret handle].
  - exists 0, 0%Z. split; [done | by vm_compute].
  - set (cs := x :: l).
    assert (0 < Z.of_nat (length cs))%Z as Hlen by (simpl; lia).
    rewrite py_div_ok by (apply inject_Z_nonzero; lia).
    cbn [mbind result_bind py_max_list mret result_ret].
    eexists _, _. split; [reflexivity |].
    destruct (fold_max_bounds l x) as [Hx Hl].
    apply Qle_shift_div_r; [by rewrite <- (Zlt_Qlt 0) |].
    rewrite <- inject_Z_mult, <- Zle_Qle.
    rewrite Z.mul_comm. apply py_sum_le. by constructor.
  - rewrite isinstance_Exception. exists 0, 0%Z.
    split; [done | by vm_compute].
Qed.

(** In every record that [analyze_file] returns the average complexity is
    at most the maximum complexity. *)
Theorem record_complexity_ordered (env : Env) (filepath : str)
    (r : CodeMetrics) :
  analyze_file env filepath = Ok r ->
  avg_complexity r <= inject_Z (max_complexity r).
Proof.
  intros H.
  destruct (analyze_file_inv env filepath r H)
    as [[_ [msg ->]] | (code & tree & _ & _ & Hm)]; [by vm_compute |].
  destruct (measure_code_ok env filepath code tree)
    as (avg & mx & mi & e & w & dc & cd & s & Hcx & _ & _ & _ & _ & _ & _
        & _ & _ & Hrec).
  rewrite Hrec in Hm. injection Hm as <-.
  cbn [avg_complexity max_complexity].
  destruct (complexity_stats_ordered env code) as (avg' & mx' & Hcx' & Hle).
  rewrite Hcx in Hcx'. injection Hcx' as <- <-.
  by apply round2_upper.
Qed.

Lemma record_complexity_ordered_witness :
  exists r, analyze_file Sample.env (lit "pkg/test_code.py") = Ok r
            /\ avg_complexity r <= inject_Z (max_complexity r).
Proof.
  eexists. split; [by vm_compute |].
  apply (record_complexity_ordered Sample.env (lit "pkg/test_code.py")).
  by vm_compute.
Defined.

Lemma filename_basename (env : Env) (filepath : str) (r : CodeMetrics) :
  analyze_file env filepath = Ok r -> filename r = basename filepath.
Proof.
  intros H.
  destruct (analyze_file_inv env filepath r H)
    as [[_ [msg ->]] | (code & tree & _ & _ & Hm)]; [done |].
  destruct (measure_code_ok env filepath code tree)
    as (avg & mx & mi & e & w & dc & cd & s & _ & _ & _ & _ & _ & _ & _
        & _ & _ & Hrec).
  rewrite Hrec in Hm. by injection Hm as <-.
Qed.

(** How a returned record tells a failed analysis from the others. *)
Lemma record_marks_failure (env : Env) (filepath : str) (r : CodeMetrics) :
  analyze_file env filepath = Ok r ->
  (score r == 0 <-> analysis_fails env filepath)
  /\ (is_error_sentinel r <-> analysis_fails env filepath)
  /\ (~ analysis_fails env filepath -> 15 <= score r <= 100).
Proof.
  intros H.
  destruct (analyze_file_inv env filepath r H)
    as [[Hf [msg ->]] | (code & tree & Hr & Hp & Hm)].
  - split; [by split |]. split; [| done]. split; [done |]. intros _.
    by repeat split.
  - pose proof (measured_not_failed _ _ _ _ Hr Hp) as Hnf.
    destruct (measure_code_ok env filepath code tree)
      as (avg & mx & mi & e & w & dc & cd & s & _ & _ & _ & _ & Hdc & _ & _
          & _ & Hsr & Hrec).
    rewrite Hrec in Hm. injection Hm as <-. cbn [score].
    assert (15 <= PyNum.round2 s <= 100) as Hs.
    { apply (round2_range 15 100). rewrite Hsr.
      split; [apply rubric_floor; simpl; lra | apply score_range]. }
    split; [split; [intros H0; rewrite H0 in Hs; lra | done] |].
    split; [| done]. split; [| done].
    intros (_ & H0 & _). cbn [lines_of_code] in H0.
    rewrite split_length in H0. lia.
Qed.

(** The score of a file that was read and parsed is at least 15, so among
    the records that [analyze_file] returns the score 0 marks exactly the
    failed analyses. *)
Theorem zero_score_iff_failed (env : Env) (filepath : str) (r : CodeMetrics) :
  analyze_file env filepath = Ok r ->
  (score r == 0 <-> analysis_fails env filepath)
  /\ (~ analysis_fails env filepath -> 15 <= score r <= 100).
Proof.
  intros H. destruct (record_marks_failure env filepath r H) as (H1 & _ & H2).
  by split.
Qed.

Lemma zero_score_iff_failed_witness :
  exists r, analyze_file Sample.env (lit "pkg/plain.py") = Ok r
    /\ (score r == 0 <-> analysis_fails Sample.env (lit "pkg/plain.py"))
    /\ (~ analysis_fails Sample.env (lit "pkg/plain.py")
        -> 15 <= score r <= 100).
Proof.
  eexists. split; [by vm_compute |].
  apply (zero_score_iff_failed Sample.env (lit "pkg/plain.py")).
  by vm_compute.
Defined.

End RecordExtras.

(** ** The two percentages *)

Module PercentExtras.
Import PyNumFacts PyStrFacts AstFacts RoundFacts ExtractorFacts.

Lemma filter_length_zero {A} (p : A -> bool) (l : list A) :
  length (List.filter p l) = 0%nat <-> Forall (fun x => p x = false) l.
Proof.
  induction l as [| x l IH]; simpl; [by split |].
  destruct (p x) eqn:Hp; simpl.
  - split; [done |]. intros H. inversion H. congruence.
  - rewrite IH. split; [by constructor | by inversion 1].
Qed.

Lemma filter_length_all {A} (p : A -> bool) (l : list A) :
  length (List.filter p l) = length l <-> Forall (fun x => p x = true) l.
Proof.
  induction l as [| x l IH]; simpl; [by split |].
  pose proof (filter_length_le p l) as Hle.
  destruct (p x) eqn:Hp; simpl.
  - split.
    + intros H. constructor; [done |]. apply IH. lia.
    + intros H. inversion H; subst. f_equal. by apply IH.
  - split; [lia |]. intros H. inversion H. congruence.
Qed.

Lemma inject_Z_eq (a b : Z) : inject_Z a == inject_Z b -> a = b.
Proof. unfold Qeq. simpl. lia. Qed.

(** A part of a whole as a percentage, and its two extremes. *)
Lemma percentage_exact (part whole : Z) :
  (0 <= part <= whole)%Z -> (0 < whole)%Z ->
  let v := inject_Z part / inject_Z whole * 100 in
  v * inject_Z whole == 100 * inject_Z part
  /\ (v == 0 <-> part = 0%Z)
  /\ (v == 100 <-> part = whole).
Proof.
  intros [H0 H1] Hpos v.
  assert (~ inject_Z whole == 0) as Hnz by (apply inject_Z_nonzero; lia).
  assert (v * inject_Z whole == 100 * inject_Z part) as Hv
    by (unfold v; by field).
  assert (0 < inject_Z whole) as Hq by (by rewrite <- (Zlt_Qlt 0)).
  split; [exact Hv |]. split.
  - split.
    + intros E. rewrite E in Hv.
      assert (inject_Z part == inject_Z 0) as Hp
        by (change (inject_Z 0) with 0; lra).
      by apply inject_Z_eq.
    + intros ->. unfold v. change (inject_Z 0) with 0. by field.
  - split.
    + intros E. rewrite E in Hv.
      assert (inject_Z part == inject_Z whole) as Hp by lra.
      by apply inject_Z_eq.
    + intros ->. unfold v. by field.
Qed.

(** The loop counts the definition nodes whose docstring holds text. *)
Lemma count_documented_exact (env : Env) (nodes : list ast) (acc : Z) :
  count_documented env nodes acc
  = Ok (acc + Z.of_nat (length (List.filter (documented env) nodes)))%Z.
Proof.
  revert acc. induction nodes as [| node nodes IH]; intros acc.
  - simpl. f_equal. lia.
  - cbn [count_documented List.filter]. unfold documented at 1.
    fold (is_def node). destruct (is_def node) eqn:Hdef; cbn [andb].
    + destruct (get_docstring_def env node Hdef) as [d ->].
      cbn [mbind result_bind].
      destruct (has_text d); rewrite IH; f_equal; cbn [length]; lia.
    + by rewrite IH.
Qed.

Lemma documented_is_def (env : Env) (nodes : list ast) :
  (length (List.filter (documented env) nodes)
   <= length (List.filter is_def nodes))%nat.
Proof.
  induction nodes as [| node nodes IH]; simpl; [done |].
  unfold documented at 1. destruct (is_def node); simpl; [| done].
  destruct (match get_docstring env node with
            | Ok d => has_text d | Raise _ => false end); simpl; lia.
Qed.

(** For a tree with at least one function or class definition, the
    documentation coverage is the share of the definition nodes, nested
    ones included, whose docstring holds text: it is 100 exactly when
    every definition is documented and 0 exactly when none is. *)
Theorem docstring_coverage_share (env : Env) (tree : ast) :
  (0 < count_nodes is_def tree)%nat ->
  exists v,
    _calculate_docstring_coverage env tree
      (counted is_FunctionDef tree) (counted is_ClassDef tree) = Ok v
    /\ v * inject_Z (Z.of_nat (count_nodes is_def tree))
       == 100 * inject_Z (Z.of_nat (count_nodes (documented env) tree))
    /\ (v == 100
        <-> count_nodes (documented env) tree = count_nodes is_def tree)
    /\ (v == 0 <-> count_nodes (documented env) tree = 0%nat).
Proof.
  intros Hpos.
  assert ((counted is_FunctionDef tree + counted is_ClassDef tree)%Z
          = Z.of_nat (count_nodes is_def tree)) as Htotal.
  { unfold counted. rewrite <- Nat2Z.inj_add, <- (walk_count is_def).
    f_equal. symmetry. apply (filter_or_length _ _ _ def_kinds_disjoint). }
  pose proof (documented_is_def env (walk tree)) as Hle.
  rewrite !walk_count in Hle.
  unfold _calculate_docstring_coverage. rewrite Htotal.
  destruct (Z.eqb_spec (Z.of_nat (count_nodes is_def tree)) 0) as [E | _];
    [lia |].
  rewrite count_documented_exact, walk_count. cbn [mbind result_bind].
  rewrite Z.add_0_l, py_div_ok by (apply inject_Z_nonzero; lia).
  eexists. split; [reflexivity |].
  destruct (percentage_exact (Z.of_nat (count_nodes (documented env) tree))
              (Z.of_nat (count_nodes is_def tree))) as (H1 & H2 & H3);
    [lia | lia |].
  cbv zeta in H1, H2, H3.
  split; [exact H1 |]. split.
  - split; intros E; [apply H3 in E; lia | apply H3; lia].
  - split; intros E; [apply H2 in E; lia | apply H2; lia].
Qed.

Lemma docstring_coverage_share_witness :
  exists v,
    _calculate_docstring_coverage Sample.env Sample.test_tree
      (counted is_FunctionDef Sample.test_tree)
      (counted is_ClassDef Sample.test_tree) = Ok v
    /\ v * inject_Z (Z.of_nat (count_nodes is_def Sample.test_tree))
       == 100 * inject_Z (Z.of_nat (count_nodes (documented Sample.env)
                                       Sample.test_tree))
    /\ (v == 100
        <-> count_nodes (documented Sample.env) Sample.test_tree
            = count_nodes is_def Sample.test_tree)
    /\ (v == 0 <-> count_nodes (documented Sample.env) Sample.test_tree
                   = 0%nat).
Proof.
  apply (docstring_coverage_share Sample.env Sample.test_tree).
  vm_compute. lia.
Defined.

(** The comment density is the share of the lines that are comments: it
    is 0 exactly when no line is a comment and 100 exactly when every line
    is one. *)
Theorem comment_density_share (code : str) :
  let lines := PyStr.split code NEWLINE in
  exists v,
    _calculate_comment_density code = Ok v
    /\ v * inject_Z (Z.of_nat (length lines))
       == 100 * inject_Z (Z.of_nat
                            (length (List.filter is_comment_line lines)))
    /\ (v == 0 <-> Forall (fun line => is_comment_line line = false) lines)
    /\ (v == 100 <-> Forall (fun line => is_comment_line line = true) lines).
Proof.
  intros lines.
  assert (0 < length lines)%nat as Hpos.
  { unfold lines. rewrite split_length. lia. }
  pose proof (filter_length_le is_comment_line lines) as Hle.
  unfold _calculate_comment_density, density_of_lines. fold lines.
  destruct (Z.eqb_spec (Z.of_nat (length lines)) 0) as [E | _]; [lia |].
  rewrite py_div_ok by (apply inject_Z_nonzero; lia).
  eexists. split; [reflexivity |].
  destruct (percentage_exact
              (Z.of_nat (length (List.filter is_comment_line lines)))
              (Z.of_nat (length lines))) as (H1 & H2 & H3); [lia | lia |].
  cbv zeta in H1, H2, H3.
  split; [exact H1 |]. split.
  - rewrite <- filter_length_zero.
    split; intros E; [apply H2 in E; lia | apply H2; lia].
  - rewrite <- filter_length_all.
    split; intros E; [apply H3 in E; lia | apply H3; lia].
Qed.

End PercentExtras.

(** ** Batches *)

Module DirectoryExtras.
Import PyStrFacts ExtractorFacts RecordExtras.

Lemma split_app_sep (a b : str) (sep : N) :
  PyStr.split (a ++ sep :: b) sep = PyStr.split a sep ++ PyStr.split b sep.
Proof.
  induction a as [| c a IH]; cbn [app PyStr.split].
  - by rewrite N.eqb_refl.
  - destruct (c =? sep)%N; [by rewrite IH |].
    rewrite IH. pose proof (split_nonempty a sep).
    by destruct (PyStr.split a sep).
Qed.

Lemma split_no_sep_single (b : str) (sep : N) :
  ~ In sep b -> PyStr.split b sep = [b].
Proof.
  induction b as [| c b IH]; intros Hnot; simpl; [done |].
  destruct (N.eqb_spec c sep) as [-> | _]; [destruct Hnot; by left |].
  rewrite IH; [done |]. intros H. apply Hnot. by right.
Qed.

Lemma last_app_nonempty {A} (l1 l2 : list A) (d : A) :
  l2 <> [] -> List.last (l1 ++ l2) d = List.last l2 d.
Proof.
  intros Hne. induction l1 as [| x l1 IH]; [done |].
  cbn [app]. destruct (l1 ++ l2) eqn:E; [| exact IH].
  by destruct l1, l2.
Qed.

Lemma basename_app_sep (a b : str) :
  ~ In SLASH b -> basename (a ++ SLASH :: b) = b.
Proof.
  intros Hb. unfold basename.
  rewrite split_app_sep, last_app_nonempty by apply split_nonempty.
  by rewrite split_no_sep_single.
Qed.

Lemma endswith_sep (a : str) :
  PyText.endswith a [SLASH] = true -> exists a', a = a' ++ [SLASH].
Proof.
  unfold PyText.endswith. intros [_ H]%andb_true_iff.
  apply bool_decide_eq_true in H.
  cbn [length] in H. exists (take (length a - 1) a).
  rewrite <- (take_drop (length a - 1) a) at 1. by rewrite H.
Qed.

(** The name of a file is recovered from its joined path. *)
Lemma basename_path_join (root file : str) :
  ~ In SLASH file -> basename (path_join root file) = file.
Proof.
  intros Hfile. unfold path_join.
  destruct file as [| c file'] eqn:Efile.
  - cbn [PyStr.startswith].
    destruct (bool_decide (root = [])) eqn:Eroot.
    + apply bool_decide_eq_true in Eroot. by subst.
    + cbn [orb]. destruct (PyText.endswith root [SLASH]) eqn:Eend.
      * destruct (endswith_sep root Eend) as [a' ->].
        rewrite app_nil_r. change (a' ++ [SLASH]) with (a' ++ SLASH :: []).
        by apply basename_app_sep.
      * by apply basename_app_sep.
  - rewrite <- Efile in *. assert (PyStr.startswith file SLASH = false) as ->.
    { subst file. cbn [PyStr.startswith]. apply N.eqb_neq. intros ->.
      apply Hfile. by left. }
    destruct (bool_decide (root = [])) eqn:Eroot.
    + apply bool_decide_eq_true in Eroot. subst root. cbn [orb app].
      unfold basename. by rewrite split_no_sep_single.
    + cbn [orb]. destruct (PyText.endswith root [SLASH]) eqn:Eend.
      * destruct (endswith_sep root Eend) as [a' ->].
        rewrite <- app_assoc. by apply basename_app_sep.
      * by apply basename_app_sep.
Qed.

Lemma analyze_files_each (env : Env) (root : str) (files : list str)
    (results : list CodeMetrics) :
  analyze_files env root files results
  = rest ← analyze_each env
             (joined (List.map (pair root)
                        (List.filter
                           (fun file => PyText.endswith file (lit ".py"))
                           files)));
    mret (results ++ rest).
Proof.
  revert results. induction files as [| file files IH]; intros results.
  - simpl. by rewrite app_nil_r.
  - cbn [analyze_files List.filter].
    destruct (PyText.endswith file (lit ".py")); [| apply IH].
    cbn [List.map joined analyze_each].
    destruct (analyze_file env (path_join root file)) as [r | e];
      cbn [mbind result_bind]; [| done].
    rewrite IH. unfold joined.
    destruct (analyze_each env _) as [rs | e]; cbn [mbind result_bind];
      [| done].
    unfold mret, result_ret. by rewrite <- app_assoc.
Qed.

Lemma analyze_each_app (env : Env) (p1 p2 : list str) :
  analyze_each env (p1 ++ p2)
  = r1 ← analyze_each env p1; r2 ← analyze_each env p2; mret (r1 ++ r2).
Proof.
  induction p1 as [| p p1 IH]; cbn [app analyze_each mbind result_bind].
  - by destruct (analyze_each env p2).
  - destruct (analyze_file env p) as [r | e]; cbn [mbind result_bind];
      [| done].
    rewrite IH. destruct (analyze_each env p1) as [r1 | e];
      cbn [mbind result_bind]; [| done].
    by destruct (analyze_each env p2).
Qed.

Lemma analyze_walk_each (env : Env) (walked : list (str * list str * list str))
    (results : list CodeMetrics) :
  analyze_walk env walked results
  = rest ← analyze_each env (joined (py_paths walked));
    mret (results ++ rest).
Proof.
  revert results.
  induction walked as [| [[root dirs] files] walked IH]; intros results.
  - simpl. by rewrite app_nil_r.
  - cbn [analyze_walk py_paths flat_map]. unfold joined.
    rewrite map_app, analyze_each_app, analyze_files_each.
    fold (py_paths walked). unfold joined.
    match goal with
    | |- context [analyze_each env (List.map ?f (List.map (pair root) ?l))] =>
        destruct (analyze_each env (List.map f (List.map (pair root) l)))
          as [r1 | e]
    end; cbn [mbind result_bind]; [| done].
    unfold mret at 1, result_ret at 1. cbn [mbind result_bind].
    rewrite IH. unfold joined.
    destruct (analyze_each env _) as [r2 | e]; cbn [mbind result_bind];
      [| done].
    unfold mret, result_ret. cbn [mbind result_bind].
    by rewrite app_assoc.
Qed.

(** The batch is the file-by-file analysis of the [.py] paths. *)
Lemma analyze_directory_each (env : Env) (fs : Fs) (directory : str) :
  analyze_directory env fs directory
  = analyze_each env (joined (py_paths (os_walk fs directory))).
Proof.
  unfold analyze_directory. rewrite analyze_walk_each.
  by destruct (analyze_each env _).
Qed.

Lemma analyze_file_total (env : Env) (filepath : str) :
  parser_rejects_only env -> exists r, analyze_file env filepath = Ok r.
Proof.
  intros Hparser. unfold analyze_file.
  destruct (read_code_cases env filepath) as [[_ [msg ->]] | [code Hr]];
    [by eexists |].
  unfold readable in Hr. rewrite Hr. cbn [mbind result_bind].
  pose proof (parse_code_inv env filepath code) as Hp.
  destruct (parse_code env filepath code) as [[r | tree] | e];
    cbn [mbind result_bind]; [by eexists | |].
  - destruct (measure_code_ok env filepath code tree)
      as (avg & mx & mi & e & w & dc & cd & s & _ & _ & _ & _ & _ & _ & _
          & _ & _ & ->). by eexists.
  - destruct Hp as (Hraise & H1 & H2).
    specialize (Hparser code e Hraise). rewrite H1, H2 in Hparser. done.
Qed.

(** A parser exception of another class leaves [analyze_file]. *)
Lemma analyze_file_raises (env : Env) (filepath code : str) (e : exn) :
  readable env filepath code -> ast_parse env code = Raise e ->
  isinstance e SyntaxError = false -> isinstance e ValueError = false ->
  analyze_file env filepath = Raise e.
Proof.
  intros Hr Hp H1 H2. unfold analyze_file. unfold readable in Hr.
  rewrite Hr. cbn [mbind result_bind].
  unfold parse_code, try_except. rewrite Hp.
  cbn [mbind result_bind handle]. by rewrite H1, H2.
Qed.

Lemma analyze_each_all (env : Env) (paths : list str) :
  Forall (fun p => exists r, analyze_file env p = Ok r) paths ->
  exists results,
    analyze_each env paths = Ok results
    /\ Forall2 (fun p r => analyze_file env p = Ok r) paths results.
Proof.
  induction 1 as [| p paths [r Hr] _ (rs & Hrs & Hall)].
  - exists []. by split.
  - exists (r :: rs). cbn [analyze_each]. rewrite Hr, Hrs.
    split; [done | by constructor].
Qed.

Lemma analyze_each_stops (env : Env) (before after : list str) (p : str)
    (e : exn) :
  Forall (fun p => exists r, analyze_file env p = Ok r) before ->
  analyze_file env p = Raise e ->
  analyze_each env (before ++ p :: after) = Raise e.
Proof.
  intros Hbefore Hp. rewrite analyze_each_app.
  destruct (analyze_each_all env before Hbefore) as (rs & -> & _).
  cbn [mbind result_bind analyze_each]. by rewrite Hp.
Qed.

(** [analyze_directory] returns one record for every file whose name ends
    in [.py], in the order of the walk and none for any other file; each
    is the record of [analyze_file] on the joined path and bears the name
    of its file.  (The names that [os.walk] lists hold no slash; every
    analysis is taken to return.) *)
Theorem directory_records (env : Env) (fs : Fs) (directory : str) :
  let paths := py_paths (os_walk fs directory) in
  Forall (fun '(root, file) => ~ In SLASH file) paths ->
  Forall (fun p => exists r, analyze_file env p = Ok r) (joined paths) ->
  exists results,
    analyze_directory env fs directory = Ok results
    /\ Forall2 (fun '(root, file) r =>
                  analyze_file env (path_join root file) = Ok r
                  /\ filename r = file)
         paths results.
Proof.
  intros paths Hnames Hok.
  destruct (analyze_each_all env (joined paths) Hok) as (results & Hrs & Hall).
  exists results. split; [by rewrite analyze_directory_each |].
  clear Hrs Hok. revert results Hall.
  induction Hnames as [| [root file] paths' Hfile _ IH]; intros results Hall;
    inversion Hall as [| ? r ? rs Hr Hrest]; subst; constructor.
  - split; [exact Hr |].
    rewrite (filename_basename _ _ _ Hr). by apply basename_path_join.
  - by apply IH.
Qed.

(** With a parser that raises nothing but [SyntaxError] and [ValueError],
    [analyze_directory] returns on every directory: a file that cannot be
    read or parsed does not stop the batch, and the records with score 0,
    like those with the error sentinel, are exactly those of the files
    whose analysis failed. *)
Theorem directory_never_aborts (env : Env) (fs : Fs) (directory : str) :
  parser_rejects_only env ->
  exists results,
    analyze_directory env fs directory = Ok results
    /\ Forall2 (fun p r =>
                  analyze_file env p = Ok r
                  /\ (score r == 0 <-> analysis_fails env p)
                  /\ (is_error_sentinel r <-> analysis_fails env p))
         (joined (py_paths (os_walk fs directory))) results.
Proof.
  intros Hparser.
  destruct (analyze_each_all env (joined (py_paths (os_walk fs directory))))
    as (results & Hrs & Hall).
  { apply Forall_forall. intros p _. by apply analyze_file_total. }
  exists results. split; [by rewrite analyze_directory_each |].
  clear Hrs.
  induction Hall as [| p r ps rs Hr _ IH]; [by constructor |].
  constructor; [| exact IH].
  destruct (record_marks_failure env p r Hr) as (H1 & H2 & _).
  split; [exact Hr |]. by split.
Qed.

(** A parser exception of another class stops the batch: when the files
    before it are analyzed and [ast.parse] raises, on the text of a file,
    an exception that is neither a [SyntaxError] nor a [ValueError],
    [analyze_directory] raises it and returns no record at all. *)
Theorem directory_aborts (env : Env) (fs : Fs) (directory : str)
    (before after : list str) (p code : str) (e : exn) :
  joined (py_paths (os_walk fs directory)) = before ++ p :: after ->
  Forall (fun p => exists r, analyze_file env p = Ok r) before ->
  readable env p code -> ast_parse env code = Raise e ->
  isinstance e SyntaxError = false -> isinstance e ValueError = false ->
  analyze_directory env fs directory = Raise e.
Proof.
  intros Hpaths Hbefore Hr Hp H1 H2.
  rewrite analyze_directory_each, Hpaths.
  apply analyze_each_stops; [exact Hbefore |].
  by apply (analyze_file_raises env p code).
Qed.

Lemma sample_parser_rejects_only : parser_rejects_only Sample.env.
Proof.
  intros code e. cbn [ast_parse Sample.env].
  destruct (Sample.assoc code Sample.trees); [done |].
  by intros [= <-].
Qed.

Lemma directory_records_witness :
  exists results,
    analyze_directory Sample.env SampleMore.fs (lit "pkg") = Ok results
    /\ Forall2 (fun '(root, file) r =>
                  analyze_file Sample.env (path_join root file) = Ok r
                  /\ filename r = file)
         (py_paths (os_walk SampleMore.fs (lit "pkg"))) results.
Proof.
  apply (directory_records Sample.env SampleMore.fs (lit "pkg")).
  - let l := eval vm_compute in (py_paths (os_walk SampleMore.fs (lit "pkg")))
    in change (py_paths (os_walk SampleMore.fs (lit "pkg"))) with l.
    repeat (apply List.Forall_cons;
            [vm_compute; intuition discriminate |]).
    apply List.Forall_nil.
  - let l := eval vm_compute in
      (joined (py_paths (os_walk SampleMore.fs (lit "pkg"))))
    in change (joined (py_paths (os_walk SampleMore.fs (lit "pkg")))) with l.
    repeat (apply List.Forall_cons; [eexists; by vm_compute |]).
    apply List.Forall_nil.
Defined.

Lemma directory_never_aborts_witness :
  exists results,
    analyze_directory Sample.env SampleMore.fs (lit "pkg") = Ok results
    /\ Forall2 (fun p r =>
                  analyze_file Sample.env p = Ok r
                  /\ (score r == 0 <-> analysis_fails Sample.env p)
                  /\ (is_error_sentinel r <-> analysis_fails Sample.env p))
         (joined (py_paths (os_walk SampleMore.fs (lit "pkg")))) results.
Proof.
  exact (directory_never_aborts Sample.env SampleMore.fs (lit "pkg")
           sample_parser_rejects_only).
Defined.

Lemma directory_aborts_witness :
  analyze_directory SampleMore.crash_env SampleMore.fs (lit "pkg")
  = Raise (mkExn RecursionError (lit "maximum recursion depth")).
Proof.
  apply (directory_aborts SampleMore.crash_env SampleMore.fs (lit "pkg")
           [lit "pkg/test_code.py"]
           [lit "pkg/error.py"; lit "pkg/empty.py"]
           (lit "pkg/plain.py") Sample.plain_code).
  - by vm_compute.
  - repeat (apply List.Forall_cons; [eexists; by vm_compute |]).
    apply List.Forall_nil.
  - by vm_compute.
  - by vm_compute.
  - by vm_compute.
  - by vm_compute.
Defined.

(** The batch of the sample directory: four records, in the order of the
    walk, the third one alone with score 0. *)
Example directory_sample :
  exists results,
    analyze_directory Sample.env SampleMore.fs (lit "pkg") = Ok results
    /\ List.map filename results
       = [ lit "test_code.py"; lit "plain.py"; lit "error.py";
           lit "empty.py" ]
    /\ List.map (fun r => Qeq_bool (score r) 0) results
       = [false; false; true; false].
Proof. eexists. split; [by vm_compute |]. by vm_compute. Qed.

End DirectoryExtras.

(** ** Recommendations *)

Module AdviceExtras.
Import PyNumFacts.

Ltac ltb_props :=
  repeat match goal with
         | H : PyNum.ltb _ _ = true |- _ => apply ltb_lt in H
         | H : PyNum.ltb _ _ = false |- _ => apply ltb_ge in H
         end.

Lemma messages_distinct : NoDup (advice_messages ++ verdict_messages).
Proof. apply (bool_decide_unpack _). by vm_compute. Qed.

(** [generate_recommendations] returns between one and five messages,
    all different: at most four of advice, then one verdict, which the
    score alone decides (below 50, below 70, below 85, or 85 and more; an
    absent score counts as 0). *)
Theorem recommendations_shape (metrics : gmap string Q) :
  exists advice verdict,
    generate_recommendations metrics = advice ++ [verdict]
    /\ (length advice <= 4)%nat
    /\ Forall (fun a => In a advice_messages) advice
    /\ NoDup (advice ++ [verdict])
    /\ let score := dict_get metrics "score" 0 in
       (score < 50 /\ verdict = VERDICT_POOR)
       \/ (50 <= score < 70 /\ verdict = VERDICT_FAIR)
       \/ (70 <= score < 85 /\ verdict = VERDICT_GOOD)
       \/ (85 <= score /\ verdict = VERDICT_EXCELLENT).
Proof.
  unfold generate_recommendations.
  generalize (dict_get metrics "score" 0). intros score.
  destruct (PyNum.ltb score 50) eqn:E1;
    destruct (PyNum.ltb score 70) eqn:E2;
    destruct (PyNum.ltb score 85) eqn:E3;
    ltb_props;
    try (exfalso; lra);
    destruct (PyNum.ltb (dict_get metrics "comment_density" 0) 5);
    destruct (PyNum.ltb 30 (dict_get metrics "comment_density" 0));
    destruct (PyNum.ltb 5 (dict_get metrics "pep8_errors" 0));
    destruct (PyNum.ltb 10 (dict_get metrics "max_complexity" 0));
    destruct (PyNum.ltb (dict_get metrics "docstring_coverage" 0) 50);
    cbn [app];
    match goal with
    | |- exists advice verdict, ?l = _ /\ _ =>
        exists (removelast l), (List.last l [])
    end;
    (split; [reflexivity |]);
    (split; [simpl; lia |]);
    (split; [cbn [removelast];
             repeat (apply List.Forall_cons; [simpl; tauto |]);
             apply List.Forall_nil |]);
    (split; [apply (bool_decide_unpack _); by vm_compute |]);
    cbn [List.last]; cbv zeta;
    solve [ left; split; [lra | reflexivity]
          | right; left; split; [lra | reflexivity]
          | right; right; left; split; [lra | reflexivity]
          | right; right; right; split; [lra | reflexivity] ].
Qed.

Lemma dict_get_union_defaults (metrics : gmap string Q) (k : string) :
  In k advice_keys ->
  dict_get (metrics ∪ advice_defaults) k 0 == dict_get metrics k 0.
Proof.
  intros Hk. unfold dict_get.
  destruct (metrics !! k) as [v |] eqn:E.
  - by rewrite (lookup_union_Some_l _ _ _ _ E).
  - rewrite lookup_union_r by exact E.
    simpl in Hk. by repeat (destruct Hk as [<- | Hk]; [done |]).
Qed.

(** The advice depends on the five values only. *)
Lemma recommendations_values (m1 m2 : gmap string Q) :
  (forall k, In k advice_keys -> dict_get m1 k 0 == dict_get m2 k 0) ->
  generate_recommendations m1 = generate_recommendations m2.
Proof.
  intros H.
  pose proof (H "pep8_errors"%string ltac:(simpl; tauto)) as He.
  pose proof (H "max_complexity"%string ltac:(simpl; tauto)) as Hx.
  pose proof (H "docstring_coverage"%string ltac:(simpl; tauto)) as Hd.
  pose proof (H "comment_density"%string ltac:(simpl; tauto)) as Hc.
  pose proof (H "score"%string ltac:(simpl; tauto)) as Hs.
  unfold generate_recommendations.
  by rewrite (ltb_proper _ _ (reflexivity 5) _ _ He),
    (ltb_proper _ _ (reflexivity 10) _ _ Hx),
    (ltb_proper _ _ Hd _ _ (reflexivity 50)),
    (ltb_proper _ _ Hc _ _ (reflexivity 5)),
    (ltb_proper _ _ (reflexivity 30) _ _ Hc),
    (ltb_proper _ _ Hs _ _ (reflexivity 50)),
    (ltb_proper _ _ Hs _ _ (reflexivity 70)),
    (ltb_proper _ _ Hs _ _ (reflexivity 85)).
Qed.

(** [generate_recommendations] reads five keys and nothing else: two
    dicts with the same numbers under them get the same messages, and a
    key that is absent counts as 0, so completing a dict with zeros
    changes nothing. *)
Theorem recommendations_defaults (m1 m2 : gmap string Q) :
  ((forall k, In k advice_keys -> dict_get m1 k 0 == dict_get m2 k 0) ->
   generate_recommendations m1 = generate_recommendations m2)
  /\ generate_recommendations (m1 ∪ advice_defaults)
     = generate_recommendations m1.
Proof.
  split; [apply recommendations_values |].
  apply recommendations_values. intros k Hk. by apply dict_get_union_defaults.
Qed.

Lemma recommendations_defaults_witness :
  generate_recommendations {[ "lines_of_code" := 3 ]}
  = generate_recommendations advice_defaults.
Proof.
  apply (recommendations_defaults {[ "lines_of_code" := 3 ]}
           advice_defaults).
  intros k Hk. simpl in Hk.
  by repeat (destruct Hk as [<- | Hk]; [by vm_compute |]).
Defined.

End AdviceExtras.

Module AdviceOnRecords.
Import PyNumFacts RubricFacts ScorerFacts RoundFacts ExtractorFacts
  ScorerExtras RecordExtras AdviceExtras.

(** A rounded value is within half a unit of the value. *)
Lemma round_half_even_ge_inv (n : Z) (q : Q) :
  (n <= PyNum.round_half_even q)%Z -> inject_Z n - (1 # 2) <= q.
Proof.
  intros H. pose proof (Qfloor_le q) as Hfl.
  destruct (round_half_even_cases q) as [E | [E Hhalf]]; rewrite E in H.
  - rewrite Zle_Qle in H. lra.
  - rewrite Zle_Qle, inject_Z_plus in H.
    change (inject_Z 1) with 1 in H. lra.
Qed.

Lemma round2_ge_inv (n : Z) (x : Q) :
  inject_Z n <= PyNum.round2 x -> inject_Z n - (1 # 200) <= x.
Proof.
  unfold PyNum.round2. intros H.
  assert (n * 100 <= PyNum.round_half_even (x * 100))%Z as H'.
  { rewrite Zle_Qle, inject_Z_mult. change (inject_Z 100) with 100.
    set (k := inject_Z (PyNum.round_half_even (x * 100))) in *.
    assert (k == k / 100 * 100) as Hk by field.
    set (y := k / 100) in *. lra. }
  apply round_half_even_ge_inv in H'.
  rewrite inject_Z_mult in H'. change (inject_Z 100) with 100 in H'. lra.
Qed.

(** When every test of [generate_recommendations] passes, only the
    verdict is returned; and conversely. *)
Lemma single_message (metrics : gmap string Q) (verdict : str) :
  generate_recommendations metrics = [verdict] ->
  dict_get metrics "pep8_errors" 0 <= 5
  /\ dict_get metrics "max_complexity" 0 <= 10
  /\ 50 <= dict_get metrics "docstring_coverage" 0
  /\ 5 <= dict_get metrics "comment_density" 0
  /\ (verdict = VERDICT_GOOD \/ verdict = VERDICT_EXCELLENT
      \/ dict_get metrics "score" 0 < 70).
Proof.
  unfold generate_recommendations.
  destruct (PyNum.ltb 5 (dict_get metrics "pep8_errors" 0)) eqn:E1;
    destruct (PyNum.ltb 10 (dict_get metrics "max_complexity" 0)) eqn:E2;
    destruct (PyNum.ltb (dict_get metrics "docstring_coverage" 0) 50) eqn:E3;
    destruct (PyNum.ltb (dict_get metrics "comment_density" 0) 5) eqn:E4;
    destruct (PyNum.ltb 30 (dict_get metrics "comment_density" 0)) eqn:E5;
    destruct (PyNum.ltb (dict_get metrics "score" 0) 50) eqn:E6;
    destruct (PyNum.ltb (dict_get metrics "score" 0) 70) eqn:E7;
    destruct (PyNum.ltb (dict_get metrics "score" 0) 85) eqn:E8;
    cbn [app]; intros H; try discriminate H;
    injection H as <-; ltb_props; repeat split; try assumption;
    solve [ by left | by right; left | right; right; lra ].
Qed.

Lemma asdict_numbers_get (r : CodeMetrics) :
  dict_get (asdict_numbers r) "pep8_errors" 0 = inject_Z (pep8_errors r)
  /\ dict_get (asdict_numbers r) "max_complexity" 0
     = inject_Z (max_complexity r)
  /\ dict_get (asdict_numbers r) "docstring_coverage" 0
     = docstring_coverage r
  /\ dict_get (asdict_numbers r) "comment_density" 0 = comment_density r
  /\ dict_get (asdict_numbers r) "score" 0 = score r.
Proof. unfold dict_get, asdict_numbers. repeat split; by simplify_map_eq. Qed.

(** The rubric on an input that calls for no advice. *)
Lemma rubric_tidy (m : RawMetrics) :
  raw_pep8_errors m <= 5 -> raw_max_complexity m <= 10 ->
  raw_avg_complexity m <= 10 ->
  49.995 <= raw_docstring_coverage m -> 4.995 <= raw_comment_density m ->
  72 <= Rubric.score m.
Proof.
  intros He Hx Ha Hd Hc.
  destruct (rubric_step_bounds m) as (_ & Hw & _ & _ & [Hi _] & _ & _).
  assert (Rubric.style_errors m <= 10) as Be.
  { unfold Rubric.style_errors.
    apply Qle_trans with (raw_pep8_errors m * 2); [apply Q.le_min_l | lra]. }
  assert (Rubric.complexity_max m == 0) as Bx.
  { unfold Rubric.complexity_max. destruct (Qlt_le_dec _ _); [lra | done]. }
  assert (Rubric.complexity_avg m <= 5) as Ba.
  { unfold Rubric.complexity_avg. destruct (Qlt_le_dec _ _); [| lra].
    apply Qle_trans with ((raw_avg_complexity m - 5) * 1);
      [apply Q.le_min_l | lra]. }
  assert (7 <= Rubric.documentation m) as Bd.
  { unfold Rubric.documentation. apply Qmin_glb; lra. }
  assert (0 <= Rubric.comments m) as Bc.
  { unfold Rubric.comments, Rubric.in_band.
    repeat match goal with
           | |- context [Qlt_le_dec ?a ?b] => destruct (Qlt_le_dec a b)
           end; lra. }
  unfold Rubric.score.
  rewrite <- (clamp_fixed 72) by lra. apply clamp_mono. lra.
Qed.

(** The record of a failed analysis always gets the same four messages:
    the advice on style errors, on docstrings and on comments, and the
    lowest verdict. *)
Theorem advice_for_failed (env : Env) (filepath : str) (r : CodeMetrics) :
  analyze_file env filepath = Ok r -> analysis_fails env filepath ->
  generate_recommendations (asdict_numbers r)
  = [ADVICE_PEP8; ADVICE_DOCSTRINGS; ADVICE_ADD_COMMENTS; VERDICT_POOR].
Proof.
  intros H Hf. destruct (analyze_file_failed env filepath Hf) as [msg Hr].
  rewrite Hr in H. by injection H as <-.
Qed.

Lemma advice_for_failed_witness :
  exists r, analyze_file Sample.env (lit "pkg/error.py") = Ok r
    /\ generate_recommendations (asdict_numbers r)
       = [ADVICE_PEP8; ADVICE_DOCSTRINGS; ADVICE_ADD_COMMENTS; VERDICT_POOR].
Proof.
  eexists. split; [by vm_compute |].
  apply (advice_for_failed Sample.env (lit "pkg/error.py"));
    [by vm_compute |].
  right. exists Sample.error_code. split; by vm_compute.
Defined.

(** A record of [analyze_file] that gets the verdict and no advice has a
    score of at least 72, so its verdict is one of the two best: the
    tests that silence the advice bound the penalties of the scorer. *)
Theorem no_advice_good_score (env : Env) (filepath : str) (r : CodeMetrics)
    (verdict : str) :
  analyze_file env filepath = Ok r ->
  generate_recommendations (asdict_numbers r) = [verdict] ->
  72 <= score r
  /\ (verdict = VERDICT_GOOD \/ verdict = VERDICT_EXCELLENT).
Proof.
  intros H Hone.
  destruct (single_message _ _ Hone) as (He & Hx & Hd & Hc & Hv).
  destruct (asdict_numbers_get r) as (Ge & Gx & Gd & Gc & Gs).
  rewrite Ge in He. rewrite Gx in Hx. rewrite Gd in Hd. rewrite Gc in Hc.
  rewrite Gs in Hv.
  assert (72 <= score r) as Hscore.
  { destruct (analyze_file_inv env filepath r H)
      as [[_ [msg ->]] | (code & tree & _ & _ & Hm)].
    - exfalso. revert He. by vm_compute.
    - destruct (measure_code_ok env filepath code tree)
        as (avg & mx & mi & e & w & dc & cd & s & Hcx & _ & _ & _ & Hdc & _
            & Hcd & _ & Hsr & Hrec).
      rewrite Hrec in Hm. injection Hm as <-.
      cbn [pep8_errors max_complexity docstring_coverage comment_density
             score] in *.
      destruct (complexity_stats_ordered env code)
        as (avg' & mx' & Hcx' & Hle).
      rewrite Hcx in Hcx'. injection Hcx' as <- <-.
      apply (round2_ge_inv 50) in Hd. apply (round2_ge_inv 5) in Hc.
      change (inject_Z 50) with 50 in Hd. change (inject_Z 5) with 5 in Hc.
      apply (round2_range 72 100). rewrite Hsr.
      split; [| apply score_range].
      apply rubric_tidy; cbn [raw_pep8_errors raw_max_complexity
        raw_avg_complexity raw_docstring_coverage raw_comment_density];
        lra. }
  split; [exact Hscore |].
  destruct Hv as [Hv | [Hv | Hv]]; [by left | by right | lra].
Qed.

Lemma no_advice_good_score_witness :
  exists r verdict,
    analyze_file SampleMore.tidy_env (lit "tidy.py") = Ok r
    /\ generate_recommendations (asdict_numbers r) = [verdict]
    /\ 72 <= score r
    /\ (verdict = VERDICT_GOOD \/ verdict = VERDICT_EXCELLENT).
Proof.
  eexists _, _. split; [by vm_compute |].
  assert (generate_recommendations
            (asdict_numbers
               {| filename := lit "tidy.py"; lines_of_code := 10;
                  num_functions := 0; num_classes := 0;
                  avg_complexity := PyNum.round2 0; max_complexity := 0;
                  maintainability_index := PyNum.round2 90;
                  pep8_errors := 0; pep8_warnings := 0;
                  docstring_coverage := PyNum.round2 100;
                  comment_density := PyNum.round2 (1 / 10 * 100);
                  score := PyNum.round2 100 |})
          = [VERDICT_EXCELLENT]) as Hone by (by vm_compute).
  split; [by vm_compute |].
  refine (no_advice_good_score SampleMore.tidy_env (lit "tidy.py") _ _ _ Hone).
  by vm_compute.
Defined.

End AdviceOnRecords.

(** ** Duplicated lines *)

Module DuplicationExtras.
Import PyStrFacts ExtractorFacts RecordExtras PercentExtras.

Lemma occurrences_snoc (key x : str) (lines : list str) :
  occurrences key (lines ++ [x])
  = (occurrences key lines + if bool_decide (x = key) then 1 else 0)%Z.
Proof.
  unfold occurrences. rewrite List.filter_app, length_app. cbn [List.filter].
  destruct (bool_decide (x = key)); simpl; lia.
Qed.

Lemma occurrences_nonneg (key : str) (lines : list str) :
  (0 <= occurrences key lines)%Z.
Proof. unfold occurrences. lia. Qed.

Lemma held_absent (counter : list (str * Z)) (key : str) :
  key ∉ List.map fst counter -> held counter key = 0%Z.
Proof.
  induction counter as [| [k n] counter IH]; simpl; [done |].
  intros H. destruct (bool_decide_reflect (k = key)) as [-> | _].
  - destruct H. by left.
  - apply IH. intros Hin. apply H. by right.
Qed.

Lemma held_positive (counter : list (str * Z)) (key : str) :
  Forall (fun item => (0 < snd item)%Z) counter ->
  key ∈ List.map fst counter -> (0 < held counter key)%Z.
Proof.
  induction 1 as [| [k n] counter Hn _ IH]; simpl.
  - by intros ?%not_elem_of_nil.
  - intros [-> | Hin]%elem_of_cons.
    + by rewrite bool_decide_eq_true_2.
    + destruct (bool_decide (k = key)); [exact Hn | by apply IH].
Qed.

Lemma counter_add_keys (elem : str) (counter : list (str * Z)) :
  List.map fst (counter_add elem counter)
  = if bool_decide (elem ∈ List.map fst counter)
    then List.map fst counter
    else List.map fst counter ++ [elem].
Proof.
  induction counter as [| [k n] counter IH]; cbn [counter_add List.map fst].
  - by rewrite bool_decide_eq_false_2 by apply not_elem_of_nil.
  - destruct (bool_decide_reflect (k = elem)) as [-> | Hne].
    + rewrite bool_decide_eq_true_2 by (by left). done.
    + cbn [List.map fst]. rewrite IH.
      destruct (bool_decide_reflect (elem ∈ List.map fst counter))
        as [Hin | Hnin].
      * by rewrite bool_decide_eq_true_2 by (by right).
      * rewrite bool_decide_eq_false_2; [done |].
        intros [? | ?]%elem_of_cons; [by apply Hne | by apply Hnin].
Qed.

Lemma counter_add_held (elem key : str) (counter : list (str * Z)) :
  held (counter_add elem counter) key
  = (held counter key + if bool_decide (elem = key) then 1 else 0)%Z.
Proof.
  induction counter as [| [k n] counter IH]; cbn [counter_add held].
  - destruct (bool_decide (elem = key)); lia.
  - destruct (bool_decide_reflect (k = elem)) as [-> | Hne]; cbn [held].
    + destruct (bool_decide (elem = key)); lia.
    + destruct (bool_decide_reflect (k = key)) as [-> | _]; [| exact IH].
      rewrite bool_decide_eq_false_2 by (intros ->; by apply Hne). lia.
Qed.

Lemma counter_add_positive (elem : str) (counter : list (str * Z)) :
  Forall (fun item => (0 < snd item)%Z) counter ->
  Forall (fun item => (0 < snd item)%Z) (counter_add elem counter).
Proof.
  induction 1 as [| [k n] counter Hn Htail IH]; cbn [counter_add].
  - by repeat constructor.
  - destruct (bool_decide (k = elem)); constructor; simpl in *;
      (lia || assumption).
Qed.

Lemma counts_add (elem : str) (counter : list (str * Z)) (lines : list str) :
  counts counter lines -> counts (counter_add elem counter) (lines ++ [elem]).
Proof.
  intros (Hkeys & Hpos & Hheld). split; [| split].
  - rewrite counter_add_keys.
    destruct (bool_decide_reflect (elem ∈ List.map fst counter));
      [done |].
    apply NoDup_app. split; [done |]. split; [| apply NoDup_singleton].
    intros x Hx Hx'%list_elem_of_singleton. by subst.
  - by apply counter_add_positive.
  - intros key. by rewrite counter_add_held, occurrences_snoc, Hheld.
Qed.

Lemma counts_fold (lines seen : list str) (counter : list (str * Z)) :
  counts counter seen ->
  counts (fold_left (fun c x => counter_add x c) lines counter)
    (seen ++ lines).
Proof.
  revert seen counter. induction lines as [| x lines IH];
    intros seen counter H; cbn [fold_left].
  - by rewrite app_nil_r.
  - rewrite (app_assoc seen [x] lines : seen ++ x :: lines = _).
    apply IH. by apply counts_add.
Qed.

(** [Counter] counts. *)
Lemma Counter_counts (lines : list str) : counts (Counter lines) lines.
Proof.
  apply (counts_fold lines [] []). split; [constructor |].
  split; [constructor | done].
Qed.

Lemma py_sum_cons (n : Z) (l : list Z) : py_sum (n :: l) = (n + py_sum l)%Z.
Proof. unfold py_sum at 1. cbn [fold_left]. rewrite py_sum_from. lia. Qed.

Lemma filter_split_length {A} (p q : A -> bool) (l : list A) :
  length (List.filter p l)
  = (length (List.filter p (List.filter q l))
     + length (List.filter p (List.filter (fun x => negb (q x)) l)))%nat.
Proof.
  induction l as [| x l IH]; simpl; [done |].
  destruct (q x), (p x) eqn:Hp; simpl; rewrite ?Hp; simpl; lia.
Qed.

Lemma filter_const_length {A} (p q : A -> bool) (b : bool) (l : list A) :
  (forall x, q x = true -> p x = b) ->
  length (List.filter p (List.filter q l))
  = if b then length (List.filter q l) else 0%nat.
Proof.
  intros H. induction l as [| x l IH]; simpl; [by destruct b |].
  destruct (q x) eqn:Hq; [| exact IH].
  simpl. rewrite (H x Hq). destruct b; simpl; lia.
Qed.

Lemma occurrences_without (key k : str) (lines : list str) :
  key <> k ->
  occurrences key
    (List.filter (fun x => negb (bool_decide (x = k))) lines)
  = occurrences key lines.
Proof.
  intros Hne. unfold occurrences. f_equal.
  induction lines as [| x lines IH]; simpl; [done |].
  destruct (bool_decide_reflect (x = k)) as [-> | _]; simpl.
  - by rewrite bool_decide_eq_false_2 by (intros ->; by apply Hne).
  - destruct (bool_decide (x = key)); simpl; by rewrite IH.
Qed.

Lemma occurrences_removed (k : str) (lines : list str) :
  occurrences k (List.filter (fun x => negb (bool_decide (x = k))) lines)
  = 0%Z.
Proof.
  unfold occurrences. induction lines as [| x lines IH]; simpl; [done |].
  destruct (bool_decide_reflect (x = k)) as [-> | Hne]; simpl; [exact IH |].
  by rewrite bool_decide_eq_false_2.
Qed.

Lemma counts_tail (k : str) (n : Z) (counter : list (str * Z))
    (lines : list str) :
  counts ((k, n) :: counter) lines ->
  n = occurrences k lines
  /\ counts counter
       (List.filter (fun x => negb (bool_decide (x = k))) lines).
Proof.
  intros (Hkeys & Hpos & Hheld). split.
  - rewrite <- Hheld. simpl. by rewrite bool_decide_eq_true_2.
  - cbn [List.map fst] in Hkeys. apply NoDup_cons in Hkeys as [Hk Hkeys].
    split; [exact Hkeys |]. split; [by inversion Hpos |].
    intros key. destruct (decide (key = k)) as [-> | Hne].
    + by rewrite held_absent, occurrences_removed.
    + rewrite occurrences_without by done. rewrite <- Hheld. simpl.
      by rewrite bool_decide_eq_false_2 by (intros ->; by apply Hne).
Qed.

Lemma counts_nil (lines : list str) : counts [] lines -> lines = [].
Proof.
  intros (_ & _ & Hheld). destruct lines as [| x lines]; [done |].
  specialize (Hheld x). unfold occurrences in Hheld. simpl in Hheld.
  rewrite bool_decide_eq_true_2 in Hheld by done. simpl in Hheld. lia.
Qed.

(** The counts that pass a test add up to the number of lines whose
    number of occurrences passes it. *)
Lemma counter_weight (g : Z -> bool) (counter : list (str * Z))
    (lines : list str) :
  counts counter lines ->
  py_sum (List.map snd (List.filter (fun item => g (snd item)) counter))
  = Z.of_nat
      (length (List.filter (fun x => g (occurrences x lines)) lines)).
Proof.
  revert lines. induction counter as [| [k n] counter IH]; intros lines H.
  - by rewrite (counts_nil lines H).
  - destruct (counts_tail k n counter lines H) as [Hn Htail].
    specialize (IH _ Htail).
    rewrite (filter_split_length _ (fun x => bool_decide (x = k)) lines).
    rewrite (filter_const_length _ _ (g n)).
    2:{ intros x Hx. apply bool_decide_eq_true in Hx. by subst. }
    rewrite Nat2Z.inj_add.
    rewrite (List.filter_ext_in
               (fun x => g (occurrences x lines))
               (fun x => g (occurrences x
                              (List.filter
                                 (fun x => negb (bool_decide (x = k)))
                                 lines)))).
    2:{ intros x Hx. apply List.filter_In in Hx as [_ Hx].
        apply negb_true_iff, bool_decide_eq_false in Hx.
        by rewrite occurrences_without. }
    rewrite <- IH. cbn [List.filter snd].
    destruct (g n); cbn [List.map snd]; [| lia].
    rewrite py_sum_cons. unfold occurrences in Hn. lia.
Qed.

(** The counts above 1 add up to the number of lines that have a twin. *)
Lemma duplicate_lines_repeated (counter : list (str * Z))
    (lines : list str) :
  counts counter lines ->
  py_sum (List.map snd
            (List.filter (fun item => (1 <? snd item)%Z) counter))
  = Z.of_nat (length (repeated lines)).
Proof. apply (counter_weight (fun n => (1 <? n)%Z)). Qed.

Lemma clean_lines_app (lines cleaned : list str) :
  clean_lines lines cleaned = cleaned ++ clean_lines lines [].
Proof.
  revert cleaned. induction lines as [| line lines IH]; intros cleaned;
    cbn [clean_lines]; [by rewrite app_nil_r |].
  destruct (clean_line line) as [c |]; [| apply IH].
  rewrite (IH (cleaned ++ [c])), (IH ([] ++ [c])). by rewrite <- app_assoc.
Qed.

Lemma occurrences_cons (key x : str) (lines : list str) :
  occurrences key (x :: lines)
  = ((if bool_decide (x = key) then 1 else 0) + occurrences key lines)%Z.
Proof.
  unfold occurrences. cbn [List.filter].
  destruct (bool_decide (x = key)); cbn [length]; lia.
Qed.

Lemma occurrences_zero (key : str) (lines : list str) :
  occurrences key lines = 0%Z <-> key ∉ lines.
Proof.
  induction lines as [| x lines IH].
  - split; [intros _; apply not_elem_of_nil | done].
  - rewrite occurrences_cons, not_elem_of_cons.
    pose proof (occurrences_nonneg key lines).
    destruct (bool_decide_reflect (x = key)) as [-> | Hne].
    + split; [lia | by intros [? _]].
    + rewrite Z.add_0_l, IH. split; [by split; [intros -> |] | by intros [_ ?]].
Qed.

Lemma NoDup_occurrences (lines : list str) :
  NoDup lines <-> Forall (fun x => (1 <? occurrences x lines)%Z = false) lines.
Proof.
  induction lines as [| x lines IH]; [by split; constructor |].
  rewrite NoDup_cons, IH. split.
  - intros [Hx Hall]. constructor.
    + rewrite occurrences_cons, bool_decide_eq_true_2 by done.
      apply occurrences_zero in Hx. rewrite Hx. done.
    + apply Forall_forall. intros y Hy.
      rewrite Forall_forall in Hall. specialize (Hall y Hy).
      rewrite occurrences_cons, bool_decide_eq_false_2; [done |].
      intros ->. by apply Hx.
  - intros H. inversion H as [| ? ? Hx Hall]; subst.
    rewrite occurrences_cons, bool_decide_eq_true_2 in Hx by done.
    apply Z.ltb_ge in Hx. pose proof (occurrences_nonneg x lines).
    split; [apply occurrences_zero; lia |].
    eapply Forall_impl; [exact Hall |]. cbn beta.
    intros y Hy. rewrite occurrences_cons in Hy.
    apply Z.ltb_ge in Hy. apply Z.ltb_ge.
    destruct (bool_decide (x = y)); lia.
Qed.

(** A line with a twin brings all its copies. *)
Lemma repeated_at_least (x : str) (lines : list str) :
  (1 < occurrences x lines)%Z ->
  (occurrences x lines <= Z.of_nat (length (repeated lines)))%Z.
Proof.
  intros Hx. unfold repeated.
  rewrite (filter_split_length _ (fun y => bool_decide (y = x)) lines).
  rewrite (filter_const_length _ _ true).
  - unfold occurrences. lia.
  - intros y Hy. apply bool_decide_eq_true in Hy. subst.
    by apply Z.ltb_lt.
Qed.

Lemma repeated_not_one (lines : list str) :
  length (repeated lines) <> 1%nat.
Proof.
  intros H. destruct (repeated lines) as [| x [| ? ?]] eqn:E; try done.
  assert (In x (repeated lines)) as Hin by (rewrite E; by left).
  unfold repeated in Hin. apply List.filter_In in Hin as [_ Hx].
  apply Z.ltb_lt in Hx. pose proof (repeated_at_least x lines Hx) as Hle.
  rewrite E in Hle. simpl in Hle. lia.
Qed.

(** [calculate_duplication_rate] never raises and returns a percentage.
    With fewer than two lines of code (blank lines and comments apart) it
    returns 0; otherwise it returns the share of the lines of code that
    occur more than once, once blanks are normalized. *)
Theorem duplication_rate_share (code : str) :
  let lines := code_lines code in
  exists v,
    calculate_duplication_rate code = Ok v
    /\ 0 <= v <= 100
    /\ ((length lines < 2)%nat -> v = 0)
    /\ ((2 <= length lines)%nat ->
        v * inject_Z (Z.of_nat (length lines))
        == 100 * inject_Z (Z.of_nat (length (repeated lines)))).
Proof.
  intros lines. unfold calculate_duplication_rate. fold (code_lines code).
  fold lines.
  destruct (Z.ltb_spec (Z.of_nat (length lines)) 2) as [Hlt | Hge].
  - exists 0. split; [done |]. split; [lra |]. split; [done | lia].
  - rewrite (duplicate_lines_repeated _ _ (Counter_counts lines)).
    rewrite py_div_ok by (apply inject_Z_nonzero; lia).
    cbn [mbind result_bind]. eexists. split; [reflexivity |].
    pose proof (filter_length_le
                  (fun x => (1 <? occurrences x lines)%Z) lines) as Hle.
    fold (repeated lines) in Hle.
    split; [apply percentage_range; lia |]. split; [lia |]. intros _.
    destruct (percentage_exact (Z.of_nat (length (repeated lines)))
                (Z.of_nat (length lines))) as (H1 & _); [lia | lia |].
    exact H1.
Qed.

Lemma duplication_rate_share_witness :
  exists v,
    calculate_duplication_rate SampleMore.duplicated_code = Ok v
    /\ 0 <= v <= 100
    /\ ((length (code_lines SampleMore.duplicated_code) < 2)%nat -> v = 0)
    /\ ((2 <= length (code_lines SampleMore.duplicated_code))%nat ->
        v * inject_Z (Z.of_nat
                        (length (code_lines SampleMore.duplicated_code)))
        == 100 * inject_Z (Z.of_nat
                             (length (repeated
                                        (code_lines
                                           SampleMore.duplicated_code))))).
Proof. exact (duplication_rate_share SampleMore.duplicated_code). Defined.

(** The extremes of the duplication rate, for at least two lines of code:
    it is 0 exactly when the lines are pairwise different, 100 exactly
    when every line has a twin, and when it is positive at least two
    lines are repeated. *)
Theorem duplication_rate_extremes (code : str) (v : Q) :
  let lines := code_lines code in
  (2 <= length lines)%nat ->
  calculate_duplication_rate code = Ok v ->
  (v == 0 <-> NoDup lines)
  /\ (v == 100
      <-> Forall (fun x => (1 < occurrences x lines)%Z) lines)
  /\ (0 < v -> (2 <= length (repeated lines))%nat).
Proof.
  intros lines Hlen Hv.
  pose proof (filter_length_le
                (fun x => (1 <? occurrences x lines)%Z) lines) as Hle.
  fold (repeated lines) in Hle.
  revert Hv. unfold calculate_duplication_rate. fold (code_lines code).
  fold lines.
  destruct (Z.ltb_spec (Z.of_nat (length lines)) 2) as [Hlt | _]; [lia |].
  rewrite (duplicate_lines_repeated _ _ (Counter_counts lines)).
  rewrite py_div_ok by (apply inject_Z_nonzero; lia).
  cbn [mbind result_bind]. intros Hv. injection Hv as <-.
  destruct (percentage_exact (Z.of_nat (length (repeated lines)))
              (Z.of_nat (length lines))) as (_ & H0 & H100); [lia | lia |].
  cbv zeta in H0, H100.
  split; [| split].
  - rewrite NoDup_occurrences, <- filter_length_zero.
    fold (repeated lines).
    split; intros E; [apply H0 in E; lia | apply H0; lia].
  - assert (Forall (fun x => (1 < occurrences x lines)%Z) lines
            <-> Forall (fun x => (1 <? occurrences x lines)%Z = true) lines)
      as -> by (apply Forall_proper; [intros x; by rewrite Z.ltb_lt | done]).
    rewrite <- filter_length_all. fold (repeated lines).
    split; intros E; [apply H100 in E; lia | apply H100; lia].
  - intros Hpos.
    assert (length (repeated lines) <> 0%nat) as Hne.
    { intros E. assert (inject_Z (Z.of_nat (length (repeated lines)))
                          / inject_Z (Z.of_nat (length lines)) * 100 == 0)
        as E0 by (apply H0; lia). lra. }
    pose proof (repeated_not_one lines). lia.
Qed.

Lemma duplication_rate_extremes_witness :
  exists v,
    calculate_duplication_rate SampleMore.duplicated_code = Ok v
    /\ (v == 0 <-> NoDup (code_lines SampleMore.duplicated_code))
    /\ (v == 100
        <-> Forall (fun x =>
                      (1 < occurrences x
                             (code_lines SampleMore.duplicated_code))%Z)
              (code_lines SampleMore.duplicated_code))
    /\ (0 < v ->
        (2 <= length (repeated (code_lines SampleMore.duplicated_code)))%nat).
Proof.
  eexists. split; [by vm_compute |].
  apply (duplication_rate_extremes SampleMore.duplicated_code).
  - vm_compute. lia.
  - by vm_compute.
Defined.

(** Six of the seven lines of code of the sample have a twin: spacing,
    indentation and comments do not count. *)
Example duplication_rate_sample :
  code_lines SampleMore.duplicated_code
  = [ lit "x = 1"; lit "y = 2"; lit "z = x + y"; lit "x = 1"; lit "y = 2";
      lit "z = x + y"; lit "print(z)" ]
  /\ exists v, calculate_duplication_rate SampleMore.duplicated_code = Ok v
               /\ v == 600 / 7.
Proof. split; [by vm_compute |]. eexists. split; by vm_compute. Qed.

End DuplicationExtras.

(** ** Imports *)

Module ImportExtras.
Import RecordExtras DuplicationExtras.

Lemma imported_names_children (node : mnode) :
  imported_names node
  = (length (entries_of node)
     + list_sum (List.map imported_names (mchildren node)))%nat.
Proof.
  assert (forall names,
             list_sum (List.map imported_names (List.map AliasNode names))
             = 0%nat) as Hzero by (intros names; induction names; simpl; lia).
  destruct node as [names | m names | a | name ar pos children | children];
    cbn [imported_names mchildren entries_of];
    rewrite ?length_map, ?Hzero; simpl; lia.
Qed.

(** The walk meets every import statement of the queued trees once. *)
Lemma mwalk_queue_entries (todo : list mnode) :
  length (flat_map entries_of (mwalk_queue todo))
  = list_sum (List.map imported_names todo).
Proof.
  funelim (mwalk_queue todo); simp mwalk_queue; [done |].
  cbn [flat_map List.map list_sum]. rewrite length_app.
  rewrite (imported_names_children node).
  match goal with
  | IH : length (flat_map entries_of (mwalk_queue _)) = _ |- _ =>
      rewrite IH, map_app, list_sum_app
  end.
  unfold list_sum. cbn [fold_right]. lia.
Qed.

Lemma collect_imports_app (nodes : list mnode) (imports : list import_entry) :
  collect_imports nodes imports = imports ++ flat_map entries_of nodes.
Proof.
  revert imports. induction nodes as [| node nodes IH]; intros imports;
    cbn [collect_imports flat_map]; [by rewrite app_nil_r |].
  by rewrite IH, app_assoc.
Qed.

Lemma group_modules_fold (imports : list import_entry)
    (modules : list (str * Z)) :
  group_modules imports modules
  = fold_left (fun c x => counter_add x c)
      (List.filter (fun module => negb (bool_decide (module = [])))
         (List.map entry_module imports))
      modules.
Proof.
  revert modules. induction imports as [| imp imports IH]; intros modules;
    cbn [group_modules List.map List.filter]; [done |].
  destruct (entry_module imp) as [| c m] eqn:E; cbn [fold_left];
    by rewrite IH.
Qed.

Lemma counts_keys (counter : list (str * Z)) (lines : list str) (k : str) :
  counts counter lines -> k ∈ List.map fst counter <-> k ∈ lines.
Proof.
  intros (Hkeys & Hpos & Hheld). split.
  - intros Hk. pose proof (held_positive counter k Hpos Hk) as H.
    rewrite Hheld in H. destruct (decide (k ∈ lines)) as [| Hn]; [done |].
    apply occurrences_zero in Hn. lia.
  - intros Hk. destruct (decide (k ∈ List.map fst counter)) as [| Hn];
      [done |].
    apply held_absent in Hn. rewrite Hheld in Hn.
    by apply occurrences_zero in Hn.
Qed.

(** A counter has one key for each distinct line. *)
Lemma counts_length (counter : list (str * Z)) (lines : list str) :
  counts counter lines -> length counter = length (remove_dups lines).
Proof.
  intros H. rewrite <- (length_map fst counter).
  apply Permutation_length, NoDup_Permutation.
  - by destruct H.
  - apply NoDup_remove_dups.
  - intros k. rewrite elem_of_remove_dups. by apply counts_keys.
Qed.

Lemma counts_total (counter : list (str * Z)) (lines : list str) :
  counts counter lines ->
  py_sum (List.map snd counter) = Z.of_nat (length lines).
Proof.
  intros H. pose proof (counter_weight (fun _ => true) counter lines H) as E.
  assert (forall A (l : list A), List.filter (fun _ => true) l = l) as Hid
    by (intros A l; induction l; simpl; congruence).
  by rewrite !Hid in E.
Qed.

Lemma counts_each (counter : list (str * Z)) (lines : list str) :
  counts counter lines ->
  Forall (fun item => snd item = occurrences (fst item) lines
                      /\ fst item ∈ lines) counter.
Proof.
  intros H. apply Forall_forall. intros [k n] Hin.
  assert (k ∈ List.map fst counter) as Hk.
  { apply list_elem_of_fmap. by exists (k, n). }
  split; [| by apply (counts_keys counter lines k H)].
  destruct H as (Hkeys & _ & Hheld). rewrite <- Hheld. cbn [fst snd].
  clear Hheld Hk. induction counter as [| [k' n'] counter IH];
    [by apply not_elem_of_nil in Hin |].
  cbn [List.map fst] in Hkeys. apply NoDup_cons in Hkeys as [Hk' Hkeys].
  apply elem_of_cons in Hin as [[= -> ->] | Hin]; cbn [held].
  - by rewrite bool_decide_eq_true_2.
  - rewrite bool_decide_eq_false_2; [by apply IH |].
    intros ->. apply Hk'. apply list_elem_of_fmap. by exists (k, n).
Qed.

Lemma fold_max_in (l : list Z) (a : Z) :
  In (fold_left (fun m y => if (m <? y)%Z then y else m) l a) (a :: l).
Proof.
  revert a. induction l as [| y l IH]; intros a; cbn [fold_left];
    [by left |].
  destruct (IH (if (a <? y)%Z then y else a)) as [<- | Hin].
  - destruct (a <? y)%Z; [right; by left | by left].
  - right. by right.
Qed.

Lemma py_sum_ge (l : list Z) :
  Forall (fun n => (0 < n)%Z) l -> (Z.of_nat (length l) <= py_sum l)%Z.
Proof.
  induction 1 as [| n l Hn _ IH]; [done |].
  rewrite py_sum_cons. cbn [length]. lia.
Qed.

Lemma occurrences_le_length (k : str) (lines : list str) :
  (occurrences k lines <= Z.of_nat (length lines))%Z.
Proof.
  unfold occurrences.
  pose proof (PyStrFacts.filter_length_le
                (fun x => bool_decide (x = k)) lines). lia.
Qed.

(** The largest count of a counter is the largest number of
    occurrences. *)
Lemma counts_max (counter : list (str * Z)) (lines : list str) (m : Z) :
  counts counter lines -> counter <> [] ->
  py_max_list (List.map snd counter) = Ok m ->
  (forall k, (occurrences k lines <= m)%Z)
  /\ exists k, k ∈ lines /\ occurrences k lines = m.
Proof.
  intros H Hne Hm. pose proof (counts_each counter lines H) as Heach.
  destruct counter as [| [k0 n0] counter]; [done |].
  cbn [List.map snd py_max_list] in Hm. injection Hm as Hm.
  destruct (fold_max_bounds (List.map snd counter) n0) as [H0 Hall].
  cbv zeta in H0, Hall. rewrite Hm in H0, Hall.
  assert (Forall (fun n => (n <= m)%Z) (List.map snd ((k0, n0) :: counter)))
    as Hle by (by constructor).
  assert (0 < m)%Z as Hpos.
  { destruct H as (_ & Hpos & _). inversion Hpos; subst. simpl in *. lia. }
  split.
  - intros k. destruct (decide (k ∈ lines)) as [Hk | Hk].
    + apply (counts_keys _ _ k H) in Hk.
      apply list_elem_of_fmap in Hk as ([k' n] & -> & Hin).
      rewrite Forall_forall in Heach. destruct (Heach _ Hin) as [E _].
      cbn [fst snd] in *. rewrite <- E.
      rewrite Forall_forall in Hle. apply Hle.
      apply list_elem_of_fmap. by exists (k', n).
    + apply occurrences_zero in Hk. lia.
  - pose proof (fold_max_in (List.map snd counter) n0) as Hin.
    rewrite Hm in Hin. apply list_elem_of_In in Hin.
    change (n0 :: List.map snd counter)
      with (List.map snd ((k0, n0) :: counter)) in Hin.
    apply list_elem_of_fmap in Hin as ([k n] & -> & Hin).
    rewrite Forall_forall in Heach. destruct (Heach _ Hin) as [E Hk].
    cbn [fst snd] in *. exists k. by split.
Qed.

(** [calculate_import_complexity] never raises: a text that the parser
    rejects gives the empty dict.  For a parsed text, [total_imports] is
    the number of names that the import statements of the tree bring,
    nested statements included; [unique_modules] is the number of distinct
    modules they name; [most_used_module] is the largest number of names
    taken from one module.  So [unique_modules <= total_imports], and the
    number of names that have a module lies between [most_used_module]
    and [unique_modules * most_used_module]. *)
Theorem import_statistics (menv : MetricsEnv) (code : str) :
  (forall e, metrics_parse menv code = Raise e ->
             calculate_import_complexity menv code = ∅)
  /\ (forall tree,
         metrics_parse menv code = Ok tree ->
         let named := named_modules tree in
         exists most,
           calculate_import_complexity menv code
           = {[ "total_imports" := Z.of_nat (imported_names tree);
                "unique_modules" := Z.of_nat (length (remove_dups named));
                "most_used_module" := most ]}
           /\ (forall k, (occurrences k named <= most)%Z)
           /\ (named = [] -> most = 0%Z)
           /\ (named <> [] ->
               exists k, k ∈ named /\ occurrences k named = most)
           /\ (length (remove_dups named) <= length named
               <= imported_names tree)%nat
           /\ (most <= Z.of_nat (length named)
               <= Z.of_nat (length (remove_dups named)) * most)%Z).
Proof.
  split.
  { intros e He. unfold calculate_import_complexity. by rewrite He. }
  intros tree Hp named.
  unfold calculate_import_complexity. rewrite Hp. cbn [mbind result_bind].
  rewrite collect_imports_app, app_nil_l, group_modules_fold.
  fold (Counter (List.filter (fun module => negb (bool_decide (module = [])))
                   (List.map entry_module
                      (flat_map entries_of (mwalk tree))))).
  fold (named_modules tree). fold named.
  pose proof (Counter_counts named) as Hc.
  assert (length (flat_map entries_of (mwalk tree)) = imported_names tree)
    as Htotal.
  { unfold mwalk. rewrite mwalk_queue_entries. simpl. lia. }
  rewrite Htotal, (counts_length _ _ Hc).
  assert (length named <= imported_names tree)%nat as Hnamed.
  { rewrite <- Htotal, <- (length_map entry_module).
    apply PyStrFacts.filter_length_le. }
  pose proof (counts_total _ _ Hc) as Hsum.
  assert (length (remove_dups named) <= length named)%nat as Hdups.
  { rewrite <- (counts_length _ _ Hc).
    destruct Hc as (_ & Hpos & _).
    assert (Forall (fun n => (0 < n)%Z) (List.map snd (Counter named)))
      as Hpos' by (by apply Forall_fmap).
    pose proof (py_sum_ge _ Hpos') as Hge. rewrite length_map in Hge. lia. }
  destruct (Counter named) as [| item counter] eqn:E.
  - assert (named = []) as Hnil by (by apply counts_nil).
    exists 0%Z. rewrite Hnil in *. cbn [mbind result_bind].
    split; [done |]. split; [by intros k |]. split; [done |].
    split; [done |]. split; [simpl; lia | simpl; lia].
  - rewrite <- E in *.
    assert (Counter named <> []) as Hne by (by rewrite E).
    assert (exists m, py_max_list (List.map snd (Counter named)) = Ok m)
      as [m Hm] by (rewrite E; by eexists).
    rewrite Hm. cbn [mbind result_bind].
    destruct (counts_max _ _ m Hc Hne Hm) as (Hall & k & Hk & Hocc).
    exists m. split; [done |]. split; [exact Hall |].
    split; [intros Hnil; rewrite Hnil in Hk; by apply not_elem_of_nil in Hk |].
    split; [intros _; by exists k |]. split; [lia |].
    pose proof (occurrences_le_length k named). split; [lia |].
    rewrite <- Hsum, <- (counts_length _ _ Hc), <- (length_map snd).
    apply py_sum_le. apply Forall_forall. intros n Hn.
    apply list_elem_of_fmap in Hn as ([k' n'] & -> & Hin).
    pose proof (counts_each _ _ Hc) as Heach.
    rewrite Forall_forall in Heach. destruct (Heach _ Hin) as [Hn _].
    cbn [fst snd] in *. rewrite Hn. apply Hall.
Qed.

Lemma import_statistics_witness :
  calculate_import_complexity SampleMore.metrics_env (lit "import os") = ∅
  /\ exists most,
       calculate_import_complexity SampleMore.metrics_env (lit "imports")
       = {[ "total_imports"
            := Z.of_nat (imported_names SampleMore.import_tree);
            "unique_modules"
            := Z.of_nat (length (remove_dups
                                   (named_modules SampleMore.import_tree)));
            "most_used_module" := most ]}
       /\ (most <= Z.of_nat (length (named_modules SampleMore.import_tree))
           <= Z.of_nat (length (remove_dups
                                  (named_modules SampleMore.import_tree)))
              * most)%Z.
Proof.
  split.
  - destruct (import_statistics SampleMore.metrics_env (lit "import os"))
      as [H _].
    by apply (H (mkExn SyntaxError (lit "invalid syntax"))).
  - destruct (import_statistics SampleMore.metrics_env (lit "imports"))
      as [_ H].
    destruct (H SampleMore.import_tree eq_refl)
      as (most & H1 & _ & _ & _ & _ & H2).
    by exists most.
Defined.

(** The sample: nine names, six modules, at most two names from one. *)
Example import_statistics_sample :
  let stats :=
    calculate_import_complexity SampleMore.metrics_env (lit "imports") in
  stats !! "total_imports" = Some 9%Z
  /\ stats !! "unique_modules" = Some 6%Z
  /\ stats !! "most_used_module" = Some 2%Z.
Proof. by vm_compute. Qed.

End ImportExtras.

(** ** Function statistics *)

Module FunctionExtras.
Import RecordExtras ImportExtras.

(** The loop keeps the entries of the [def] statements, in the order of
    the walk, and fails when one of them cannot be measured. *)
Lemma collect_functions_mapM (menv : MetricsEnv) (code : str)
    (nodes : list mnode) (functions : list function_entry) :
  collect_functions menv code nodes functions
  = (entries ← mapM (measured menv code)
                 (List.filter is_function_node nodes);
     Some (functions ++ entries)).
Proof.
  revert functions.
  induction nodes as [| node nodes IH]; intros functions.
  - cbn. by rewrite app_nil_r.
  - destruct node as [names | m names | a | name ar pos children | children];
      cbn [collect_functions List.filter is_function_node]; try apply IH.
    cbn [mapM measured].
    destruct (measure_function menv code name ar pos) as [entry |];
      cbn [mbind option_bind]; [| done].
    rewrite IH.
    destruct (mapM (measured menv code) (List.filter is_function_node nodes))
      as [entries |]; cbn [mbind option_bind mret option_ret]; [| done].
    by rewrite <- app_assoc.
Qed.

Lemma mapM_None_inv {A B} (f : A -> option B) (l : list A) :
  mapM f l = None -> exists x, x ∈ l /\ f x = None.
Proof.
  induction l as [| x l IH]; cbn [mapM]; [done |].
  destruct (f x) as [y |] eqn:E; cbn [mbind option_bind].
  - destruct (mapM f l) as [k |]; cbn [mbind option_bind]; [done |].
    intros _. destruct (IH eq_refl) as (x' & Hin & Hx').
    exists x'. split; [by apply elem_of_cons; right | done].
  - intros _. exists x. split; [apply elem_of_cons; by left | done].
Qed.




(** [max] of a list that is not empty: an element that bounds all. *)
Lemma max_or_zero_attained (l : list Z) :
  l <> [] ->
  exists m, max_or_zero l = Some m
            /\ Forall (fun y => (y <= m)%Z) l /\ In m l.
Proof.
  destruct l as [| x l]; [done |]. intros _.
  cbn [max_or_zero py_max_list caught mret result_ret].
  eexists. split; [reflexivity |].
  destruct (fold_max_bounds l x) as [H0 Hall]. cbv zeta in H0, Hall.
  split; [by constructor | apply fold_max_in].
Qed.

(** The dict of a text whose [def] statements are all measured. *)
Lemma stats_of_functions (menv : MetricsEnv) (code : str) (tree : mnode)
    (functions : list function_entry) :
  metrics_parse menv code = Ok tree ->
  mapM (measured menv code) (function_nodes tree) = Some functions ->
  functions <> [] ->
  exists longest most,
    max_or_zero (List.map f_lines functions) = Some longest
    /\ max_or_zero (List.map f_params functions) = Some most
    /\ calculate_function_stats menv code
       = {[ "num_functions" := inject_Z (Z.of_nat (length functions));
            "avg_function_length"
            := PyNum.round2
                 (inject_Z (py_sum (List.map f_lines functions))
                  / inject_Z (Z.of_nat (length functions)));
            "avg_function_params"
            := PyNum.round2
                 (inject_Z (py_sum (List.map f_params functions))
                  / inject_Z (Z.of_nat (length functions)));
            "longest_function" := inject_Z longest;
            "max_params" := inject_Z most ]}.
Proof.
  intros Hparse Hm Hne.
  assert (List.map f_lines functions <> []) as Hl
    by (by destruct functions).
  assert (List.map f_params functions <> []) as Hp
    by (by destruct functions).
  destruct (max_or_zero_attained _ Hl) as (longest & El & _).
  destruct (max_or_zero_attained _ Hp) as (most & Ep & _).
  exists longest, most. split; [exact El |]. split; [exact Ep |].
  unfold calculate_function_stats. rewrite Hparse.
  cbn [caught mbind option_bind]. rewrite collect_functions_mapM.
  fold (function_nodes tree). rewrite Hm. cbn [mbind option_bind app].
  destruct functions as [| f functions]; [done |].
  set (fs := f :: functions) in *.
  assert (~ inject_Z (Z.of_nat (length fs)) == 0) as Hlen
    by (apply ExtractorFacts.inject_Z_nonzero; simpl; lia).
  rewrite !ExtractorFacts.py_div_ok by exact Hlen.
  cbn [caught mbind option_bind]. rewrite El, Ep. by cbn [mbind option_bind].
Qed.



(** [calculate_function_stats] never raises, and it returns the empty
    dict in three cases only: [ast.parse] raises, the tree has no [def]
    statement, or the text of some [def] statement cannot be read (the
    call [ast.get_source_segment] raises or returns [None]). *)
Theorem function_stats_empty (menv : MetricsEnv) (code : str) :
  calculate_function_stats menv code = ∅
  <-> (exists e, metrics_parse menv code = Raise e)
      \/ exists tree,
           metrics_parse menv code = Ok tree
           /\ (function_nodes tree = []
               \/ exists node, node ∈ function_nodes tree
                               /\ measured menv code node = None).
Proof.
  destruct (metrics_parse menv code) as [tree | e] eqn:Hparse.
  2: { split; [intros _; left; by exists e |].
       intros _. unfold calculate_function_stats. by rewrite Hparse. }
  destruct (mapM (measured menv code) (function_nodes tree))
    as [functions |] eqn:Hm.
  - pose proof Hm as Hall. apply mapM_Some_1 in Hall.
    destruct functions as [| f functions].
    + assert (function_nodes tree = []) as Hnil
        by (by apply Forall2_nil_inv_r in Hall).
      split; [intros _; right; exists tree; by split; [| left] |].
      intros _. unfold calculate_function_stats. rewrite Hparse.
      cbn [caught mbind option_bind]. rewrite collect_functions_mapM.
      fold (function_nodes tree). by rewrite Hm.
    + destruct (stats_of_functions menv code tree (f :: functions)
                  Hparse Hm) as (longest & most & _ & _ & Hstats); [done |].
      split.
      * intros Hempty. rewrite Hempty in Hstats.
        apply (f_equal (fun d => d !! "num_functions")) in Hstats.
        by vm_compute in Hstats.
      * intros [[e He] | (tree' & [= <-] & [Hnil | (node & Hin & Hnone)])];
          [done | |].
        -- rewrite Hnil in Hall. by apply Forall2_nil_inv_l in Hall.
        -- assert (is_Some (mapM (measured menv code) (function_nodes tree)))
             as Hsome by (by rewrite Hm).
           apply mapM_is_Some in Hsome. rewrite Forall_forall in Hsome.
           specialize (Hsome node Hin). cbn in Hsome.
           rewrite Hnone in Hsome. by destruct Hsome.
  - split; [| intros _; unfold calculate_function_stats; rewrite Hparse;
              cbn [caught mbind option_bind];
              rewrite collect_functions_mapM; fold (function_nodes tree);
              by rewrite Hm].
    intros _. right. exists tree. split; [done |]. right.
    by apply mapM_None_inv.
Qed.

Lemma function_stats_empty_witness :
  calculate_function_stats SampleMore.unplaced_env SampleMore.functions_code
  = ∅.
Proof.
  apply (function_stats_empty SampleMore.unplaced_env
           SampleMore.functions_code).
  right. exists SampleMore.functions_tree. split; [reflexivity |]. right.
  exists (FunctionDefNode (lit "show") (mkArguments [lit "x"] 0)
            (mkPosition 7 4 8 16) [MNode [MNode []]; MNode []]).
  split; [| reflexivity].
  let l := eval vm_compute in (function_nodes SampleMore.functions_tree) in
  change (function_nodes SampleMore.functions_tree) with l.
  rewrite !elem_of_cons. right. right. by left.
Defined.

(** The sample: three functions, of 3, 4 and 2 lines. *)
Example function_stats_sample :
  let stats :=
    calculate_function_stats SampleMore.metrics_env SampleMore.functions_code in
  stats !! "num_functions" = Some 3
  /\ (exists v, stats !! "avg_function_length" = Some v /\ v == 3)
  /\ (exists v, stats !! "avg_function_params" = Some v /\ v == 1)
  /\ stats !! "longest_function" = Some 4
  /\ stats !! "max_params" = Some 2.
Proof.
  vm_compute. repeat split; eexists; (split; [reflexivity | done]).
Qed.

End FunctionExtras.
